(** * sunwaee-mt5-template: the feature-encoding pipeline and the training step

    A shallow embedding of [databuilder.py] (class [Databuilder] and [main])
    and of [source/trainer.py] (class [Trainer]), with the properties of the
    specification stated and proved over it.

    Python values are modelled as follows.
    - [str] is [string]; slicing, concatenation and [str.replace] are the
      functions of module [PyStr].
    - a [dict] with string keys is a [gmap string _]; a missing key raises
      [KeyError].
    - exceptions are the [Err] results of the [result] monad; code that
      also mutates objects threads them through explicitly. *)

From Stdlib Require Import ZArith QArith Lia.
From stdpp Require Import base option list gmap strings fin_maps sorting.

Set Default Proof Using "Type".
Local Open Scope Z_scope.
Local Open Scope nat_scope.

(** ** Exceptions *)

Inductive error : Type :=
  | KeyError (key : string)
  | IndexError
  | NameError (name : string)
  | FileNotFoundError (path : string)
  | AssertionError (msg : string)
  | ValueError (msg : string)
  | RuntimeError (msg : string)
  | ArrowInvalid.

Inductive result (A : Type) : Type :=
  | Ok (a : A)
  | Err (e : error).
Arguments Ok {A} a.
Arguments Err {A} e.

#[global] Instance result_ret : MRet result := λ A a, Ok a.
#[global] Instance result_bind : MBind result := λ A B f m,
  match m with Ok a => f a | Err e => Err e end.
#[global] Instance result_fmap : FMap result := λ A B f m,
  match m with Ok a => Ok (f a) | Err e => Err e end.

(** The value of a result, if it is one. *)
Definition ok_value {A} (r : result A) : option A :=
  match r with Ok a => Some a | Err _ => None end.

(** [d[k]] on a dict. *)
Definition getitem {V} (d : gmap string V) (k : string) : result V :=
  match d !! k with Some v => Ok v | None => Err (KeyError k) end.

(** ** Python strings *)

Module PyStr.

(** [s[n:]] for [0 <= n]. *)
Fixpoint drop (n : nat) (s : string) : string :=
  match n, s with
  | O, _ => s
  | S n', EmptyString => EmptyString
  | S n', String _ s' => drop n' s'
  end.

(** [s[-n:]] for [0 < n]: the last [n] characters, the whole of [s] when
    it is shorter. *)
Definition last (n : nat) (s : string) : string :=
  drop (String.length s - n) s.

(** [s.startswith(p)] *)
Fixpoint startswith (p s : string) : bool :=
  match p, s with
  | EmptyString, _ => true
  | String _ _, EmptyString => false
  | String a p', String b s' => Ascii.eqb a b && startswith p' s'
  end.

(** [s == t] *)
Definition eqb (s t : string) : bool := bool_decide (s = t).

(** [new.join(s)] over the characters of [s], with [new] at both ends:
    what [s.replace("", new)] is. *)
Fixpoint interleave (new s : string) : string :=
  match s with
  | EmptyString => new
  | String c s' => new +:+ String c (interleave new s')
  end.

(** The scan of [s.replace(old, new)] for a non-empty [old], left to
    right; [skip] counts the characters of a match still to be passed
    over. *)
Fixpoint replace_from (old new : string) (skip : nat) (s : string) : string :=
  match s with
  | EmptyString => EmptyString
  | String c s' =>
      match skip with
      | S k => replace_from old new k s'
      | O =>
          if startswith old s
          then new +:+ replace_from old new (String.length old - 1) s'
          else String c (replace_from old new O s')
      end
  end.

(** [s.replace(old, new)]: every non-overlapping occurrence of [old],
    found from the left, is replaced by [new]. *)
Definition replace (old new s : string) : string :=
  match old with
  | EmptyString => interleave new s
  | String _ _ => replace_from old new O s
  end.

(** [old in s] *)
Definition occurs (old s : string) : Prop :=
  ∃ a b, s = a +:+ old +:+ b.

(** No proper non-empty suffix of [p] is a prefix of [p]: two occurrences
    of [p] cannot overlap. *)
Definition unbordered (p : string) : bool :=
  forallb (λ k, negb (startswith (drop k p) p)) (seq 1 (String.length p - 1)).

End PyStr.

(** ** A state and exception monad

    A computation over a mutable [S] that may raise: the final state is
    returned also when an exception is raised, as the mutations made before
    a Python exception stay. *)

Definition M (S A : Type) : Type := S → result A * S.

#[global] Instance M_ret {S} : MRet (M S) := λ A a s, (Ok a, s).
#[global] Instance M_bind {S} : MBind (M S) := λ A B f m s,
  match m s with
  | (Ok a, s') => f a s'
  | (Err e, s') => (Err e, s')
  end.

Definition get {S} : M S S := λ s, (Ok s, s).
Definition modify {S} (f : S → S) : M S () := λ s, (Ok (), f s).
Definition raise {S A} (e : error) : M S A := λ s, (Err e, s).
Definition lift {S A} (r : result A) : M S A := λ s, (r, s).

(** [assert c, msg] *)
Definition assert {S} (c : bool) (msg : string) : M S () :=
  if c then mret () else raise (AssertionError msg).

(** ** The external collaborators of databuilder.py *)

(** The tokenizer object. [encode added text] is the id sequence of [text],
    special tokens included, under a vocabulary extended with [added]. *)
Record MT5Tokenizer : Type := {
  added_tokens : list string;
  pad_token_id : Z;
  encode : list string → string → list Z;
}.

(** [tokenizer.add_tokens(new)]: the tokens not yet known are appended. *)
Definition add_tokens (new : list string) (tok : MT5Tokenizer) : MT5Tokenizer := {|
  added_tokens :=
    added_tokens tok ++ filter (λ x, x ∉ added_tokens tok) (remove_dups new);
  pad_token_id := pad_token_id tok;
  encode := encode tok;
|}.

Record BatchEncoding : Type := {
  input_ids : list (list Z);
  attention_mask : list (list Z);
}.

(** Modelled from the spec: the tokenizer's batch encoding is a library
    call, described as mapping each text to its ids, truncating a sequence
    that exceeds the max length from the end, padding every sequence to the
    max length with the pad id, and giving a mask of 1 for a real token and
    0 for padding. This is one text of
    [batch_encode_plus(.., max_length, padding='max_length', truncation=True)]. *)
Definition encode_plus (tok : MT5Tokenizer) (max_length : nat) (text : string)
    : list Z * list Z :=
  let ids := take max_length (encode tok (added_tokens tok) text) in
  let n_pad := max_length - length ids in
  (ids ++ replicate n_pad (pad_token_id tok),
   replicate (length ids) 1%Z ++ replicate n_pad 0%Z).

(** Modelled from the spec: the batch call encodes each text of the batch
    independently, in order. *)
Definition batch_encode_plus (tok : MT5Tokenizer)
    (batch_text_or_text_pairs : list string) (max_length : nat) : BatchEncoding := {|
  input_ids := (λ x, (encode_plus tok max_length x).1) <$> batch_text_or_text_pairs;
  attention_mask := (λ x, (encode_plus tok max_length x).2) <$> batch_text_or_text_pairs;
|}.

(** A row of the text dataset. [main] loads the frames with [astype(str)],
    so every cell is a [str]. *)
Abbreviation Row := (gmap string string).

(** A slice of the dataset as the batched [map] hands it to its function:
    column name to the list of the column's cells. *)
Abbreviation Batch := (gmap string (list string)).

(** A cell of the encoded dataset: a text or a list of ids. *)
Inductive cell : Type :=
  | Text (s : string)
  | Ids (l : list Z).

Abbreviation Example := (gmap string cell).

(** The dataset abstraction ([nlp.Dataset]), as the ordered list of its
    rows. *)
Module Dataset.

(** [dataset.map(function)]: the function is applied to the rows in order.
    The functions of this program mutate the row they are given and return
    it, so that merging the returned dict into the row changes nothing. *)
Definition map (function : Row → result Row) (dataset : list Row)
    : result (list Row) :=
  mapM function dataset.

(** [range(0, len(dataset), batch_size)] and the slices
    [dataset[i : i + batch_size]]. *)
Definition slices {A} (batch_size : nat) (dataset : list A) : list (list A) :=
  (λ i, take batch_size (drop (i * batch_size) dataset))
    <$> seq 0 ((length dataset + (batch_size - 1)) / batch_size).

(** The dict of columns of a slice; the column names are those of its
    first row. *)
Definition to_batch (rows : list Row) : Batch :=
  match rows with
  | [] => ∅
  | r :: _ => map_imap (λ c _, mapM (λ r' : Row, r' !! c) rows) r
  end.

(** The rows of a table of [n] rows given by its columns, which must all
    have [n] cells. *)
Definition from_columns (n : nat) (columns : gmap string (list cell))
    : result (list Example) :=
  if decide (map_Forall (λ _ col, length col = n) columns)
  then Ok ((λ i, omap (λ col : list cell, col !! i) columns) <$> seq 0 n)
  else Err ArrowInvalid.

(** One slice of [dataset.map(function, batched=True)]: the slice is handed
    to the function as a dict of columns, the returned columns are merged
    into it ([batch.update(..)]), and the merged batch is written back as
    rows. *)
Definition map_slice (function : Batch → result (gmap string (list (list Z))))
    (rows : list Row) : result (list Example) :=
  let batch := to_batch rows in
  match function batch with
  | Ok encodings =>
      from_columns (length rows)
        ((fmap (M := list) Ids <$> encodings) ∪ (fmap (M := list) Text <$> batch))
  | Err e => Err e
  end.

(** [dataset.map(function, batched=True)] *)
Definition map_batched (function : Batch → result (gmap string (list (list Z))))
    (batch_size : nat) (dataset : list Row) : result (list Example) :=
  (λ written, concat written) <$> mapM (map_slice function) (slices batch_size dataset).

(** The default [batch_size] of [map]. *)
Definition default_batch_size : nat := 1000.

End Dataset.

(** ** databuilder.py *)

Module DatabuilderArguments.

Record t : Type := {
  highlight_token : string;
  separation_token : string;
  tokenizer_name_or_path : string;
  global_output_dir : string;
  train_csv_path : string;
  valid_csv_path : string;
  train_file_path : string;
  valid_file_path : string;
  source_column : string;
  target_column : string;
  config_path : string;
  source_max_length : nat;
  target_max_length : nat;
}.

End DatabuilderArguments.

Definition DEFAULT_ARGS : DatabuilderArguments.t := {|
  DatabuilderArguments.source_max_length := 512;
  DatabuilderArguments.target_max_length := 30;
  DatabuilderArguments.highlight_token := "<hl>";
  DatabuilderArguments.separation_token := "<sep>";
  DatabuilderArguments.tokenizer_name_or_path := "google/mt5-small";
  DatabuilderArguments.global_output_dir := "model";
  DatabuilderArguments.train_csv_path := "data/train.tsv";
  DatabuilderArguments.valid_csv_path := "data/valid.tsv";
  DatabuilderArguments.source_column := "source_text";
  DatabuilderArguments.target_column := "target_text";
  DatabuilderArguments.train_file_path := "data/train.pt";
  DatabuilderArguments.valid_file_path := "data/valid.pt";
  DatabuilderArguments.config_path := "model/params.json";
|}.

Definition eos_marker : string := "</s>".
Definition hl_pattern : string := "{hl_token}".
Definition sep_pattern : string := "{sep_token}".

(** [[x + " </s>", x][x[-4:] == '</s>']] *)
Definition add_eos_text (x : string) : string :=
  if PyStr.eqb (PyStr.last 4 x) eos_marker then x else x +:+ " </s>".

Module Databuilder.

Record t : Type := {
  tokenizer : MT5Tokenizer;
  source_max_length : nat;
  target_max_length : nat;
  highlight_token : string;
  separation_token : string;
  source_column : string;
  target_column : string;
}.

Definition __init__ (tokenizer : MT5Tokenizer) (args : DatabuilderArguments.t) : t := {|
  tokenizer := tokenizer;
  source_max_length := DatabuilderArguments.source_max_length args;
  target_max_length := DatabuilderArguments.target_max_length args;
  highlight_token := DatabuilderArguments.highlight_token args;
  separation_token := DatabuilderArguments.separation_token args;
  source_column := DatabuilderArguments.source_column args;
  target_column := DatabuilderArguments.target_column args;
|}.

(** The row is mutated in place and returned: the second assignment reads
    the row the first one wrote. *)
Definition _add_eos (self : t) (row : Row) : result Row :=
  x ← getitem row (source_column self);
  let row := <[source_column self := add_eos_text x]> row in
  y ← getitem row (target_column self);
  let row := <[target_column self := add_eos_text y]> row in
  Ok row.

Definition _replace_special_tokens (self : t) (row : Row) : result Row :=
  x ← getitem row (source_column self);
  let row :=
    <[source_column self := PyStr.replace hl_pattern (highlight_token self) x]> row in
  y ← getitem row (target_column self);
  let row :=
    <[target_column self := PyStr.replace sep_pattern (separation_token self) y]> row in
  Ok row.

Definition _to_features (self : t) (batch : Batch)
    : result (gmap string (list (list Z))) :=
  source ← getitem batch (source_column self);
  let encoded_source :=
    batch_encode_plus (tokenizer self) source (source_max_length self) in
  target ← getitem batch (target_column self);
  let encoded_target :=
    batch_encode_plus (tokenizer self) target (target_max_length self) in
  let encodings : gmap string (list (list Z)) :=
    {[ "source_ids" := input_ids encoded_source;
       "target_ids" := input_ids encoded_target;
       "attention_mask" := attention_mask encoded_source ]} in
  Ok encodings.

Definition preprocess (self : t) (dataset : list Row) : result (list Example) :=
  dataset ← Dataset.map (_add_eos self) dataset;
  dataset ← Dataset.map (_replace_special_tokens self) dataset;
  dataset ← Dataset.map_batched (_to_features self) Dataset.default_batch_size dataset;
  Ok dataset.

End Databuilder.

(** *** The world [main] runs in *)

(** A frame as [pd.read_csv(.., sep='\t').astype(str)] returns it: the
    column names and the rows, each row holding one cell per column. *)
Record DataFrame : Type := {
  columns : list string;
  values : list (list string);
}.

(** A dataset object with the output format [set_format] selected. *)
Record FormattedDataset : Type := {
  examples : list Example;
  format_type : string;
  format_columns : list string;
}.

(** The calls [main] makes on its collaborators, in order. *)
Inductive event : Type :=
  | LogInfo (msg : string)
  | ReadJson (path : string)
  | ReadCsv (path : string)
  | FromPretrained (name : string)
  | AddTokens (tokens : list string)
  | Preprocess (rows : nat)
  | TorchSave (path : string)
  | Mkdir (path : string)
  | SavePretrained (dir : string).

Record World : Type := {
  json_files : gmap string (list (string * string));
  csv_files : gmap string DataFrame;
  pretrained : gmap string MT5Tokenizer;
  pt_files : gmap string FormattedDataset;
  directories : gset string;
  trace : list event;
}.

(** The world after the calls [es] have been made, nothing else changed. *)
Definition traced (es : list event) (w : World) : World := {|
  json_files := json_files w; csv_files := csv_files w;
  pretrained := pretrained w; pt_files := pt_files w;
  directories := directories w; trace := trace w ++ es |}.

Definition emit (e : event) : M World () := modify (traced [e]).

(** [logger.info(msg)] *)
Definition logger_info (msg : string) : M World () := emit (LogInfo msg).

(** [json.load(open(path, "r"))]: the keys of the object in order, each
    with the [str] of its value. *)
Definition json_load (path : string) : M World (list (string * string)) :=
  w ← get;
  match json_files w !! path with
  | Some config => emit (ReadJson path);; mret config
  | None => raise (FileNotFoundError path)
  end.

(** [pd.read_csv(filepath_or_buffer=path, sep='\t').astype(str)] *)
Definition read_csv (path : string) : M World DataFrame :=
  w ← get;
  match csv_files w !! path with
  | Some df => emit (ReadCsv path);; mret df
  | None => raise (FileNotFoundError path)
  end.

(** [Dataset.from_pandas(df)] *)
Definition from_pandas (df : DataFrame) : list Row :=
  (λ cells, list_to_map (zip (columns df) cells)) <$> values df.

(** [MT5Tokenizer.from_pretrained(name)] *)
Definition from_pretrained (name : string) : M World MT5Tokenizer :=
  w ← get;
  match pretrained w !! name with
  | Some tok => emit (FromPretrained name);; mret tok
  | None => raise (FileNotFoundError name)
  end.

(** [dataset.set_format(type=.., columns=..)]: the columns must be columns
    of the dataset. A dataset without rows comes out of [map] as it went
    in, with the columns of the text frame and none of the columns that
    [map] adds: asking it for columns raises as well. *)
Definition set_format (type : string) (columns : list string)
    (dataset : list Example) : result FormattedDataset :=
  match dataset, columns with
  | [], _ :: _ => Err (ValueError "Columns not in the dataset")
  | _, _ =>
      if forallb (λ ex : Example, forallb (λ c, bool_decide (is_Some (ex !! c))) columns)
           dataset
      then Ok {| examples := dataset; format_type := type; format_columns := columns |}
      else Err (ValueError "Columns not in the dataset")
  end.

(** [torch.save(dataset, path)] *)
Definition torch_save (dataset : FormattedDataset) (path : string) : M World () :=
  modify (λ w, {|
    json_files := json_files w; csv_files := csv_files w;
    pretrained := pretrained w; pt_files := <[path := dataset]> (pt_files w);
    directories := directories w; trace := trace w ++ [TorchSave path] |}).

(** The rows of the dataset saved at [path], if there is one. *)
Definition saved_examples (path : string) (w : World) : option (list Example) :=
  examples <$> pt_files w !! path.

(** [os.path.exists(path)] *)
Definition path_exists (path : string) : M World bool :=
  w ← get; mret (bool_decide (path ∈ directories w)).

(** [os.mkdir(path)] *)
Definition mkdir (path : string) : M World () :=
  modify (λ w, {|
    json_files := json_files w; csv_files := csv_files w;
    pretrained := pretrained w; pt_files := pt_files w;
    directories := {[path]} ∪ directories w; trace := trace w ++ [Mkdir path] |}).

(** [tokenizer.save_pretrained(dir)] *)
Definition save_pretrained (tokenizer : MT5Tokenizer) (dir : string) : M World () :=
  modify (λ w, {|
    json_files := json_files w; csv_files := csv_files w;
    pretrained := <[dir := tokenizer]> (pretrained w); pt_files := pt_files w;
    directories := directories w; trace := trace w ++ [SavePretrained dir] |}).

(** [for x in l: body(x)] *)
Fixpoint for_each {S A} (l : list A) (body : A → M S ()) : M S () :=
  match l with
  | [] => mret ()
  | x :: l' => body x;; for_each l' body
  end.

Definition missing_columns_msg (db_args : DatabuilderArguments.t) (path : string) : string :=
  DatabuilderArguments.source_column db_args +:+ " or " +:+
  DatabuilderArguments.target_column db_args +:+ " column missing in " +:+ path +:+ ".".

Definition pt_files_msg : string :=
  "train_file_path and valid_file_path must be .pt files.".

(** [main], from the point where the argument parser has produced
    [db_args]. *)
Definition main (db_args : DatabuilderArguments.t) : M World () :=
  (* Showing config *)
  config ← json_load (DatabuilderArguments.config_path db_args);
  logger_info "This config is being built: ";;
  for_each config (λ kv, logger_info ("     " +:+ kv.1 +:+ "=" +:+ kv.2));;
  (* Loading dataframes *)
  train_df ← read_csv (DatabuilderArguments.train_csv_path db_args);
  valid_df ← read_csv (DatabuilderArguments.valid_csv_path db_args);
  (* Assertions *)
  assert (bool_decide (DatabuilderArguments.source_column db_args ∈ columns train_df)
          && bool_decide (DatabuilderArguments.target_column db_args ∈ columns train_df))
    (missing_columns_msg db_args (DatabuilderArguments.train_csv_path db_args));;
  assert (bool_decide (DatabuilderArguments.source_column db_args ∈ columns valid_df)
          && bool_decide (DatabuilderArguments.target_column db_args ∈ columns valid_df))
    (missing_columns_msg db_args (DatabuilderArguments.valid_csv_path db_args));;
  assert (PyStr.eqb (PyStr.last 3 (DatabuilderArguments.train_file_path db_args)) ".pt"
          && PyStr.eqb (PyStr.last 3 (DatabuilderArguments.valid_file_path db_args)) ".pt")
    pt_files_msg;;
  (* Building Datasets from dataframes *)
  let train_dataset := from_pandas train_df in
  let valid_dataset := from_pandas train_df in
  (* Loading tokenizer and adding special tokens *)
  tokenizer ← from_pretrained (DatabuilderArguments.tokenizer_name_or_path db_args);
  let new_tokens := [DatabuilderArguments.highlight_token db_args;
                     DatabuilderArguments.separation_token db_args] in
  emit (AddTokens new_tokens);;
  let tokenizer := add_tokens new_tokens tokenizer in
  (* Initializing preprocessor *)
  let preprocessor := Databuilder.__init__ tokenizer db_args in
  (* Preprocessing both datasets *)
  emit (Preprocess (length train_dataset));;
  train_dataset ← lift (Databuilder.preprocess preprocessor train_dataset);
  emit (Preprocess (length valid_dataset));;
  valid_dataset ← lift (Databuilder.preprocess preprocessor valid_dataset);
  (* Changing datasets format *)
  let columns := ["source_ids"; "target_ids"; "attention_mask"] in
  train_dataset ← lift (set_format "torch" columns train_dataset);
  valid_dataset ← lift (set_format "torch" columns valid_dataset);
  (* Saving datasets *)
  torch_save train_dataset (DatabuilderArguments.train_file_path db_args);;
  logger_info ("Train dataset saved at " +:+
               DatabuilderArguments.train_file_path db_args +:+ ". ");;
  torch_save valid_dataset (DatabuilderArguments.valid_file_path db_args);;
  logger_info ("Validation dataset saved at " +:+
               DatabuilderArguments.valid_file_path db_args +:+ ". ");;
  (* Saving tokenizer *)
  dir_exists ← path_exists (DatabuilderArguments.global_output_dir db_args);
  (if negb dir_exists
   then mkdir (DatabuilderArguments.global_output_dir db_args)
   else mret ());;
  save_pretrained tokenizer (DatabuilderArguments.global_output_dir db_args);;
  logger_info ("Tokenizer saved at " +:+
               DatabuilderArguments.global_output_dir db_args +:+ ". ").

(** ** source/trainer.py *)

(** The tensor library and the mixed-precision subsystem, as far as the
    training step uses them. [Scalar] is the Python [float]; [amp] is
    [apex.amp.scale_loss], bound only when apex is available. *)
Class Torch : Type := {
  Tensor : Type;
  Device : Type;
  Scalar : Type;
  Optimizer : Type;
  (** [t.to(device)] *)
  tensor_to : Tensor → Device → Tensor;
  (** [t.mean()] *)
  tensor_mean : Tensor → Tensor;
  (** [t / k] for an [int] [k] *)
  tensor_div : Tensor → Z → Tensor;
  (** [t.item()] *)
  tensor_item : Tensor → result Scalar;
  (** whether [t.backward()] runs through *)
  tensor_backward : Tensor → result ();
  (** the loss that [with amp.scale_loss(loss, optimizer)] yields *)
  amp : option (Tensor → Optimizer → Tensor);
}.

(** The values of a batch: a tensor, or anything else. *)
Inductive Value `{Torch} : Type :=
  | VTensor (t : Tensor)
  | VBool (b : bool)
  | VInt (z : Z)
  | VStr (s : string)
  | VNone.

(** The fields of [TrainingArguments] the step reads. *)
Record TrainingArguments `{Torch} : Type := {
  device : Device;
  n_gpu : Z;
  gradient_accumulation_steps : Z;
  fp16 : bool;
}.

(** An [nn.Module]: whether it is an [nn.DataParallel], and its forward
    pass, which depends on the training mode and on the keyword inputs. *)
Record Module `{Torch} : Type := {
  is_DataParallel : bool;
  forward : bool → gmap string Value → result (list Tensor);
}.

(** The calls a step can make on the model, the scaler and the optimizer. *)
Inductive call `{Torch} : Type :=
  | ModelTrain
  | ModelForward (kwargs : gmap string Value)
  | AmpScaleLoss (loss : Tensor)
  | Backward (t : Tensor)
  | OptimizerStep
  | OptimizerZeroGrad.

(** The objects shared with the caller: the batch dict [inputs], the
    model's training flag, and the record of the calls made. *)
Record Heap `{Torch} : Type := {
  inputs : gmap string Value;
  training : bool;
  calls : list call;
}.

Module Trainer.
Section trainer.
Context `{Torch}.

Record t : Type := {
  args : TrainingArguments;
  label_smoothing : Scalar;
}.

(** [Trainer(label_smoothing=.., args=.., ..)] *)
Definition __init__ (label_smoothing : Scalar) (args : TrainingArguments) : t := {|
  args := args;
  label_smoothing := label_smoothing;
|}.

Definition record (c : call) : M Heap () :=
  modify (λ h, {| inputs := inputs h; training := training h; calls := calls h ++ [c] |}).

(** [model.train()] *)
Definition model_train : M Heap () :=
  modify (λ h, {| inputs := inputs h; training := true; calls := calls h ++ [ModelTrain] |}).

(** [v.to(device) if isinstance(v, torch.Tensor) else v] *)
Definition to_device (device : Device) (v : Value) : Value :=
  match v with
  | VTensor t => VTensor (tensor_to t device)
  | _ => v
  end.

(** [for k, v in inputs.items(): if isinstance(v, torch.Tensor): inputs[k] = v.to(device)]
    on the caller's dict. *)
Definition send_to_device (device : Device) : M Heap () :=
  modify (λ h, {| inputs := to_device device <$> inputs h;
                  training := training h; calls := calls h |}).

(** [inputs[k] = v] on the caller's dict. *)
Definition setitem (k : string) (v : Value) : M Heap () :=
  modify (λ h, {| inputs := <[k := v]> (inputs h);
                  training := training h; calls := calls h |}).

(** the call of [model] with [inputs] unpacked as keyword arguments *)
Definition model_call (model : Module) : M Heap (list Tensor) :=
  h ← get;
  record (ModelForward (inputs h));;
  lift (forward model (training h) (inputs h)).

(** [outputs[0]] *)
Definition first (outputs : list Tensor) : result Tensor :=
  match outputs with
  | loss :: _ => Ok loss
  | [] => Err IndexError
  end.

(** [t.backward()] *)
Definition backward (t : Tensor) : M Heap () :=
  record (Backward t);;
  lift (tensor_backward t).

Definition _training_step (self : t) (model : Module) (optimizer : Optimizer)
    : M Heap Scalar :=
  (* Training the model *)
  model_train;;
  (* Sending keys to device *)
  send_to_device (device (args self));;
  (* Forcing return tuple *)
  (if is_DataParallel model then setitem "return_tuple" (VBool true) else mret ());;
  (* Getting output *)
  outputs ← model_call model;
  loss ← lift (first outputs);
  (* Calculating loss *)
  let loss := if (1 <? n_gpu (args self))%Z then tensor_mean loss else loss in
  let loss :=
    if (1 <? gradient_accumulation_steps (args self))%Z
    then tensor_div loss (gradient_accumulation_steps (args self))
    else loss in
  (* Taking fp16 in account *)
  (if fp16 (args self) then
     match amp with
     | Some scale_loss =>
         record (AmpScaleLoss loss);;
         let scaled_loss := scale_loss loss optimizer in
         backward scaled_loss
     | None => raise (NameError "amp")
     end
   else backward loss);;
  lift (tensor_item loss).

(** The loss after the two conditional adjustments, in the words of the
    specification: the mean over the replicas when more than one replica is
    active, then the division by the accumulation step count when that
    count exceeds 1. *)
Definition adjusted_loss (n_gpu accumulation_steps : Z) (loss : Tensor) : Tensor :=
  let reduced := if (n_gpu >? 1)%Z then tensor_mean loss else loss in
  if (accumulation_steps >? 1)%Z then tensor_div reduced accumulation_steps else reduced.

(** The tensor [backward] is invoked on, given the adjusted loss: the loss
    itself, or with [fp16] the scaled loss that [amp.scale_loss] yields. *)
Definition backward_operand (self : t) (optimizer : Optimizer) (loss : Tensor)
    : result Tensor :=
  if fp16 (args self) then
    match amp with
    | Some scale_loss => Ok (scale_loss loss optimizer)
    | None => Err (NameError "amp")
    end
  else Ok loss.

(** The batch dict as the step leaves it: every tensor moved to the device,
    and [return_tuple] set when the model is data-parallel. *)
Definition sent_inputs (self : t) (model : Module) (inputs : gmap string Value)
    : gmap string Value :=
  let moved := to_device (device (args self)) <$> inputs in
  if is_DataParallel model then <["return_tuple" := VBool true]> moved else moved.

(** The tensors [backward] was invoked on, in order. *)
Definition backward_calls (cs : list call) : list Tensor :=
  omap (λ c, match c with Backward t => Some t | _ => None end) cs.

(** A computation that leaves the batch dict as it finds it. *)
Definition keeps_inputs {A} (m : M Heap A) : Prop :=
  ∀ h, inputs (m h).2 = inputs h.

End trainer.
End Trainer.

(** ** The words of the specification *)

(** [x] ends with [m]: for a marker of four characters, the trailing four
    characters of [x] are the marker. *)
Definition ends_with (x m : string) : Prop := ∃ p, x = p +:+ m.

(** EOS normalization of a field [x] into [x']: unchanged when [x] ends
    with the marker, one space and the marker appended otherwise. *)
Definition eos_normalized (x x' : string) : Prop :=
  (ends_with x eos_marker → x' = x) ∧
  (¬ ends_with x eos_marker → x' = x +:+ " " +:+ eos_marker).

(** [f] replaces every occurrence of the literal [old] by [new]: a text
    without an occurrence is unchanged, and around any occurrence the text
    before it and the text behind it are treated likewise. *)
Definition replaces_every_occurrence (old new : string) (f : string → string) : Prop :=
  (∀ s, ¬ PyStr.occurs old s → f s = s) ∧
  (∀ a b, f (a +:+ old +:+ b) = f a +:+ new +:+ f b).

(** What the pipeline makes of one row taken on its own: [source_ids],
    [target_ids] and [attention_mask] of the row after stages 1 and 2. *)
Definition encoded_example (self : Databuilder.t) (row : Row)
    : result (list Z * list Z * list Z) :=
  row ← Databuilder._add_eos self row;
  row ← Databuilder._replace_special_tokens self row;
  x ← getitem row (Databuilder.source_column self);
  y ← getitem row (Databuilder.target_column self);
  let source :=
    encode_plus (Databuilder.tokenizer self) (Databuilder.source_max_length self) x in
  let target :=
    encode_plus (Databuilder.tokenizer self) (Databuilder.target_max_length self) y in
  Ok (source.1, target.1, source.2).

(** The feature cells of [ex] are the encodings of the source text [x] and
    the target text [y]. *)
Definition has_features (self : Databuilder.t) (x y : string) (ex : Example) : Prop :=
  let source :=
    encode_plus (Databuilder.tokenizer self) (Databuilder.source_max_length self) x in
  let target :=
    encode_plus (Databuilder.tokenizer self) (Databuilder.target_max_length self) y in
  ex !! "source_ids" = Some (Ids source.1)
  ∧ ex !! "target_ids" = Some (Ids target.1)
  ∧ ex !! "attention_mask" = Some (Ids source.2).

(** A row has its source and its target field. *)
Definition has_text_columns (self : Databuilder.t) (row : Row) : Prop :=
  is_Some (row !! Databuilder.source_column self)
  ∧ is_Some (row !! Databuilder.target_column self).

(** What [main] has done when it reaches its assertions. *)
Definition loaded (db_args : DatabuilderArguments.t) (config : list (string * string))
    : list event :=
  [ReadJson (DatabuilderArguments.config_path db_args);
   LogInfo "This config is being built: "]
  ++ ((λ kv, LogInfo ("     " +:+ kv.1 +:+ "=" +:+ kv.2)) <$> config)
  ++ [ReadCsv (DatabuilderArguments.train_csv_path db_args);
      ReadCsv (DatabuilderArguments.valid_csv_path db_args)].

(** The configuration [main] accepts: both column names are columns of
    both frames, and both save paths end in [.pt]. *)
Definition configuration_ok (db_args : DatabuilderArguments.t)
    (train_df valid_df : DataFrame) : Prop :=
  DatabuilderArguments.source_column db_args ∈ columns train_df
  ∧ DatabuilderArguments.target_column db_args ∈ columns train_df
  ∧ DatabuilderArguments.source_column db_args ∈ columns valid_df
  ∧ DatabuilderArguments.target_column db_args ∈ columns valid_df
  ∧ ends_with (DatabuilderArguments.train_file_path db_args) ".pt"
  ∧ ends_with (DatabuilderArguments.valid_file_path db_args) ".pt".

(** ** Frames of the runs of [main] *)

(** A frame whose rows all hold one cell per column. *)
Definition well_formed (df : DataFrame) : Prop :=
  Forall (λ cells : list string, length cells = length (columns df)) (values df).

(** A computation that changes the world by making calls only. *)
Definition only_traces {A} (m : M World A) : Prop :=
  ∀ w, ∃ es, (m w).2 = traced es w.

(** A computation that, when it raises, has changed the world by making
    calls only. *)
Definition fails_clean {A} (m : M World A) : Prop :=
  ∀ w e w', m w = (Err e, w') → ∃ es, w' = traced es w.

(** ** Concrete collaborators and inputs

    A tokenizer, a tensor library and a few inputs on which the definitions
    above can be run. *)

Module Sample.

(** A tokenizer with one id per character (its code), closed by the id 1;
    the pad id is 0. *)
Definition char_tokenizer : MT5Tokenizer := {|
  added_tokens := [];
  pad_token_id := 0%Z;
  encode := λ _ text,
    ((λ c, Z.of_N (Ascii.N_of_ascii c)) <$> String.list_ascii_of_string text) ++ [1%Z];
|}.

Definition small_args : DatabuilderArguments.t := {|
  DatabuilderArguments.source_max_length := 8;
  DatabuilderArguments.target_max_length := 4;
  DatabuilderArguments.highlight_token := "<hl>";
  DatabuilderArguments.separation_token := "<sep>";
  DatabuilderArguments.tokenizer_name_or_path := "google/mt5-small";
  DatabuilderArguments.global_output_dir := "model";
  DatabuilderArguments.train_csv_path := "data/train.tsv";
  DatabuilderArguments.valid_csv_path := "data/valid.tsv";
  DatabuilderArguments.source_column := "source_text";
  DatabuilderArguments.target_column := "target_text";
  DatabuilderArguments.train_file_path := "data/train.pt";
  DatabuilderArguments.valid_file_path := "data/valid.pt";
  DatabuilderArguments.config_path := "model/params.json";
|}.

Definition builder : Databuilder.t := Databuilder.__init__ char_tokenizer small_args.

Definition row1 : Row :=
  {[ "source_text" := "a{hl_token}b{hl_token}"; "target_text" := "x{sep_token}y </s>" ]}.
Definition row2 : Row :=
  {[ "source_text" := "hi"; "target_text" := "</s" ]}.

Definition batch12 : Batch :=
  {[ "source_text" := ["a long source text"; "hi"]; "target_text" := ["x"; "yz"] ]}.

Definition train_df : DataFrame := {|
  columns := ["source_text"; "target_text"];
  values := [["train question"; "ta"]; ["hi"; "tb"]];
|}.
Definition valid_df : DataFrame := {|
  columns := ["source_text"; "target_text"];
  values := [["valid question"; "va"]];
|}.

Definition world : World := {|
  json_files := {[ "model/params.json" := [("source_max_length", "8"); ("target_max_length", "4")] ]};
  csv_files := {[ "data/train.tsv" := train_df; "data/valid.tsv" := valid_df ]};
  pretrained := {[ "google/mt5-small" := char_tokenizer ]};
  pt_files := ∅;
  directories := ∅;
  trace := [];
|}.

(** Arguments naming a target column the frames do not have. *)
Definition bad_column_args : DatabuilderArguments.t := {|
  DatabuilderArguments.source_max_length := 8;
  DatabuilderArguments.target_max_length := 4;
  DatabuilderArguments.highlight_token := "<hl>";
  DatabuilderArguments.separation_token := "<sep>";
  DatabuilderArguments.tokenizer_name_or_path := "google/mt5-small";
  DatabuilderArguments.global_output_dir := "model";
  DatabuilderArguments.train_csv_path := "data/train.tsv";
  DatabuilderArguments.valid_csv_path := "data/valid.tsv";
  DatabuilderArguments.source_column := "source_text";
  DatabuilderArguments.target_column := "answer";
  DatabuilderArguments.train_file_path := "data/train.pt";
  DatabuilderArguments.valid_file_path := "data/valid.pt";
  DatabuilderArguments.config_path := "model/params.json";
|}.

(** Tensors of rationals: the elements and the device they are on. *)
Record QTensor : Type := {
  elements : list Q;
  on : string;
}.

Definition qsum (l : list Q) : Q := foldr Qplus 0%Q l.

(** The optimizer carries the loss scale of the scaler attached to it. *)
#[local] Instance q_torch : Torch := {|
  Tensor := QTensor;
  Device := string;
  Scalar := Q;
  Optimizer := Q;
  tensor_to := λ t d, {| elements := elements t; on := d |};
  tensor_mean := λ t,
    {| elements := [Qred (qsum (elements t) / inject_Z (Z.of_nat (length (elements t))))];
       on := on t |};
  tensor_div := λ t k,
    {| elements := (λ x, Qred (x / inject_Z k)) <$> elements t; on := on t |};
  tensor_item := λ t,
    match elements t with
    | [x] => Ok x
    | _ => Err (ValueError "only one element tensors can be converted to Python scalars")
    end;
  tensor_backward := λ t,
    match elements t with
    | [_] => Ok ()
    | _ => Err (RuntimeError "grad can be implicitly created only for scalar outputs")
    end;
  amp := Some (λ loss scale,
    {| elements := (λ x, Qred (x * scale)) <$> elements loss; on := on loss |});
|}.

(** A data-parallel model over two replicas: the per-replica losses are the
    elements of the [labels] tensor. *)
Definition model : Module := {|
  is_DataParallel := true;
  forward := λ _ kwargs,
    match kwargs !! "labels" with
    | Some (VTensor t) => Ok [t]
    | _ => Err (RuntimeError "forward() missing labels")
    end;
|}.

Definition training_args (fp16 : bool) : TrainingArguments := {|
  device := "cuda:0";
  n_gpu := 2;
  gradient_accumulation_steps := 4;
  fp16 := fp16;
|}.

Definition heap : Heap := {|
  inputs := {[ "labels" := VTensor {| elements := [3%Q; 5%Q]; on := "cpu" |};
               "return_tuple" := VBool false;
               "id" := VInt 7 ]};
  training := false;
  calls := [];
|}.

End Sample.

(** ** train.py *)

(** [os.path.join(a, b)] on POSIX paths. *)
Definition path_join (a b : string) : string :=
  if PyStr.startswith "/" b then b
  else if PyStr.eqb a "" || PyStr.eqb (PyStr.last 1 a) "/" then a +:+ b
  else a +:+ "/" +:+ b.

(** The line feed. *)
Definition newline : string := String (Ascii.ascii_of_nat 10) "".

(** [sorted(keys)] on strings: the keys in ascending order. *)
Definition sorted (keys : list string) : list string := merge_sort String.le keys.

Module Train.

(** The levels of the logging module that the program uses; [INFO] is the
    lower one. *)
Inductive level : Type := INFO | WARNING.

Section train.
Context `{Torch}.

Record ModelArguments : Type := {
  model_name_or_path : string;
  label_smoothing_rate : Scalar;
  wandb_project_name : string;
  train_config_path : string;
}.

(** The [TrainingArguments] object as [main] reads it: the fields the
    training step reads, which the trainer is given as [args], and the
    fields [main] itself reads. *)
Record RunArguments : Type := {
  step_args : TrainingArguments;
  output_dir : string;
  overwrite_output_dir : bool;
  do_train : bool;
  do_eval : bool;
  local_rank : Z;
  seed : Z;
  tpu_num_cores : option Z;
}.

(** The arguments [DataCollector] is built with. *)
Record DataCollector : Type := {
  dc_tokenizer : MT5Tokenizer;
  dc_mode : string;
  dc_using_tpu : bool;
}.

(** The trainer object: the [Trainer] of trainer.py and what the base class
    is given besides. *)
Record TrainerObject : Type := {
  trainer : Trainer.t;
  trainer_model : Module;
  train_dataset : option FormattedDataset;
  eval_dataset : option FormattedDataset;
  data_collator : DataCollector;
}.

(** A value handed to a log call for its message. *)
Inductive log_value : Type :=
  | LStr (s : string)
  | LInt (z : Z)
  | LBool (b : bool)
  | LDevice (d : Device)
  | LArguments (a : RunArguments).

(** The calls [main] makes on its collaborators, in order; a log call is
    recorded only when the logging level lets it through. *)
Inductive event : Type :=
  | Log (lvl : level) (msg : string) (values : list log_value)
  | SetSeed (seed : Z)
  | LoadTokenizer (path : string)
  | LoadModel (name : string)
  | ResizeTokenEmbeddings (tokenizer : MT5Tokenizer)
  | TorchLoad (path : string)
  | SetLoggerLevel (name : string) (lvl : level)
  | TrainerTrain (t : TrainerObject)
  | SaveModel (dir : string)
  | SaveTokenizer (dir : string)
  | TrainerEvaluate (t : TrainerObject)
  | OpenFile (path : string).

(** The process [main] runs in: the files of databuilder.py's world, the
    directory listings, the models that can be loaded, what an evaluation
    returns (each metric with the [str] of its value), the environment
    variables, the text files, the level of the root logger once
    it is configured, and the calls made. *)
Record Process : Type := {
  disk : World;
  listing : gmap string (list string);
  models : gmap string Module;
  evaluation : gmap string string;
  environ : gmap string string;
  text_files : gmap string string;
  root_level : option level;
  made : list event;
}.

Definition emit (e : event) : M Process () :=
  modify (λ p, {|
    disk := disk p; listing := listing p; models := models p;
    evaluation := evaluation p; environ := environ p;
    text_files := text_files p; root_level := root_level p;
    made := made p ++ [e] |}).

(** [logging.basicConfig(level=lvl)]: it configures the root logger unless
    that has been done already. *)
Definition basic_config (lvl : level) : M Process () :=
  modify (λ p, {|
    disk := disk p; listing := listing p; models := models p;
    evaluation := evaluation p; environ := environ p;
    text_files := text_files p;
    root_level := match root_level p with Some l => Some l | None => Some lvl end;
    made := made p |}).

(** [logger.warning(msg, *values)]: a warning passes at either level, and
    at the level [WARNING] of a root logger that is not configured. *)
Definition logger_warning (msg : string) (values : list log_value) : M Process () :=
  emit (Log WARNING msg values).

(** [logger.info(msg, *values)]: it passes when the root logger is at
    [INFO]. *)
Definition logger_info (msg : string) (values : list log_value) : M Process () :=
  p ← get;
  match root_level p with
  | Some INFO => emit (Log INFO msg values)
  | _ => mret ()
  end.

(** The calls that [logger.info(msg, *values)] records under a root logger
    at [lvl]. *)
Definition info_calls (lvl : level) (msg : string) (values : list log_value)
    : list event :=
  match lvl with
  | INFO => [Log INFO msg values]
  | WARNING => []
  end.

(** [os.path.exists(path)] *)
Definition path_exists (path : string) : M Process bool :=
  p ← get; mret (bool_decide (path ∈ directories (disk p))).

(** [os.listdir(path)] *)
Definition listdir (path : string) : M Process (list string) :=
  p ← get; mret (default [] (listing p !! path)).

(** [os.environ[key] = value] *)
Definition setenv (key value : string) : M Process () :=
  modify (λ p, {|
    disk := disk p; listing := listing p; models := models p;
    evaluation := evaluation p; environ := <[key := value]> (environ p);
    text_files := text_files p; root_level := root_level p;
    made := made p |}).

(** [MT5Tokenizer.from_pretrained(path)] *)
Definition load_tokenizer (path : string) : M Process MT5Tokenizer :=
  p ← get;
  match pretrained (disk p) !! path with
  | Some tok => emit (LoadTokenizer path);; mret tok
  | None => raise (FileNotFoundError path)
  end.

(** [AutoModelForSeq2SeqLM.from_pretrained(name)] *)
Definition load_model (name : string) : M Process Module :=
  p ← get;
  match models p !! name with
  | Some model => emit (LoadModel name);; mret model
  | None => raise (FileNotFoundError name)
  end.

(** [torch.load(path)] *)
Definition torch_load (path : string) : M Process FormattedDataset :=
  p ← get;
  match pt_files (disk p) !! path with
  | Some dataset => emit (TorchLoad path);; mret dataset
  | None => raise (FileNotFoundError path)
  end.

(** [tokenizer.save_pretrained(dir)] *)
Definition save_tokenizer (tokenizer : MT5Tokenizer) (dir : string) : M Process () :=
  modify (λ p, {|
    disk := {| json_files := json_files (disk p); csv_files := csv_files (disk p);
               pretrained := <[dir := tokenizer]> (pretrained (disk p));
               pt_files := pt_files (disk p); directories := directories (disk p);
               trace := trace (disk p) |};
    listing := listing p; models := models p;
    evaluation := evaluation p; environ := environ p;
    text_files := text_files p; root_level := root_level p;
    made := made p ++ [SaveTokenizer dir] |}).

(** [trainer.evaluate()] *)
Definition evaluate (t : TrainerObject) : M Process (gmap string string) :=
  emit (TrainerEvaluate t);;
  p ← get; mret (evaluation p).

(** [open(path, "w")]: the file is created empty; the open is taken to
    succeed. *)
Definition open_w (path : string) : M Process () :=
  modify (λ p, {|
    disk := disk p; listing := listing p; models := models p;
    evaluation := evaluation p; environ := environ p;
    text_files := <[path := ""]> (text_files p);
    root_level := root_level p;
    made := made p ++ [OpenFile path] |}).

(** [writer.write(text)] on the file opened at [path]: the text is
    appended. *)
Definition file_write (path text : string) : M Process () :=
  modify (λ p, {|
    disk := disk p; listing := listing p; models := models p;
    evaluation := evaluation p; environ := environ p;
    text_files := <[path := default "" (text_files p !! path) +:+ text]> (text_files p);
    root_level := root_level p;
    made := made p |}).

Definition output_dir_msg (training_args : RunArguments) : string :=
  "Output directory (" +:+ output_dir training_args +:+
  ") already exists and is not empty. Use --overwrite_output_dir to overcome. ".

(** [x in [-1, 0]] *)
Definition is_main_rank (local_rank : Z) : bool :=
  bool_decide (local_rank = (-1)%Z) || bool_decide (local_rank = 0%Z).

(** [main], from the point where the argument parser has produced the three
    argument objects. *)
Definition main (model_args : ModelArguments)
    (databuilder_args : DatabuilderArguments.t) (training_args : RunArguments)
    : M Process () :=
  (* Checking if output folder is empty *)
  dir_exists ← path_exists (output_dir training_args);
  entries ← (if dir_exists then listdir (output_dir training_args) else mret []);
  (if dir_exists && negb (bool_decide (entries = []))
      && do_train training_args && negb (overwrite_output_dir training_args)
   then raise (ValueError (output_dir_msg training_args))
   else mret ());;
  (* Logging the session informations *)
  basic_config (if is_main_rank (local_rank training_args) then INFO else WARNING);;
  logger_warning
    "Process rank: %s, device: %s, n_gpu: %s, distributed training: %s, 16-bits training: %s"
    [LInt (local_rank training_args);
     LDevice (device (step_args training_args));
     LInt (n_gpu (step_args training_args));
     LBool (negb (bool_decide (local_rank training_args = (-1)%Z)));
     LBool (fp16 (step_args training_args))];;
  logger_info "Training/evaluation parameters %s" [LArguments training_args];;
  (* Setting seed *)
  emit (SetSeed (seed training_args));;
  (* Setting wandb project name *)
  setenv "WANDB_PROJECT" (wandb_project_name model_args);;
  (* Getting model name *)
  let model_name :=
    if negb (PyStr.eqb (model_name_or_path model_args) "")
    then model_name_or_path model_args
    else DatabuilderArguments.tokenizer_name_or_path databuilder_args in
  (* Loading pretrained model and tokenizer *)
  tokenizer ← load_tokenizer (DatabuilderArguments.global_output_dir databuilder_args);
  model ← load_model model_name;
  (* Resizing embedding *)
  emit (ResizeTokenEmbeddings tokenizer);;
  (* Loading datasets *)
  logger_info "Loading datasets..." [];;
  train_dataset ←
    (if do_train training_args
     then dataset ← torch_load (DatabuilderArguments.train_file_path databuilder_args);
          mret (Some dataset)
     else mret None);
  logger_info (DatabuilderArguments.train_file_path databuilder_args +:+
               " has been loaded. ") [];;
  valid_dataset ←
    (if do_eval training_args
     then dataset ← torch_load (DatabuilderArguments.valid_file_path databuilder_args);
          mret (Some dataset)
     else mret None);
  logger_info (DatabuilderArguments.valid_file_path databuilder_args +:+
               " has been loaded. ") [];;
  (* Initialize DataCollector *)
  let data_collector := {|
    dc_tokenizer := tokenizer;
    dc_mode := "training";
    dc_using_tpu := bool_decide (is_Some (tpu_num_cores training_args)) |} in
  (* Initialize our Trainer *)
  let trainer := {|
    trainer := Trainer.__init__ (label_smoothing_rate model_args) (step_args training_args);
    trainer_model := model;
    train_dataset := train_dataset;
    eval_dataset := valid_dataset;
    data_collator := data_collector |} in
  (* Disabling wandb logs that are not WARNINGS *)
  emit (SetLoggerLevel "wandb.run_manager" WARNING);;
  (* Training *)
  (if do_train training_args then
     emit (TrainerTrain trainer);;
     (* Saving model *)
     emit (SaveModel (output_dir training_args));;
     (* Saving tokenizer *)
     save_tokenizer tokenizer (output_dir training_args)
   else mret ());;
  (* Evaluation *)
  (if do_eval training_args && is_main_rank (local_rank training_args) then
     logger_info "*** Evaluate ***" [];;
     (* Evaluating *)
     eval_output ← evaluate trainer;
     (* Saving evaluation result *)
     let output_eval_file := path_join (output_dir training_args) "eval_results.txt" in
     open_w output_eval_file;;
     logger_info "***** Eval results *****" [];;
     for_each (sorted (map_to_list eval_output).*1) (λ key,
       value ← lift (getitem eval_output key);
       logger_info "  %s = %s" [LStr key; LStr value];;
       file_write output_eval_file (key +:+ " = " +:+ value +:+ newline))
   else mret ()).

(** The guard of [main] on the output directory: it exists, it is not
    empty, training is asked for and overwriting is not. *)
Definition output_dir_blocked (training_args : RunArguments) (p : Process) : Prop :=
  output_dir training_args ∈ directories (disk p)
  ∧ default [] (listing p !! output_dir training_args) ≠ []
  ∧ do_train training_args = true
  ∧ overwrite_output_dir training_args = false.

(** A computation that raises nothing but exceptions in [Q]. *)
Definition raises_only {A} (Q : error → Prop) (m : M Process A) : Prop :=
  ∀ p e p', m p = (Err e, p') → Q e.

(** The calls of a process that stays silent: neither a log call below
    [WARNING], nor an evaluation, nor the opening of a file. *)
Definition quiet (e : event) : Prop :=
  match e with
  | Log lvl _ _ => lvl = WARNING
  | TrainerEvaluate _ | OpenFile _ => False
  | _ => True
  end.

(** A computation that, under a root logger at [WARNING], keeps that level,
    touches no text file, and makes quiet calls only. *)
Definition hushed {A} (m : M Process A) : Prop :=
  ∀ p, root_level p = Some WARNING →
    root_level (m p).2 = Some WARNING
    ∧ text_files (m p).2 = text_files p
    ∧ ∃ es, made (m p).2 = made p ++ es ∧ Forall quiet es.

End train.
End Train.

(** ** Concrete inputs for train.py *)

Module TrainSample.

(** The tensor library of [Sample] without apex. *)
Definition torch_without_apex : Torch := {|
  Tensor := Sample.QTensor;
  Device := string;
  Scalar := Q;
  Optimizer := Q;
  tensor_to := @tensor_to Sample.q_torch;
  tensor_mean := @tensor_mean Sample.q_torch;
  tensor_div := @tensor_div Sample.q_torch;
  tensor_item := @tensor_item Sample.q_torch;
  tensor_backward := @tensor_backward Sample.q_torch;
  amp := None;
|}.

Definition plain_model : Module (H := torch_without_apex) := {|
  is_DataParallel := false;
  forward := λ _ kwargs,
    match kwargs !! "labels" with
    | Some (VTensor t) => Ok [t]
    | _ => Err (RuntimeError "forward() missing labels")
    end;
|}.

Definition plain_heap : Heap (H := torch_without_apex) := {|
  inputs := {[ "labels" := VTensor (H := torch_without_apex)
                             {| Sample.elements := [3%Q]; Sample.on := "cpu" |} ]};
  training := false;
  calls := [];
|}.

Definition fp16_args : TrainingArguments (H := torch_without_apex) :=
  @Build_TrainingArguments torch_without_apex "cuda:0" 1 1 true.

#[local] Existing Instance Sample.q_torch.

Definition model_args : Train.ModelArguments := {|
  Train.model_name_or_path := "";
  Train.label_smoothing_rate := (1 # 10)%Q;
  Train.wandb_project_name := "mt5-project";
  Train.train_config_path := "model/params.json";
|}.

Definition training_args (do_train do_eval : bool) (local_rank : Z)
    : Train.RunArguments := {|
  Train.step_args := Sample.training_args false;
  Train.output_dir := "out";
  Train.overwrite_output_dir := false;
  Train.do_train := do_train;
  Train.do_eval := do_eval;
  Train.local_rank := local_rank;
  Train.seed := 42;
  Train.tpu_num_cores := None;
|}.

(** Arguments that ask for a training run into the directory of the
    tokenizer, without overwriting. *)
Definition blocked_args : Train.RunArguments := {|
  Train.step_args := Sample.training_args false;
  Train.output_dir := "model";
  Train.overwrite_output_dir := false;
  Train.do_train := true;
  Train.do_eval := false;
  Train.local_rank := (-1);
  Train.seed := 42;
  Train.tpu_num_cores := None;
|}.

(** A fresh process on the disk that databuilder.py's [main] leaves behind
    on [Sample.world]. *)
Definition process : Train.Process := {|
  Train.disk := (main Sample.small_args Sample.world).2;
  Train.listing := {[ "model" := ["spiece.model"; "params.json"] ]};
  Train.models := {[ "google/mt5-small" := Sample.model ]};
  Train.evaluation := {[ "eval_loss" := "0.5"; "epoch" := "1.0" ]};
  Train.environ := ∅;
  Train.text_files := ∅;
  Train.root_level := None;
  Train.made := [];
|}.

End TrainSample.

(** * Properties *)

(** ** Python strings *)

Module PyStrFacts.
Import PyStr.

Lemma app_nil_l (s : string) : "" +:+ s = s.
Proof. reflexivity. Qed.

Lemma app_cons (c : Ascii.ascii) (s t : string) : String c s +:+ t = String c (s +:+ t).
Proof. reflexivity. Qed.

Lemma app_nil_r (s : string) : s +:+ "" = s.
Proof. induction s as [|c s IH]; [done|]. by rewrite app_cons, IH. Qed.

Lemma app_assoc (s t u : string) : (s +:+ t) +:+ u = s +:+ t +:+ u.
Proof. induction s as [|c s IH]; [done|]. by rewrite !app_cons, IH. Qed.

Lemma length_app (s t : string) :
  String.length (s +:+ t) = String.length s + String.length t.
Proof. induction s as [|c s IH]; [done|]. rewrite app_cons. simpl. by rewrite IH. Qed.

Lemma drop_0 (s : string) : drop 0 s = s.
Proof. by destruct s. Qed.

Lemma drop_app_length (x y : string) : drop (String.length x) (x +:+ y) = y.
Proof. induction x as [|c x IH]; [apply drop_0|]. by rewrite app_cons. Qed.

(** A string is what [drop] removes followed by what it leaves. *)
Lemma drop_split (n : nat) (s : string) : ∃ p, s = p +:+ drop n s.
Proof.
  revert s. induction n as [|n IH]; intros s.
  - exists "". by rewrite drop_0.
  - destruct s as [|c s]; [by exists ""|].
    destruct (IH s) as [p Hp]. exists (String c p).
    rewrite app_cons. simpl. by rewrite <- Hp.
Qed.

Lemma last_app (n : nat) (x m : string) :
  String.length m = n → last n (x +:+ m) = m.
Proof.
  intros <-. unfold last. rewrite length_app.
  replace (String.length x + String.length m - String.length m)
    with (String.length x) by lia.
  apply drop_app_length.
Qed.

Lemma last_short (n : nat) (x : string) : String.length x ≤ n → last n x = x.
Proof.
  intros Hn. unfold last.
  replace (String.length x - n) with 0 by lia. apply drop_0.
Qed.

Lemma last_length (n : nat) (x : string) :
  String.length (last n x) = String.length x `min` n.
Proof.
  unfold last.
  assert (∀ k s, String.length (drop k s) = String.length s - k) as Hdrop.
  { induction k as [|k IH]; intros [|c s]; simpl; auto with lia. }
  rewrite Hdrop. lia.
Qed.

Lemma eqb_true (s t : string) : eqb s t = true ↔ s = t.
Proof. unfold eqb. by rewrite bool_decide_eq_true. Qed.

(** [x[-n:] == m] for a marker of [n] characters says that [x] ends with
    the marker. *)
Lemma last_eq_iff (x m : string) :
  last (String.length m) x = m ↔ ∃ p, x = p +:+ m.
Proof.
  split.
  - intros Hlast. destruct (drop_split (String.length x - String.length m) x) as [p Hp].
    exists p. unfold last in Hlast. by rewrite Hlast in Hp.
  - intros [p ->]. by apply last_app.
Qed.

Lemma startswith_app (p s : string) : startswith p (p +:+ s) = true.
Proof.
  induction p as [|c p IH]; [done|].
  rewrite app_cons. simpl. by rewrite Ascii.eqb_refl, IH.
Qed.

Lemma startswith_true (p s : string) : startswith p s = true ↔ ∃ b, s = p +:+ b.
Proof.
  split; [|intros [b ->]; apply startswith_app].
  revert s. induction p as [|c p IH]; intros s Hs.
  - by exists s.
  - destruct s as [|d s]; [done|]. simpl in Hs.
    apply andb_true_iff in Hs as [Hc Hp]. apply Ascii.eqb_eq in Hc as ->.
    destruct (IH _ Hp) as [b ->]. by exists b.
Qed.

(** Two ways of cutting one string: the shorter first part is a prefix of
    the longer one. *)
Lemma app_eq_app_le (x y u v : string) :
  x +:+ y = u +:+ v → String.length x ≤ String.length u →
  ∃ w, u = x +:+ w ∧ y = w +:+ v.
Proof.
  revert u. induction x as [|c x IH]; intros u Heq Hlen.
  - exists u. by rewrite !app_nil_l in *.
  - destruct u as [|d u]; [simpl in Hlen; lia|].
    rewrite !app_cons in Heq. injection Heq as -> Heq.
    destruct (IH u Heq) as (w & -> & ->); [simpl in Hlen; lia|].
    by exists w.
Qed.

Section replace.
Variables old new : string.

Lemma replace_from_skip (k : nat) (s : string) :
  replace_from old new k s = replace_from old new 0 (drop k s).
Proof.
  revert k. induction s as [|c s IH]; intros [|k]; try done.
  simpl. apply IH.
Qed.

Lemma replace_from_nil : replace_from old new 0 "" = "".
Proof. done. Qed.

(** A match at the head is replaced and the scan goes on behind it. *)
Lemma replace_from_match (b : string) :
  old ≠ "" →
  replace_from old new 0 (old +:+ b) = new +:+ replace_from old new 0 b.
Proof.
  intros Hne. destruct old as [|c o] eqn:Hold; [done|]. rewrite <- Hold.
  assert (old +:+ b = String c (o +:+ b)) as Hcons by by rewrite Hold.
  rewrite Hcons at 1. simpl. rewrite <- Hcons, startswith_app.
  f_equal. rewrite replace_from_skip.
  replace (String.length old - 1) with (String.length o) by (rewrite Hold; simpl; lia).
  by rewrite drop_app_length.
Qed.

(** No match at the head: the character is kept. *)
Lemma replace_from_nomatch (c : Ascii.ascii) (s : string) :
  startswith old (String c s) = false →
  replace_from old new 0 (String c s) = String c (replace_from old new 0 s).
Proof. intros Hs. simpl replace_from. by rewrite Hs. Qed.

Lemma replace_from_absent (s : string) :
  ¬ occurs old s → replace_from old new 0 s = s.
Proof.
  induction s as [|c s IH]; intros Hocc; [done|].
  rewrite replace_from_nomatch.
  - f_equal. apply IH. intros (a & b & ->). apply Hocc.
    exists (String c a), b. by rewrite app_cons.
  - apply not_true_is_false. intros [b Hb]%startswith_true.
    apply Hocc. exists "", b. by rewrite app_nil_l.
Qed.

(** A suffix of an unbordered pattern, cut at [k], is no prefix of it. *)
Lemma unbordered_drop (k : nat) :
  unbordered old = true → 0 < k < String.length old →
  startswith (drop k old) old = false.
Proof.
  unfold unbordered. rewrite forallb_forall. intros Hall Hk.
  apply negb_true_iff, Hall, in_seq. lia.
Qed.

(** With an unbordered pattern, a match that starts inside [a] and ahead of
    the occurrence following [a] lies within [a]. *)
Lemma startswith_before_occurrence (a b : string) :
  unbordered old = true → a ≠ "" →
  startswith old (a +:+ old +:+ b) = true → startswith old a = true.
Proof.
  intros Hunb Ha [r Hr]%startswith_true.
  destruct (decide (String.length old ≤ String.length a)) as [Hle|Hgt].
  - symmetry in Hr. destruct (app_eq_app_le _ _ _ _ Hr Hle) as (w & -> & _).
    apply startswith_app.
  - exfalso.
    destruct (app_eq_app_le a (old +:+ b) old r Hr) as (d & Hd & Hob); [lia|].
    assert (drop (String.length a) old = d) as Hdrop.
    { rewrite Hd. apply drop_app_length. }
    assert (String.length d ≤ String.length old) as Hdlen.
    { rewrite Hd, length_app. lia. }
    symmetry in Hob. destruct (app_eq_app_le d r old b Hob Hdlen) as (w & Hw & _).
    assert (startswith d old = true) as Hpre
      by (apply startswith_true; by exists w).
    rewrite <- Hdrop, unbordered_drop in Hpre; [done|done|].
    destruct a; [done|]. simpl in *. lia.
Qed.

(** With an unbordered pattern every occurrence is replaced, wherever the
    text is cut around it. *)
Lemma replace_from_occurrence (a b : string) :
  unbordered old = true → old ≠ "" →
  replace_from old new 0 (a +:+ old +:+ b)
  = replace_from old new 0 a +:+ new +:+ replace_from old new 0 b.
Proof.
  intros Hunb Hne. remember (String.length a) as n eqn:Hn.
  revert a Hn. induction (lt_wf n) as [n _ IH]; intros a ->.
  destruct (decide (a = "")) as [->|Ha].
  { by rewrite !app_nil_l, replace_from_match. }
  destruct (startswith old (a +:+ old +:+ b)) eqn:Hs.
  - apply startswith_before_occurrence in Hs as Hsa; [|done..].
    apply startswith_true in Hsa as [w Hw].
    rewrite Hw, app_assoc, !replace_from_match, app_assoc by done.
    f_equal. eapply IH; [|done].
    rewrite Hw, length_app. destruct old; [done|]. simpl. lia.
  - assert (startswith old a = false) as Hsa.
    { apply not_true_is_false. intros [w Hw]%startswith_true.
      rewrite Hw, app_assoc, startswith_app in Hs. done. }
    destruct a as [|c a']; [done|]. rewrite app_cons in *.
    rewrite !replace_from_nomatch, app_cons by done.
    f_equal. eapply IH; [|done]. simpl. lia.
Qed.

End replace.

Lemma hl_pattern_unbordered : unbordered hl_pattern = true.
Proof. reflexivity. Qed.

Lemma sep_pattern_unbordered : unbordered sep_pattern = true.
Proof. reflexivity. Qed.

End PyStrFacts.

(** ** EOS normalization *)

Section add_eos.
Import PyStrFacts.
Import Databuilder.

Lemma add_eos_text_ends (x : string) :
  ends_with x eos_marker → add_eos_text x = x.
Proof.
  intros Hx%(last_eq_iff x eos_marker). unfold add_eos_text.
  change (String.length eos_marker) with 4 in Hx. rewrite Hx.
  by rewrite (proj2 (eqb_true _ _)).
Qed.

Lemma add_eos_text_appends (x : string) :
  ¬ ends_with x eos_marker → add_eos_text x = x +:+ " " +:+ eos_marker.
Proof.
  intros Hx. unfold add_eos_text.
  destruct (PyStr.eqb (PyStr.last 4 x) eos_marker) eqn:Heq; [|done].
  apply eqb_true in Heq. destruct Hx. by apply (last_eq_iff x eos_marker).
Qed.

Lemma short_not_ends (x : string) :
  String.length x < 4 → ¬ ends_with x eos_marker.
Proof. intros Hlen [p ->]. rewrite length_app in Hlen. simpl in Hlen. lia. Qed.

Lemma add_eos_text_normalized (x : string) : eos_normalized x (add_eos_text x).
Proof. split; [apply add_eos_text_ends | apply add_eos_text_appends]. Qed.

Lemma add_eos_text_result_ends (x : string) :
  ends_with (add_eos_text x) eos_marker.
Proof.
  unfold add_eos_text.
  destruct (PyStr.eqb (PyStr.last 4 x) eos_marker) eqn:Heq.
  - apply eqb_true in Heq. by apply (last_eq_iff x eos_marker).
  - exists (x +:+ " "). by rewrite app_assoc.
Qed.

Lemma add_eos_text_idemp (x : string) :
  add_eos_text (add_eos_text x) = add_eos_text x.
Proof. apply add_eos_text_ends, add_eos_text_result_ends. Qed.

(** The run of [_add_eos] on a row that has both columns. *)
Lemma add_eos_run (self : t) (row : Row) (x y : string) :
  row !! source_column self = Some x →
  <[source_column self := add_eos_text x]> row !! target_column self = Some y →
  _add_eos self row
  = Ok (<[target_column self := add_eos_text y]>
          (<[source_column self := add_eos_text x]> row)).
Proof. intros Hx Hy. unfold _add_eos, getitem. rewrite Hx. simpl. by rewrite Hy. Qed.

(** The target field as the second assignment reads it. *)
Lemma add_eos_target_read (self : t) (row : Row) (x y : string) :
  row !! source_column self = Some x → row !! target_column self = Some y →
  ∃ y0, <[source_column self := add_eos_text x]> row !! target_column self = Some y0
        ∧ add_eos_text y0 = add_eos_text y.
Proof.
  intros Hx Hy. destruct (decide (source_column self = target_column self)) as [Heq|Hne].
  - rewrite <- Heq, lookup_insert_eq. exists (add_eos_text x). split; [done|].
    rewrite <- Heq, Hx in Hy. injection Hy as <-. apply add_eos_text_idemp.
  - rewrite lookup_insert_ne by done. by exists y.
Qed.

Lemma add_eos_lookups (self : t) (row : Row) (x y : string) :
  row !! source_column self = Some x → row !! target_column self = Some y →
  ∃ row', _add_eos self row = Ok row'
    ∧ row' !! source_column self = Some (add_eos_text x)
    ∧ row' !! target_column self = Some (add_eos_text y)
    ∧ (∀ c, c ≠ source_column self → c ≠ target_column self → row' !! c = row !! c).
Proof.
  intros Hx Hy. destruct (add_eos_target_read self row x y Hx Hy) as (y0 & Hy0 & Hyy).
  eexists. split; [by apply add_eos_run|]. rewrite Hyy. split_and!.
  - destruct (decide (source_column self = target_column self)) as [Heq|Hne].
    + rewrite <- Heq, lookup_insert_eq. rewrite <- Heq, Hx in Hy. by injection Hy as <-.
    + by rewrite lookup_insert_ne, lookup_insert_eq.
  - by rewrite lookup_insert_eq.
  - intros c Hs Ht. by rewrite !lookup_insert_ne.
Qed.

(** C5. EOS normalization of a row treats its source and its target field
    alike: a field whose trailing four characters are the marker [</s>] is
    left unchanged, any other field gets one space and the marker appended;
    a field of fewer than four characters is compared as a whole and always
    gets the marker appended. The other fields of the row are untouched. *)
Theorem add_eos_normalizes_both_fields (self : t) (row : Row) (x y : string) :
  row !! source_column self = Some x →
  row !! target_column self = Some y →
  ∃ (row' : Row) (x' y' : string),
    _add_eos self row = Ok row'
    ∧ row' !! source_column self = Some x'
    ∧ row' !! target_column self = Some y'
    ∧ (∀ c, c ≠ source_column self → c ≠ target_column self → row' !! c = row !! c)
    ∧ eos_normalized x x' ∧ eos_normalized y y'
    ∧ (String.length x < 4 →
         PyStr.last 4 x = x ∧ x' = x +:+ " " +:+ eos_marker)
    ∧ (String.length y < 4 →
         PyStr.last 4 y = y ∧ y' = y +:+ " " +:+ eos_marker).
Proof.
  intros Hx Hy. destruct (add_eos_lookups self row x y Hx Hy) as (row' & Hrun & Hs & Ht & Hc).
  exists row', (add_eos_text x), (add_eos_text y).
  split_and!; try done; try apply add_eos_text_normalized.
  - intros Hlen. split; [apply last_short; lia|].
    by apply add_eos_text_appends, short_not_ends.
  - intros Hlen. split; [apply last_short; lia|].
    by apply add_eos_text_appends, short_not_ends.
Qed.

Lemma add_eos_normalizes_both_fields_witness :
  ∃ (row' : Row) (x' y' : string),
    _add_eos Sample.builder Sample.row2 = Ok row'
    ∧ row' !! "source_text" = Some x'
    ∧ row' !! "target_text" = Some y'
    ∧ (∀ c, c ≠ "source_text" → c ≠ "target_text" → row' !! c = Sample.row2 !! c)
    ∧ eos_normalized "hi" x' ∧ eos_normalized "</s" y'
    ∧ (String.length "hi" < 4 → PyStr.last 4 "hi" = "hi" ∧ x' = "hi" +:+ " " +:+ eos_marker)
    ∧ (String.length "</s" < 4 → PyStr.last 4 "</s" = "</s" ∧ y' = "</s" +:+ " " +:+ eos_marker).
Proof.
  apply (add_eos_normalizes_both_fields Sample.builder Sample.row2 "hi" "</s");
    reflexivity.
Defined.

(** A row whose two fields are fixed by the normalization is returned as it
    is. *)
Lemma add_eos_fixed (self : t) (row : Row) (x y : string) :
  row !! source_column self = Some x → row !! target_column self = Some y →
  add_eos_text x = x → add_eos_text y = y →
  _add_eos self row = Ok row.
Proof.
  intros Hx Hy Hfx Hfy.
  assert (<[source_column self := add_eos_text x]> row = row) as Hrow
    by (rewrite Hfx; by apply insert_id).
  rewrite (add_eos_run self row x y), Hrow, Hfy; [|done|by rewrite Hrow].
  f_equal. by apply insert_id.
Qed.

(** C6. EOS normalization is idempotent: running it on its own result
    changes nothing, whether or not the first run succeeded; a row whose
    two fields end with the marker is returned as it is; and on every row
    with both fields, each field is treated on its own: a field that ends
    with the marker is kept as it is, a field without the marker ends up
    with exactly one space and one marker appended, the other keys of the
    row are kept, and a second run leaves the resulting row as it is. *)
Theorem add_eos_idempotent (self : t) (row : Row) :
  (_add_eos self row ≫= _add_eos self) = _add_eos self row
  ∧ (∀ x y, row !! source_column self = Some x → row !! target_column self = Some y →
       ends_with x eos_marker → ends_with y eos_marker →
       _add_eos self row = Ok row)
  ∧ (∀ x y, row !! source_column self = Some x → row !! target_column self = Some y →
       ∃ row', _add_eos self row = Ok row' ∧ _add_eos self row' = Ok row'
         ∧ (ends_with x eos_marker → row' !! source_column self = Some x)
         ∧ (¬ ends_with x eos_marker →
              row' !! source_column self = Some (x +:+ " " +:+ eos_marker))
         ∧ (ends_with y eos_marker → row' !! target_column self = Some y)
         ∧ (¬ ends_with y eos_marker →
              row' !! target_column self = Some (y +:+ " " +:+ eos_marker))
         ∧ (∀ c, c ≠ source_column self → c ≠ target_column self →
              row' !! c = row !! c)).
Proof.
  assert (∀ x y, row !! source_column self = Some x → row !! target_column self = Some y →
    ∃ row', _add_eos self row = Ok row' ∧ _add_eos self row' = Ok row'
      ∧ row' !! source_column self = Some (add_eos_text x)
      ∧ row' !! target_column self = Some (add_eos_text y)
      ∧ (∀ c, c ≠ source_column self → c ≠ target_column self → row' !! c = row !! c))
    as Htwice.
  { intros x y Hx Hy.
    destruct (add_eos_lookups self row x y Hx Hy) as (row' & Hrun & Hs & Ht & Hrest).
    exists row'. split_and!; try done.
    eapply add_eos_fixed; eauto using add_eos_text_idemp. }
  split_and!.
  - destruct (row !! source_column self) as [x|] eqn:Hx; cycle 1.
    { unfold _add_eos, getitem. by rewrite Hx. }
    destruct (row !! target_column self) as [y|] eqn:Hy.
    + destruct (Htwice x y eq_refl eq_refl) as (row' & -> & Hrun' & _). apply Hrun'.
    + assert (<[source_column self := add_eos_text x]> row !! target_column self = None) as Hn.
      { rewrite lookup_insert_ne; [done|]. intros Heq. by rewrite Heq, Hy in Hx. }
      unfold _add_eos, getitem. rewrite Hx. simpl. by rewrite Hn.
  - intros x y Hx Hy Hex Hey. eapply add_eos_fixed; eauto using add_eos_text_ends.
  - intros x y Hx Hy.
    destruct (Htwice x y Hx Hy) as (row' & Hrun & Hrun' & Hs & Ht & Hrest).
    exists row'. split_and!; try done.
    + intros He. by rewrite Hs, add_eos_text_ends.
    + intros Hn. by rewrite Hs, add_eos_text_appends.
    + intros He. by rewrite Ht, add_eos_text_ends.
    + intros Hn. by rewrite Ht, add_eos_text_appends.
Qed.

Lemma add_eos_idempotent_witness :
  ∃ row', _add_eos Sample.builder Sample.row1 = Ok row'
    ∧ _add_eos Sample.builder row' = Ok row'
    ∧ (ends_with "a{hl_token}b{hl_token}" eos_marker →
         row' !! "source_text" = Some "a{hl_token}b{hl_token}")
    ∧ (¬ ends_with "a{hl_token}b{hl_token}" eos_marker →
         row' !! "source_text" = Some "a{hl_token}b{hl_token} </s>")
    ∧ (ends_with "x{sep_token}y </s>" eos_marker →
         row' !! "target_text" = Some "x{sep_token}y </s>")
    ∧ (¬ ends_with "x{sep_token}y </s>" eos_marker →
         row' !! "target_text" = Some "x{sep_token}y </s> </s>")
    ∧ (∀ c, c ≠ "source_text" → c ≠ "target_text" → row' !! c = Sample.row1 !! c).
Proof.
  apply (proj2 (proj2 (add_eos_idempotent Sample.builder Sample.row1))
           "a{hl_token}b{hl_token}" "x{sep_token}y </s>");
    reflexivity.
Defined.

End add_eos.

(** ** Special-token substitution *)

Section replace_special_tokens.
Import PyStrFacts.
Import Databuilder.

(** [str.replace] with an unbordered pattern replaces every occurrence. *)
Lemma replace_every_occurrence (old new : string) :
  PyStr.unbordered old = true → old ≠ "" →
  replaces_every_occurrence old new (PyStr.replace old new).
Proof.
  intros Hunb Hne. destruct old as [|c o] eqn:Hold; [done|]. rewrite <- Hold in *.
  assert (∀ s, PyStr.replace old new s = PyStr.replace_from old new 0 s) as Hrep
    by (intros s; by rewrite Hold).
  split.
  - intros s Hs. rewrite Hrep. by apply replace_from_absent.
  - intros a b. rewrite !Hrep. apply replace_from_occurrence; [done|].
    by rewrite Hold.
Qed.

(** C7. Special-token substitution is literal replacement: the source field
    becomes the [str.replace] of the pattern [{hl_token}] by the highlight
    token, the target field that of [{sep_token}] by the separation token
    (read after the source field has been written), the other fields are
    untouched; and this replacement replaces every occurrence of its
    pattern and leaves a text without an occurrence unchanged. *)
Theorem replace_special_tokens_replaces_all (self : t) (row : Row) (x y : string) :
  row !! source_column self = Some x →
  row !! target_column self = Some y →
  let replace_hl := PyStr.replace hl_pattern (highlight_token self) in
  let replace_sep := PyStr.replace sep_pattern (separation_token self) in
  let y0 := if decide (source_column self = target_column self) then replace_hl x else y in
  _replace_special_tokens self row
  = Ok (<[target_column self := replace_sep y0]>
          (<[source_column self := replace_hl x]> row))
  ∧ replaces_every_occurrence hl_pattern (highlight_token self) replace_hl
  ∧ replaces_every_occurrence sep_pattern (separation_token self) replace_sep.
Proof.
  intros Hx Hy replace_hl replace_sep y0. split_and!.
  - unfold _replace_special_tokens, getitem. rewrite Hx. simpl.
    fold replace_hl replace_sep. unfold y0. case_decide as Heq.
    + by rewrite <- Heq, lookup_insert_eq.
    + by rewrite lookup_insert_ne, Hy.
  - by apply replace_every_occurrence.
  - by apply replace_every_occurrence.
Qed.

Lemma replace_special_tokens_replaces_all_witness :
  _replace_special_tokens Sample.builder Sample.row1
  = Ok {[ "source_text" := "a<hl>b<hl>"; "target_text" := "x<sep>y </s>" ]}.
Proof.
  etrans;
    [apply (replace_special_tokens_replaces_all Sample.builder Sample.row1
              "a{hl_token}b{hl_token}" "x{sep_token}y </s>"); reflexivity|].
  reflexivity.
Defined.

End replace_special_tokens.

(** ** Batched tokenization *)

Section to_features.
Import Databuilder.

Lemma encode_plus_ids_length (tok : MT5Tokenizer) (max_length : nat) (text : string) :
  length (encode_plus tok max_length text).1 = max_length.
Proof.
  unfold encode_plus. simpl.
  rewrite length_app, length_replicate, length_take. lia.
Qed.

Lemma encode_plus_mask_length (tok : MT5Tokenizer) (max_length : nat) (text : string) :
  length (encode_plus tok max_length text).2 = max_length.
Proof.
  unfold encode_plus. simpl.
  rewrite length_app, !length_replicate, length_take. lia.
Qed.

(** A text with more tokens than the max length is cut to its first
    [max_length] tokens, none of them padding. *)
Lemma encode_plus_truncates (tok : MT5Tokenizer) (max_length : nat) (text : string) :
  max_length < length (encode tok (added_tokens tok) text) →
  encode_plus tok max_length text
  = (take max_length (encode tok (added_tokens tok) text), replicate max_length 1%Z).
Proof.
  intros Hlen. unfold encode_plus. rewrite length_take.
  replace (max_length `min` length (encode tok (added_tokens tok) text))
    with max_length by lia.
  replace (max_length - max_length) with 0 by lia. simpl.
  by rewrite !app_nil_r.
Qed.

Lemma to_features_run (self : t) (batch : Batch) (source target : list string) :
  batch !! source_column self = Some source →
  batch !! target_column self = Some target →
  _to_features self batch
  = Ok {[ "source_ids" :=
            input_ids (batch_encode_plus (tokenizer self) source (source_max_length self));
          "target_ids" :=
            input_ids (batch_encode_plus (tokenizer self) target (target_max_length self));
          "attention_mask" :=
            attention_mask (batch_encode_plus (tokenizer self) source (source_max_length self)) ]}.
Proof. intros Hs Ht. unfold _to_features, getitem. rewrite Hs. simpl. by rewrite Ht. Qed.

(** C3. On a batch whose source and target columns hold the texts of [n]
    rows, the feature-encoding stage returns three arrays of outer length
    [n]; every [source_ids[i]] and [attention_mask[i]] has length
    [source_max_length], every [target_ids[i]] has length
    [target_max_length]; and a source text of more than [source_max_length]
    tokens is encoded, without an error, as its first [source_max_length]
    tokens. *)
Theorem to_features_fixed_lengths (self : t) (batch : Batch) (source target : list string) :
  batch !! source_column self = Some source →
  batch !! target_column self = Some target →
  length source = length target →
  ∃ source_ids target_ids mask : list (list Z),
    _to_features self batch
    = Ok {[ "source_ids" := source_ids; "target_ids" := target_ids;
            "attention_mask" := mask ]}
    ∧ length source_ids = length source
    ∧ length target_ids = length source
    ∧ length mask = length source
    ∧ (∀ i ids, source_ids !! i = Some ids → length ids = source_max_length self)
    ∧ (∀ i ids, target_ids !! i = Some ids → length ids = target_max_length self)
    ∧ (∀ i m, mask !! i = Some m → length m = source_max_length self)
    ∧ (∀ i text, source !! i = Some text →
         let tokens := encode (tokenizer self) (added_tokens (tokenizer self)) text in
         source_max_length self < length tokens →
         source_ids !! i = Some (take (source_max_length self) tokens)).
Proof.
  intros Hs Ht Hlen. do 3 eexists. split; [by apply to_features_run|].
  unfold batch_encode_plus. cbn [input_ids attention_mask].
  rewrite !length_fmap. split_and!; try done.
  - intros i ids (text & -> & _)%list_lookup_fmap_Some. apply encode_plus_ids_length.
  - intros i ids (text & -> & _)%list_lookup_fmap_Some. apply encode_plus_ids_length.
  - intros i m (text & -> & _)%list_lookup_fmap_Some. apply encode_plus_mask_length.
  - intros i text Hi Hlong. rewrite list_lookup_fmap, Hi.
    cbn [fmap option_fmap option_map]. by rewrite encode_plus_truncates.
Qed.

Lemma to_features_fixed_lengths_witness :
  ∃ source_ids target_ids mask : list (list Z),
    _to_features Sample.builder Sample.batch12
    = Ok {[ "source_ids" := source_ids; "target_ids" := target_ids;
            "attention_mask" := mask ]}
    ∧ length source_ids = 2 ∧ length target_ids = 2 ∧ length mask = 2
    ∧ (∀ i ids, source_ids !! i = Some ids → length ids = 8)
    ∧ (∀ i ids, target_ids !! i = Some ids → length ids = 4)
    ∧ (∀ i m, mask !! i = Some m → length m = 8)
    ∧ (∀ i text, ["a long source text"; "hi"] !! i = Some text →
         let tokens := encode Sample.char_tokenizer [] text in
         8 < length tokens → source_ids !! i = Some (take 8 tokens)).
Proof.
  apply (to_features_fixed_lengths Sample.builder Sample.batch12
           ["a long source text"; "hi"] ["x"; "yz"]); reflexivity.
Defined.

End to_features.

(** ** The dataset abstraction *)

Section dataset.

Lemma mapM_result_Forall2 {A B} (f : A → result B) (l : list A) :
  Forall (λ x, ∃ y, f x = Ok y) l →
  ∃ k, mapM f l = Ok k ∧ Forall2 (λ x y, f x = Ok y) l k.
Proof.
  induction 1 as [|x l [y Hy] _ (k & Hk & IH)]; [by exists []|].
  exists (y :: k). split; [|by constructor].
  simpl. rewrite Hy. simpl. by rewrite Hk.
Qed.

Lemma concat_slices_take {A} (batch_size k : nat) (l : list A) :
  concat ((λ i, take batch_size (drop (i * batch_size) l)) <$> seq 0 k)
  = take (k * batch_size) l.
Proof.
  induction k as [|k IH]; [done|].
  rewrite seq_S, fmap_app, concat_app, IH. simpl. rewrite app_nil_r.
  rewrite take_take_drop. f_equal. lia.
Qed.

(** The slices, put back together, are the dataset. *)
Lemma concat_slices {A} (batch_size : nat) (l : list A) :
  0 < batch_size → concat (Dataset.slices batch_size l) = l.
Proof.
  intros Hpos. unfold Dataset.slices. rewrite concat_slices_take.
  apply take_ge.
  pose proof (Nat.div_mod (length l + (batch_size - 1)) batch_size).
  pose proof (Nat.mod_upper_bound (length l + (batch_size - 1)) batch_size).
  nia.
Qed.

(** No slice is empty, and a slice holds rows of the dataset. *)
Lemma slices_elem {A} (batch_size : nat) (l rows : list A) :
  0 < batch_size → rows ∈ Dataset.slices batch_size l → rows ≠ [] ∧ rows ⊆ l.
Proof.
  intros Hpos (i & -> & Hi)%list_elem_of_fmap. apply elem_of_seq in Hi.
  split.
  - assert (i * batch_size < length l) as Hlt.
    { pose proof (Nat.div_mod (length l + (batch_size - 1)) batch_size).
      pose proof (Nat.mod_upper_bound (length l + (batch_size - 1)) batch_size).
      nia. }
    intros Hnil%(f_equal length). rewrite length_take, length_drop in Hnil.
    simpl in Hnil. lia.
  - etrans; [apply subseteq_take | apply subseteq_drop].
Qed.

Lemma Forall2_concat_rel {A B} (P : A → B → Prop) (ls : list (list A)) (ks : list (list B)) :
  Forall2 (Forall2 P) ls ks → Forall2 P (concat ls) (concat ks).
Proof. induction 1; simpl; [constructor|by apply Forall2_app]. Qed.

(** A column every row of a slice has is a column of the batch, holding
    the cells of the rows in order. *)
Lemma to_batch_lookup (rows : list Row) (c : string) :
  rows ≠ [] → Forall (λ r : Row, is_Some (r !! c)) rows →
  ∃ col, Dataset.to_batch rows !! c = Some col
         ∧ Forall2 (λ (r : Row) v, r !! c = Some v) rows col.
Proof.
  intros Hne Hall. destruct rows as [|r rows]; [done|].
  assert (is_Some (mapM (λ r' : Row, r' !! c) (r :: rows))) as [col Hcol].
  { apply mapM_is_Some. eapply Forall_impl; [done|]. by intros ?. }
  exists col. split; [|by apply mapM_Some].
  unfold Dataset.to_batch. rewrite map_lookup_imap.
  apply Forall_cons in Hall as [[v ->] _]. done.
Qed.

Lemma to_batch_length (rows : list Row) (c : string) (col : list string) :
  Dataset.to_batch rows !! c = Some col → length col = length rows.
Proof.
  destruct rows as [|r rows]; [done|].
  unfold Dataset.to_batch. rewrite map_lookup_imap.
  destruct (r !! c); [|done]. intros Hcol.
  change (mapM (λ r' : Row, r' !! c) (r :: rows) = Some col) in Hcol.
  symmetry. by eapply length_mapM.
Qed.

End dataset.

(** ** The encoding pipeline *)

Section preprocess.
Import Databuilder.

Lemma mapM_result_rel {A B} (f : A → result B) (R : A → B → Prop) (l : list A) :
  Forall (λ x, ∃ y, f x = Ok y ∧ R x y) l →
  ∃ k, mapM f l = Ok k ∧ Forall2 R l k.
Proof.
  intros Hall.
  destruct (mapM_result_Forall2 f l) as (k & Hk & Hfk).
  { eapply Forall_impl; [done|]. intros x (y & Hy & _). by exists y. }
  exists k. split; [done|].
  apply Forall2_same_length_lookup. split; [by eapply Forall2_length|].
  intros i x y Hx Hy.
  destruct (Forall2_lookup_l _ _ _ _ _ Hfk Hx) as (y' & Hy' & Hfx).
  rewrite Forall_forall in Hall.
  destruct (Hall x) as (y'' & Hfx' & HR); [by eapply list_elem_of_lookup_2|].
  congruence.
Qed.

Lemma replace_special_tokens_lookups (self : t) (row : Row) :
  has_text_columns self row →
  ∃ row', _replace_special_tokens self row = Ok row' ∧ has_text_columns self row'.
Proof.
  intros [[x Hx] [y Hy]]. unfold _replace_special_tokens, getitem. rewrite Hx. simpl.
  match goal with |- context [<[_ := ?v]> row] => set (x' := v) end.
  assert (is_Some (<[source_column self := x']> row !! target_column self)) as [y0 Hy0].
  { rewrite lookup_insert. case_decide; eauto. }
  rewrite Hy0. eexists. split; [done|]. split.
  - rewrite lookup_insert. case_decide; [eauto|]. rewrite lookup_insert_eq. eauto.
  - rewrite lookup_insert_eq. eauto.
Qed.

Lemma add_eos_has_text_columns (self : t) (row : Row) :
  has_text_columns self row →
  ∃ row', _add_eos self row = Ok row' ∧ has_text_columns self row'.
Proof.
  intros [[x Hx] [y Hy]].
  destruct (add_eos_lookups self row x y Hx Hy) as (row' & Hrun & Hs & Ht & _).
  exists row'. split; [done|]. split; eauto.
Qed.

(** The columns [_to_features] returns, merged over a batch. *)
Lemma encodings_lookups (a b c : list (list Z)) (batch : gmap string (list cell)) :
  let merged :=
    (fmap (M := list) Ids <$>
       ({[ "source_ids" := a; "target_ids" := b; "attention_mask" := c ]}
        : gmap string (list (list Z)))) ∪ batch in
  merged !! "source_ids" = Some (Ids <$> a)
  ∧ merged !! "target_ids" = Some (Ids <$> b)
  ∧ merged !! "attention_mask" = Some (Ids <$> c).
Proof.
  split_and!; apply lookup_union_Some_l; rewrite lookup_fmap.
  - by rewrite lookup_insert_eq.
  - by rewrite lookup_insert_ne, lookup_insert_eq.
  - by rewrite !lookup_insert_ne, lookup_singleton_eq.
Qed.

Lemma encodings_lengths (a b c col : list (list Z)) (k : string) (n : nat) :
  length a = n → length b = n → length c = n →
  ({[ "source_ids" := a; "target_ids" := b; "attention_mask" := c ]}
   : gmap string (list (list Z))) !! k = Some col →
  length col = n.
Proof.
  intros Ha Hb Hc.
  intros [[_ <-]|[_ [[_ <-]|[_ [_ <-]%lookup_singleton_Some]]%lookup_insert_Some]]%lookup_insert_Some;
    done.
Qed.

(** One slice: every row of the slice gets the features of its own texts,
    at its own position. *)
Lemma map_slice_features (self : t) (rows : list Row) :
  rows ≠ [] → Forall (has_text_columns self) rows →
  ∃ out, Dataset.map_slice (_to_features self) rows = Ok out
    ∧ Forall2 (λ (r : Row) ex, ∃ x y,
        r !! source_column self = Some x ∧ r !! target_column self = Some y
        ∧ has_features self x y ex) rows out.
Proof.
  intros Hne Hall.
  destruct (to_batch_lookup rows (source_column self)) as (xs & Hxs & Fxs); [done|..].
  { eapply Forall_impl; [done|]. by intros r [? _]. }
  destruct (to_batch_lookup rows (target_column self)) as (ys & Hys & Fys); [done|..].
  { eapply Forall_impl; [done|]. by intros r [_ ?]. }
  pose proof (Forall2_length _ _ _ Fxs) as Hlx.
  pose proof (Forall2_length _ _ _ Fys) as Hly.
  unfold Dataset.map_slice. rewrite (to_features_run self _ xs ys Hxs Hys).
  unfold batch_encode_plus. cbn [input_ids attention_mask].
  unfold Dataset.from_columns. rewrite decide_True; cycle 1.
  { intros k col [Hk|[_ Hk]]%lookup_union_Some_raw.
    - apply lookup_fmap_Some in Hk as (l & <- & Hl). rewrite length_fmap.
      eapply encodings_lengths; [..|exact Hl]; by rewrite length_fmap.
    - apply lookup_fmap_Some in Hk as (l & <- & Hl). rewrite length_fmap.
      by eapply to_batch_length. }
  eexists. split; [done|].
  apply Forall2_same_length_lookup. split; [by rewrite length_fmap, length_seq|].
  intros i r ex Hr (j & -> & [-> Hlt]%lookup_seq)%list_lookup_fmap_Some. simpl.
  destruct (Forall2_lookup_l _ _ _ _ _ Fxs Hr) as (x & Hx & Hrx).
  destruct (Forall2_lookup_l _ _ _ _ _ Fys Hr) as (y & Hy & Hry).
  exists x, y. split_and!; try done.
  unfold has_features. cbn zeta. rewrite !lookup_omap.
  epose proof (encodings_lookups _ _ _ _) as (Hs & Ht & Hm).
  rewrite Hs, Ht, Hm. cbn [mbind option_bind].
  by rewrite !list_lookup_fmap, Hx, Hy.
Qed.

(** The batched stage over the whole dataset. *)
Lemma map_batched_features (self : t) (batch_size : nat) (dataset : list Row) :
  0 < batch_size → Forall (has_text_columns self) dataset →
  ∃ out, Dataset.map_batched (_to_features self) batch_size dataset = Ok out
    ∧ Forall2 (λ (r : Row) ex, ∃ x y,
        r !! source_column self = Some x ∧ r !! target_column self = Some y
        ∧ has_features self x y ex) dataset out.
Proof.
  intros Hpos Hall. unfold Dataset.map_batched.
  edestruct (mapM_result_rel (Dataset.map_slice (_to_features self)))
    as (written & -> & Hwritten).
  { apply Forall_forall. intros rows [Hne Hsub]%slices_elem; [|done].
    apply map_slice_features; [done|].
    rewrite Forall_forall in Hall |- *. auto. }
  eexists. split; [done|].
  rewrite <- (concat_slices batch_size dataset Hpos) at 1.
  by apply Forall2_concat_rel.
Qed.

(** C9. The encoding pipeline keeps the rows in place: on a dataset whose
    rows all have the source and the target field it returns as many
    examples as there are rows, and the example at index [i] carries, as
    [source_ids], [target_ids] and [attention_mask], the encoding of the
    input row at index [i] and of no other row. *)
Theorem preprocess_keeps_row_order (self : t) (dataset : list Row) :
  (∀ row, row ∈ dataset → has_text_columns self row) →
  ∃ out, preprocess self dataset = Ok out
    ∧ length out = length dataset
    ∧ ∀ i row, dataset !! i = Some row →
        ∃ ex source_ids target_ids mask,
          out !! i = Some ex
          ∧ encoded_example self row = Ok (source_ids, target_ids, mask)
          ∧ ex !! "source_ids" = Some (Ids source_ids)
          ∧ ex !! "target_ids" = Some (Ids target_ids)
          ∧ ex !! "attention_mask" = Some (Ids mask).
Proof.
  intros Hall%Forall_forall. unfold preprocess, Dataset.map.
  edestruct (mapM_result_rel (_add_eos self)
               (λ r r1, _add_eos self r = Ok r1 ∧ has_text_columns self r1))
    as (ds1 & -> & H1).
  { eapply Forall_impl; [done|]. intros r (r1 & ? & ?)%add_eos_has_text_columns. eauto. }
  assert (Forall (has_text_columns self) ds1) as Hall1.
  { eapply Forall2_Forall_r; [done|]. apply Forall_forall. by intros r _ r1 [_ ?]. }
  edestruct (mapM_result_rel (_replace_special_tokens self)
               (λ r1 r2, _replace_special_tokens self r1 = Ok r2))
    as (ds2 & Hds2 & H2).
  { eapply Forall_impl; [exact Hall1|].
    intros r (r2 & ? & ?)%replace_special_tokens_lookups. eauto. }
  assert (Forall (has_text_columns self) ds2) as Hall2.
  { eapply Forall2_Forall_r; [done|]. eapply Forall_impl; [exact Hall1|].
    intros r1 (r2 & Hr2 & ?)%replace_special_tokens_lookups r2' Hr2'. congruence. }
  destruct (map_batched_features self Dataset.default_batch_size ds2)
    as (out & Hout & H3); [unfold Dataset.default_batch_size; lia|done|].
  cbn [mbind result_bind]. rewrite Hds2. cbn [mbind result_bind]. rewrite Hout.
  exists out. split; [done|].
  assert (Forall2 (λ r (r2 : Row),
      (_add_eos self r ≫= _replace_special_tokens self) = Ok r2) dataset ds2) as H12.
  { eapply Forall2_trans; [|exact H1|exact H2].
    intros r r1 r2 [-> _] Hr2. exact Hr2. }
  assert (Forall2 (λ r ex, ∃ (r2 : Row) x y,
      (_add_eos self r ≫= _replace_special_tokens self) = Ok r2
      ∧ r2 !! source_column self = Some x ∧ r2 !! target_column self = Some y
      ∧ has_features self x y ex) dataset out) as H.
  { eapply Forall2_trans; [|exact H12|exact H3].
    intros r r2 ex Hr2 (x & y & Hx & Hy & Hf). by exists r2, x, y. }
  split.
  - symmetry. by eapply Forall2_length.
  - intros i row Hrow.
    destruct (Forall2_lookup_l _ _ _ _ _ H Hrow)
      as (ex & Hex & r2 & x & y & Hr2 & Hx & Hy & Hs & Ht & Hm).
    eexists ex, _, _, _. split_and!; [done| |done..].
    unfold encoded_example, getitem.
    destruct (_add_eos self row) as [r1|]; [|done]. cbn [mbind result_bind] in *.
    rewrite Hr2. cbn [mbind result_bind]. by rewrite Hx, Hy.
Qed.

Lemma preprocess_keeps_row_order_witness :
  ∃ out, preprocess Sample.builder [Sample.row1; Sample.row2] = Ok out
    ∧ length out = 2
    ∧ ∀ i row, [Sample.row1; Sample.row2] !! i = Some row →
        ∃ ex source_ids target_ids mask,
          out !! i = Some ex
          ∧ encoded_example Sample.builder row = Ok (source_ids, target_ids, mask)
          ∧ ex !! "source_ids" = Some (Ids source_ids)
          ∧ ex !! "target_ids" = Some (Ids target_ids)
          ∧ ex !! "attention_mask" = Some (Ids mask).
Proof.
  apply (preprocess_keeps_row_order Sample.builder [Sample.row1; Sample.row2]).
  intros row Hrow. apply elem_of_cons in Hrow as [->|Hrow].
  { split; by eexists. }
  apply elem_of_cons in Hrow as [->|Hrow].
  { split; by eexists. }
  by apply not_elem_of_nil in Hrow.
Defined.

End preprocess.

(** ** [main] *)

Section main.

Lemma bind_ok {S A B} (m : M S A) (k : A → M S B) (s s' : S) (a : A) :
  m s = (Ok a, s') → (m ≫= k) s = k a s'.
Proof. intros Hm. unfold mbind, M_bind. by rewrite Hm. Qed.

Lemma bind_err {S A B} (m : M S A) (k : A → M S B) (s s' : S) (e : error) :
  m s = (Err e, s') → (m ≫= k) s = (Err e, s').
Proof. intros Hm. unfold mbind, M_bind. by rewrite Hm. Qed.

Lemma traced_nil (w : World) : traced [] w = w.
Proof. destruct w. unfold traced. simpl. by rewrite app_nil_r. Qed.

Lemma traced_traced (es1 es2 : list event) (w : World) :
  traced es2 (traced es1 w) = traced (es1 ++ es2) w.
Proof. unfold traced. simpl. by rewrite app_assoc. Qed.

Lemma emit_run (e : event) (w : World) : emit e w = (Ok (), traced [e] w).
Proof. done. Qed.

Lemma json_load_ok (path : string) (config : list (string * string)) (w : World) :
  json_files w !! path = Some config →
  json_load path w = (Ok config, traced [ReadJson path] w).
Proof. intros Hp. unfold json_load. erewrite bind_ok by done. by rewrite Hp. Qed.

Lemma read_csv_ok (path : string) (df : DataFrame) (w : World) :
  csv_files w !! path = Some df →
  read_csv path w = (Ok df, traced [ReadCsv path] w).
Proof. intros Hp. unfold read_csv. erewrite bind_ok by done. by rewrite Hp. Qed.

Lemma for_each_log (config : list (string * string)) (line : string * string → string)
    (w : World) :
  for_each config (λ kv, logger_info (line kv)) w
  = (Ok (), traced ((λ kv, LogInfo (line kv)) <$> config) w).
Proof.
  revert w. induction config as [|kv config IH]; intros w.
  - by rewrite traced_nil.
  - simpl. erewrite bind_ok by apply emit_run. by rewrite IH, traced_traced.
Qed.

Lemma assert_true {S} (msg : string) (s : S) : assert true msg s = (Ok (), s).
Proof. done. Qed.

Lemma assert_false {S} (msg : string) (s : S) :
  assert false msg s = (Err (AssertionError msg), s).
Proof. done. Qed.

Lemma ends_with_pt (path : string) :
  PyStr.eqb (PyStr.last 3 path) ".pt" = true ↔ ends_with path ".pt".
Proof. rewrite PyStrFacts.eqb_true. apply (PyStrFacts.last_eq_iff path ".pt"). Qed.

(** The run of [main] up to its assertions, [k] being the rest of [main]. *)
Lemma main_loads (db_args : DatabuilderArguments.t) (w : World)
    (config : list (string * string)) (train_df valid_df : DataFrame)
    (k : DataFrame → DataFrame → M World ()) :
  json_files w !! DatabuilderArguments.config_path db_args = Some config →
  csv_files w !! DatabuilderArguments.train_csv_path db_args = Some train_df →
  csv_files w !! DatabuilderArguments.valid_csv_path db_args = Some valid_df →
  (config ← json_load (DatabuilderArguments.config_path db_args);
   logger_info "This config is being built: ";;
   for_each config (λ kv, logger_info ("     " +:+ kv.1 +:+ "=" +:+ kv.2));;
   train_df ← read_csv (DatabuilderArguments.train_csv_path db_args);
   valid_df ← read_csv (DatabuilderArguments.valid_csv_path db_args);
   k train_df valid_df) w
  = k train_df valid_df (traced (loaded db_args config) w).
Proof.
  intros Hjson Htrain Hvalid.
  erewrite bind_ok by (apply json_load_ok, Hjson).
  unfold logger_info at 1. erewrite bind_ok by apply emit_run.
  erewrite bind_ok by apply for_each_log.
  erewrite bind_ok by (apply read_csv_ok, Htrain).
  erewrite bind_ok by (apply read_csv_ok, Hvalid).
  by rewrite !traced_traced.
Qed.

Lemma from_pretrained_ok (name : string) (tok : MT5Tokenizer) (w : World) :
  pretrained w !! name = Some tok →
  from_pretrained name w = (Ok tok, traced [FromPretrained name] w).
Proof. intros Hp. unfold from_pretrained. erewrite bind_ok by done. by rewrite Hp. Qed.

(** C8. With the configuration file and both frames loaded, a source or
    target column name missing from a frame, or a save path that does not
    end in [.pt], makes [main] fail with an [AssertionError] that carries
    one of its three descriptive messages; up to then [main] has only read
    the configuration and the two frames and logged the configuration: no
    tokenizer was loaded, nothing was preprocessed, and no dataset, no
    tokenizer and no directory was written. *)
Theorem main_rejects_bad_configuration (db_args : DatabuilderArguments.t) (w : World)
    (config : list (string * string)) (train_df valid_df : DataFrame) :
  json_files w !! DatabuilderArguments.config_path db_args = Some config →
  csv_files w !! DatabuilderArguments.train_csv_path db_args = Some train_df →
  csv_files w !! DatabuilderArguments.valid_csv_path db_args = Some valid_df →
  ¬ configuration_ok db_args train_df valid_df →
  ∃ msg,
    main db_args w = (Err (AssertionError msg), traced (loaded db_args config) w)
    ∧ msg ∈ [missing_columns_msg db_args (DatabuilderArguments.train_csv_path db_args);
             missing_columns_msg db_args (DatabuilderArguments.valid_csv_path db_args);
             pt_files_msg]
    ∧ pt_files (traced (loaded db_args config) w) = pt_files w
    ∧ pretrained (traced (loaded db_args config) w) = pretrained w
    ∧ directories (traced (loaded db_args config) w) = directories w.
Proof.
  intros Hjson Htrain Hvalid Hbad.
  unfold main. rewrite (main_loads db_args w config train_df valid_df) by done.
  set (w1 := traced (loaded db_args config) w).
  assert (pt_files w1 = pt_files w ∧ pretrained w1 = pretrained w
          ∧ directories w1 = directories w) as Hframe by done.
  clearbody w1.
  destruct (bool_decide (DatabuilderArguments.source_column db_args ∈ columns train_df)
            && bool_decide (DatabuilderArguments.target_column db_args ∈ columns train_df))
    eqn:Hc1; cycle 1.
  { eexists. split; [by erewrite bind_err by apply assert_false|].
    split; [|done]. rewrite !elem_of_cons. auto. }
  erewrite bind_ok by apply assert_true.
  destruct (bool_decide (DatabuilderArguments.source_column db_args ∈ columns valid_df)
            && bool_decide (DatabuilderArguments.target_column db_args ∈ columns valid_df))
    eqn:Hc2; cycle 1.
  { eexists. split; [by erewrite bind_err by apply assert_false|].
    split; [|done]. rewrite !elem_of_cons. auto. }
  erewrite bind_ok by apply assert_true.
  destruct (PyStr.eqb (PyStr.last 3 (DatabuilderArguments.train_file_path db_args)) ".pt"
            && PyStr.eqb (PyStr.last 3 (DatabuilderArguments.valid_file_path db_args)) ".pt")
    eqn:Hc3; cycle 1.
  { eexists. split; [by erewrite bind_err by apply assert_false|].
    split; [|done]. rewrite !elem_of_cons. auto. }
  destruct Hbad.
  apply andb_true_iff in Hc1 as [?%bool_decide_eq_true ?%bool_decide_eq_true].
  apply andb_true_iff in Hc2 as [?%bool_decide_eq_true ?%bool_decide_eq_true].
  apply andb_true_iff in Hc3 as [?%ends_with_pt ?%ends_with_pt].
  by repeat split.
Qed.

(** Whenever [main] runs through, the dataset it saves at [valid_file_path]
    is the encoding of the training frame: the rows of the validation frame
    are not looked at. *)
Lemma main_saves_training_frame_twice (db_args : DatabuilderArguments.t) (w : World)
    (config : list (string * string)) (train_df valid_df : DataFrame)
    (tok : MT5Tokenizer) (encoded : list Example) (formatted : FormattedDataset) :
  json_files w !! DatabuilderArguments.config_path db_args = Some config →
  csv_files w !! DatabuilderArguments.train_csv_path db_args = Some train_df →
  csv_files w !! DatabuilderArguments.valid_csv_path db_args = Some valid_df →
  configuration_ok db_args train_df valid_df →
  pretrained w !! DatabuilderArguments.tokenizer_name_or_path db_args = Some tok →
  Databuilder.preprocess
    (Databuilder.__init__
       (add_tokens [DatabuilderArguments.highlight_token db_args;
                    DatabuilderArguments.separation_token db_args] tok) db_args)
    (from_pandas train_df) = Ok encoded →
  set_format "torch" ["source_ids"; "target_ids"; "attention_mask"] encoded = Ok formatted →
  ∃ w', main db_args w = (Ok (), w')
    ∧ pt_files w' !! DatabuilderArguments.valid_file_path db_args = Some formatted
    ∧ examples formatted = encoded.
Proof.
  intros Hjson Htrain Hvalid (Hc1 & Hc2 & Hc3 & Hc4 & Hc5 & Hc6) Htok Henc Hfmt.
  unfold main. rewrite (main_loads db_args w config train_df valid_df) by done.
  rewrite !(bool_decide_eq_true_2 _ Hc1), !(bool_decide_eq_true_2 _ Hc2),
    !(bool_decide_eq_true_2 _ Hc3), !(bool_decide_eq_true_2 _ Hc4).
  rewrite !(proj2 (ends_with_pt _) Hc5), !(proj2 (ends_with_pt _) Hc6).
  cbn [andb]. do 3 erewrite bind_ok by apply assert_true.
  erewrite bind_ok by (by apply from_pretrained_ok).
  erewrite bind_ok by apply emit_run.
  erewrite bind_ok by apply emit_run.
  erewrite bind_ok by (unfold lift; by rewrite Henc).
  erewrite bind_ok by apply emit_run.
  erewrite bind_ok by (unfold lift; by rewrite Henc).
  erewrite bind_ok by (unfold lift; by rewrite Hfmt).
  erewrite bind_ok by (unfold lift; by rewrite Hfmt).
  erewrite bind_ok by reflexivity.
  unfold logger_info. erewrite bind_ok by apply emit_run.
  erewrite bind_ok by reflexivity.
  erewrite bind_ok by apply emit_run.
  erewrite bind_ok by reflexivity.
  assert (examples formatted = encoded) as Hex.
  { unfold set_format in Hfmt. repeat case_match; by simplify_eq. }
  match goal with
  | |- context [bool_decide ?P] => destruct (bool_decide P)
  end; cbn [negb].
  - erewrite bind_ok by reflexivity. erewrite bind_ok by reflexivity.
    eexists. split; [apply emit_run|]. split; [|done].
    cbn. by rewrite lookup_insert_eq.
  - erewrite bind_ok by reflexivity. erewrite bind_ok by reflexivity.
    eexists. split; [apply emit_run|]. split; [|done].
    cbn. by rewrite lookup_insert_eq.
Qed.

End main.

Lemma main_rejects_bad_configuration_witness :
  ∃ msg,
    main Sample.bad_column_args Sample.world
    = (Err (AssertionError msg),
       traced (loaded Sample.bad_column_args
                 [("source_max_length", "8"); ("target_max_length", "4")]) Sample.world)
    ∧ msg ∈ [missing_columns_msg Sample.bad_column_args "data/train.tsv";
             missing_columns_msg Sample.bad_column_args "data/valid.tsv";
             pt_files_msg]
    ∧ pt_files (traced (loaded Sample.bad_column_args
                 [("source_max_length", "8"); ("target_max_length", "4")]) Sample.world)
      = pt_files Sample.world
    ∧ pretrained (traced (loaded Sample.bad_column_args
                 [("source_max_length", "8"); ("target_max_length", "4")]) Sample.world)
      = pretrained Sample.world
    ∧ directories (traced (loaded Sample.bad_column_args
                 [("source_max_length", "8"); ("target_max_length", "4")]) Sample.world)
      = directories Sample.world.
Proof.
  apply (main_rejects_bad_configuration Sample.bad_column_args Sample.world
           [("source_max_length", "8"); ("target_max_length", "4")]
           Sample.train_df Sample.valid_df); try reflexivity.
  intros (_ & Hin & _). apply (bool_decide_pack _) in Hin. vm_compute in Hin. done.
Defined.

(** C1. [main] does not build the validation dataset from the validation
    frame: on a world whose training frame has two rows and whose
    validation frame has one other row, [main] succeeds and the dataset it
    saves at [valid_file_path] is the encoding of the training frame, which
    is not the encoding of the validation frame. *)
Theorem main_saves_training_rows_as_validation :
  let preprocessor :=
    Databuilder.__init__ (add_tokens ["<hl>"; "<sep>"] Sample.char_tokenizer)
      Sample.small_args in
  let encoded df := ok_value (Databuilder.preprocess preprocessor (from_pandas df)) in
  let run := main Sample.small_args Sample.world in
  run.1 = Ok ()
  ∧ saved_examples "data/valid.pt" run.2 = encoded Sample.train_df
  ∧ encoded Sample.valid_df ≠ None
  ∧ saved_examples "data/valid.pt" run.2 ≠ encoded Sample.valid_df.
Proof.
  intros preprocessor encoded run. split_and!.
  - vm_compute. reflexivity.
  - vm_compute. reflexivity.
  - vm_compute. discriminate.
  - intros Heq%(f_equal (fmap (M := option) length)).
    vm_compute in Heq. discriminate.
Qed.

(** ** The training step *)

Section training_step.
Context `{Torch}.
Import Trainer.

Lemma keeps_inputs_bind {A B} (m : M Heap A) (k : A → M Heap B) :
  keeps_inputs m → (∀ a, keeps_inputs (k a)) → keeps_inputs (m ≫= k).
Proof.
  intros Hm Hk h. unfold mbind, M_bind. specialize (Hm h).
  destruct (m h) as [[a|e] h']; simpl in *; [|done].
  by rewrite Hk.
Qed.

Lemma keeps_inputs_record (c : call) : keeps_inputs (record c).
Proof. done. Qed.

Lemma keeps_inputs_lift {A} (r : result A) : keeps_inputs (lift r).
Proof. done. Qed.

Lemma keeps_inputs_raise {A} (e : error) : keeps_inputs (raise (A := A) e).
Proof. done. Qed.

Lemma keeps_inputs_backward (t : Tensor) : keeps_inputs (backward t).
Proof.
  apply keeps_inputs_bind; [apply keeps_inputs_record|].
  intros _. apply keeps_inputs_lift.
Qed.

Lemma keeps_inputs_model_call (model : Module) : keeps_inputs (model_call model).
Proof.
  apply keeps_inputs_bind; [done|]. intros h.
  apply keeps_inputs_bind; [apply keeps_inputs_record|].
  intros _. apply keeps_inputs_lift.
Qed.

(** The heap when the forward pass is about to be called. *)
Lemma training_step_prepares (self : t) (model : Module) (optimizer : Optimizer)
    (h : Heap) :
  ∃ rest : M Heap Scalar,
    _training_step self model optimizer h
    = rest {| inputs := sent_inputs self model (inputs h);
              training := true;
              calls := calls h ++ [ModelTrain] |}
    ∧ keeps_inputs rest
    ∧ rest = (outputs ← model_call model;
              loss ← lift (first outputs);
              let loss := adjusted_loss (n_gpu (args self))
                            (gradient_accumulation_steps (args self)) loss in
              (if fp16 (args self) then
                 match amp with
                 | Some scale_loss =>
                     record (AmpScaleLoss loss);; backward (scale_loss loss optimizer)
                 | None => raise (NameError "amp")
                 end
               else backward loss);;
              lift (tensor_item loss)).
Proof.
  eexists. split_and!. 3: reflexivity.
  - unfold _training_step, sent_inputs, adjusted_loss.
    rewrite !Z.gtb_ltb. by destruct (is_DataParallel model).
  - apply keeps_inputs_bind; [apply keeps_inputs_model_call|]. intros outputs.
    apply keeps_inputs_bind; [apply keeps_inputs_lift|]. intros loss.
    apply keeps_inputs_bind; [|intros _; apply keeps_inputs_lift].
    destruct (fp16 (args self)); [|apply keeps_inputs_backward].
    destruct amp; [|apply keeps_inputs_raise].
    apply keeps_inputs_bind; [apply keeps_inputs_record|].
    intros _. apply keeps_inputs_backward.
Qed.

(** C2. The step does not use the label smoothing rate: two trainers that
    differ in nothing but the rate run the same step, with the same call of
    the model on the same keyword inputs, the same backward pass, the same
    returned value and the same heap. *)
Theorem training_step_ignores_label_smoothing (rate rate' : Scalar)
    (args : TrainingArguments) (model : Module) (optimizer : Optimizer) (h : Heap) :
  _training_step (__init__ rate args) model optimizer h
  = _training_step (__init__ rate' args) model optimizer h.
Proof. reflexivity. Qed.

(** C10. The step changes the caller's batch dict in place, and the change
    is there when the step is over, whether it returned or raised: every
    tensor entry is replaced by the tensor moved to the device, an entry
    that is not a tensor is unchanged, no key is added, except that with a
    data-parallel model the key [return_tuple] is set to [True]. *)
Theorem training_step_mutates_inputs (self : t) (model : Module)
    (optimizer : Optimizer) (h : Heap) :
  let h' := (_training_step self model optimizer h).2 in
  inputs h'
  = (if is_DataParallel model
     then <["return_tuple" := VBool true]> (to_device (device (args self)) <$> inputs h)
     else to_device (device (args self)) <$> inputs h)
  ∧ (is_DataParallel model = true → inputs h' !! "return_tuple" = Some (VBool true))
  ∧ (∀ k, is_DataParallel model = false ∨ k ≠ "return_tuple" →
       (∀ t, inputs h !! k = Some (VTensor t) →
             inputs h' !! k = Some (VTensor (tensor_to t (device (args self)))))
       ∧ (∀ v, inputs h !! k = Some v → (∀ t, v ≠ VTensor t) → inputs h' !! k = Some v)
       ∧ (inputs h !! k = None → inputs h' !! k = None)).
Proof.
  intros h'.
  assert (inputs h' = sent_inputs self model (inputs h)) as Hin.
  { unfold h'. destruct (training_step_prepares self model optimizer h)
      as (rest & -> & Hrest & _). by rewrite Hrest. }
  rewrite Hin. unfold sent_inputs. split_and!.
  - done.
  - intros ->. by rewrite lookup_insert_eq.
  - intros k Hk.
    assert ((if is_DataParallel model
             then <["return_tuple" := VBool true]> (to_device (device (args self)) <$> inputs h)
             else to_device (device (args self)) <$> inputs h) !! k
            = to_device (device (args self)) <$> inputs h !! k) as ->.
    { destruct (is_DataParallel model); [|by rewrite lookup_fmap].
      destruct Hk as [?|Hk]; [done|]. by rewrite lookup_insert_ne, lookup_fmap. }
    split_and!.
    + by intros t ->.
    + intros v -> Hv. destruct v; try done. by destruct (Hv t0).
    + by intros ->.
Qed.

(** C4, amended. When the forward pass returns its outputs and the
    backward pass and [item] run through, the step returns the plain value
    of the adjusted loss: the first output, reduced by its mean when
    [n_gpu > 1], then divided by the accumulation step count when that
    count exceeds 1. Without [fp16], backward is invoked on this adjusted
    loss; with [fp16], it is invoked on the scaled loss that
    [amp.scale_loss] yields for the adjusted loss and the optimizer. The
    calls of the step are [model.train()], the forward pass, the scaling
    with [fp16], and backward: the optimizer is neither stepped nor are
    gradients zeroed. *)
Theorem training_step_returns_adjusted_loss (self : t) (model : Module)
    (optimizer : Optimizer) (h : Heap) (outputs : list Tensor)
    (loss0 operand : Tensor) (value : Scalar) :
  let kwargs := sent_inputs self model (inputs h) in
  let loss :=
    adjusted_loss (n_gpu (args self)) (gradient_accumulation_steps (args self)) loss0 in
  forward model true kwargs = Ok outputs →
  first outputs = Ok loss0 →
  backward_operand self optimizer loss = Ok operand →
  tensor_backward operand = Ok () →
  tensor_item loss = Ok value →
  ∃ (h' : Heap) (made : list call),
    _training_step self model optimizer h = (Ok value, h')
    ∧ calls h' = calls h ++ made
    ∧ made = [ModelTrain; ModelForward kwargs]
             ++ (if fp16 (args self) then [AmpScaleLoss loss] else [])
             ++ [Backward operand]
    ∧ (fp16 (args self) = false → operand = loss)
    ∧ (∀ scale_loss, fp16 (args self) = true → amp = Some scale_loss →
         operand = scale_loss loss optimizer)
    ∧ backward_calls made = [operand]
    ∧ (OptimizerStep ∉ made) ∧ (OptimizerZeroGrad ∉ made).
Proof.
  intros kwargs loss Hforward Hfirst Hoperand Hbackward Hitem.
  destruct (training_step_prepares self model optimizer h) as (rest & -> & _ & ->).
  fold kwargs. unfold model_call.
  erewrite bind_ok; cycle 1.
  { erewrite bind_ok by reflexivity. cbn [inputs training].
    erewrite bind_ok by reflexivity. unfold lift. by rewrite Hforward. }
  erewrite bind_ok by (unfold lift; by rewrite Hfirst).
  fold loss. unfold backward_operand in Hoperand.
  destruct (fp16 (args self)) eqn:Hfp16.
  - destruct amp as [scale_loss|] eqn:Hamp; [|done]. injection Hoperand as <-.
    eexists _, [ModelTrain; ModelForward kwargs; AmpScaleLoss loss;
                Backward (scale_loss loss optimizer)]. split_and!.
    + erewrite bind_ok; cycle 1.
      { erewrite bind_ok by reflexivity. unfold backward.
        erewrite bind_ok by reflexivity. unfold lift. by rewrite Hbackward. }
      unfold lift. by rewrite Hitem.
    + cbn [calls]. by rewrite <- !app_assoc.
    + done.
    + done.
    + intros ? _ [= <-]. done.
    + done.
    + intros Hin. repeat (apply elem_of_cons in Hin as [?|Hin]; [done|]).
      by apply elem_of_nil in Hin.
    + intros Hin. repeat (apply elem_of_cons in Hin as [?|Hin]; [done|]).
      by apply elem_of_nil in Hin.
  - injection Hoperand as <-.
    eexists _, [ModelTrain; ModelForward kwargs; Backward loss]. split_and!.
    + erewrite bind_ok; cycle 1.
      { unfold backward. erewrite bind_ok by reflexivity. unfold lift. by rewrite Hbackward. }
      unfold lift. by rewrite Hitem.
    + cbn [calls]. by rewrite <- !app_assoc.
    + done.
    + done.
    + done.
    + done.
    + intros Hin. repeat (apply elem_of_cons in Hin as [?|Hin]; [done|]).
      by apply elem_of_nil in Hin.
    + intros Hin. repeat (apply elem_of_cons in Hin as [?|Hin]; [done|]).
      by apply elem_of_nil in Hin.
Qed.

End training_step.

Lemma training_step_mutates_inputs_witness :
  let h' := (Trainer._training_step
               (Trainer.__init__ (H := Sample.q_torch) (1 # 10)%Q (Sample.training_args false))
               Sample.model 128%Q Sample.heap).2 in
  inputs h' !! "labels"
  = Some (VTensor (H := Sample.q_torch) {| Sample.elements := [3%Q; 5%Q]; Sample.on := "cuda:0" |})
  ∧ inputs h' !! "id" = Some (VInt (H := Sample.q_torch) 7)
  ∧ inputs h' !! "return_tuple" = Some (VBool (H := Sample.q_torch) true).
Proof.
  intros h'.
  pose proof (training_step_mutates_inputs
                (Trainer.__init__ (H := Sample.q_torch) (1 # 10)%Q (Sample.training_args false))
                Sample.model 128%Q Sample.heap) as (_ & Hdp & Hother).
  assert ("labels" ≠ "return_tuple") as Hlabels by discriminate.
  assert ("id" ≠ "return_tuple") as Hid by discriminate.
  split_and!.
  - destruct (Hother "labels" (or_intror Hlabels)) as (Htensor & _ & _).
    apply (Htensor {| Sample.elements := [3%Q; 5%Q]; Sample.on := "cpu" |}).
    reflexivity.
  - destruct (Hother "id" (or_intror Hid)) as (_ & Hvalue & _).
    apply (Hvalue (VInt (H := Sample.q_torch) 7)); [reflexivity|discriminate].
  - apply Hdp. reflexivity.
Defined.

Lemma training_step_returns_adjusted_loss_witness :
  ∃ (h' : Heap (H := Sample.q_torch)) (made : list call),
    Trainer._training_step
      (Trainer.__init__ (H := Sample.q_torch) 0%Q (Sample.training_args false))
      Sample.model 128%Q Sample.heap
    = (Ok 1%Q, h')
    ∧ calls h' = calls Sample.heap ++ made
    ∧ Trainer.backward_calls made
      = [{| Sample.elements := [1%Q]; Sample.on := "cuda:0" |}].
Proof.
  pose proof (training_step_returns_adjusted_loss
              (Trainer.__init__ (H := Sample.q_torch) 0%Q (Sample.training_args false))
              Sample.model 128%Q Sample.heap
              [{| Sample.elements := [3%Q; 5%Q]; Sample.on := "cuda:0" |}]
              {| Sample.elements := [3%Q; 5%Q]; Sample.on := "cuda:0" |}
              {| Sample.elements := [1%Q]; Sample.on := "cuda:0" |}
              1%Q) as Hstep.
  destruct Hstep as (h' & made & Hrun & Hcalls & _ & _ & _ & Hback & _).
  - vm_compute. reflexivity.
  - vm_compute. reflexivity.
  - vm_compute. reflexivity.
  - vm_compute. reflexivity.
  - vm_compute. reflexivity.
  - exists h', made. exact (conj Hrun (conj Hcalls Hback)).
Defined.

(** C4 as stated fails with [fp16]: on two replica losses 3 and 5 with four
    accumulation steps the adjusted loss is the scalar 1, which the step
    returns, but with a loss scale of 128 the one tensor backward is
    invoked on is the scaled loss 128, not the adjusted loss. *)
Lemma training_step_fp16_backward_on_scaled_loss :
  let self := Trainer.__init__ (H := Sample.q_torch) 0%Q (Sample.training_args true) in
  let loss :=
    Trainer.adjusted_loss (H := Sample.q_torch) 2 4
      {| Sample.elements := [3%Q; 5%Q]; Sample.on := "cuda:0" |} in
  let run := Trainer._training_step self Sample.model 128%Q Sample.heap in
  run.1 = Ok 1%Q
  ∧ loss = {| Sample.elements := [1%Q]; Sample.on := "cuda:0" |}
  ∧ Trainer.backward_calls (calls run.2)
    = [{| Sample.elements := [128%Q]; Sample.on := "cuda:0" |}]
  ∧ Trainer.backward_calls (calls run.2) ≠ [loss].
Proof.
  intros self loss run. split_and!.
  - vm_compute. reflexivity.
  - vm_compute. reflexivity.
  - vm_compute. reflexivity.
  - vm_compute. discriminate.
Qed.

(** * Further properties *)

(** ** The row stages *)

Section row_stages.
Import PyStrFacts.
Import Databuilder.

(** What a row stage raises is a [KeyError] for one of the two columns. *)
Lemma add_eos_inv (self : t) (row : Row) :
  match _add_eos self row with
  | Ok _ => has_text_columns self row
  | Err e =>
      (row !! source_column self = None ∧ e = KeyError (source_column self))
      ∨ (is_Some (row !! source_column self) ∧ row !! target_column self = None
         ∧ e = KeyError (target_column self))
  end.
Proof.
  unfold _add_eos, getitem.
  destruct (row !! source_column self) as [x|] eqn:Hx; [|by left].
  cbn [mbind result_bind].
  destruct (decide (source_column self = target_column self)) as [Heq|Hne].
  - rewrite <- Heq, lookup_insert_eq. cbn [mbind result_bind].
    split; rewrite <- ?Heq; eauto.
  - rewrite lookup_insert_ne by done.
    destruct (row !! target_column self) as [y|] eqn:Hy.
    + split; eauto.
    + right. eauto.
Qed.

Lemma replace_special_tokens_inv (self : t) (row : Row) :
  match _replace_special_tokens self row with
  | Ok _ => has_text_columns self row
  | Err e =>
      (row !! source_column self = None ∧ e = KeyError (source_column self))
      ∨ (is_Some (row !! source_column self) ∧ row !! target_column self = None
         ∧ e = KeyError (target_column self))
  end.
Proof.
  unfold _replace_special_tokens, getitem.
  destruct (row !! source_column self) as [x|] eqn:Hx; [|by left].
  cbn [mbind result_bind].
  destruct (decide (source_column self = target_column self)) as [Heq|Hne].
  - rewrite <- Heq, lookup_insert_eq. cbn [mbind result_bind].
    split; rewrite <- ?Heq; eauto.
  - rewrite lookup_insert_ne by done.
    destruct (row !! target_column self) as [y|] eqn:Hy.
    + split; eauto.
    + right. eauto.
Qed.

(** Both row stages run through exactly on the rows that have the source
    and the target field; on any other row they raise [KeyError] for the
    first field missing, the source field being read first. *)
Theorem row_stages_key_errors (self : t) (row : Row) :
  ((∃ row', _add_eos self row = Ok row') ↔ has_text_columns self row)
  ∧ ((∃ row', _replace_special_tokens self row = Ok row') ↔ has_text_columns self row)
  ∧ (row !! source_column self = None →
       _add_eos self row = Err (KeyError (source_column self))
       ∧ _replace_special_tokens self row = Err (KeyError (source_column self)))
  ∧ (is_Some (row !! source_column self) → row !! target_column self = None →
       _add_eos self row = Err (KeyError (target_column self))
       ∧ _replace_special_tokens self row = Err (KeyError (target_column self))).
Proof.
  pose proof (add_eos_inv self row) as Ha.
  pose proof (replace_special_tokens_inv self row) as Hr.
  split_and!.
  - split.
    + intros [row' Hrun]. by rewrite Hrun in Ha.
    + intros (row' & Hrun & _)%add_eos_has_text_columns. eauto.
  - split.
    + intros [row' Hrun]. by rewrite Hrun in Hr.
    + intros (row' & Hrun & _)%replace_special_tokens_lookups. eauto.
  - intros Hx.
    destruct (_add_eos self row) as [?|e]; [destruct Ha as [[? ?] _]; congruence|].
    destruct (_replace_special_tokens self row) as [?|e'];
      [destruct Hr as [[? ?] _]; congruence|].
    destruct Ha as [[_ ->]|([? ?] & _)]; [|congruence].
    destruct Hr as [[_ ->]|([? ?] & _)]; [done|congruence].
  - intros [x Hx] Hy.
    destruct (_add_eos self row) as [?|e]; [destruct Ha as [_ [? ?]]; congruence|].
    destruct (_replace_special_tokens self row) as [?|e'];
      [destruct Hr as [_ [? ?]]; congruence|].
    destruct Ha as [[? _]|(_ & _ & ->)]; [congruence|].
    destruct Hr as [[? _]|(_ & _ & ->)]; [congruence|done].
Qed.

End row_stages.

Lemma row_stages_key_errors_witness :
  Databuilder._add_eos Sample.builder {[ "source_text" := "x" ]}
  = Err (KeyError "target_text")
  ∧ Databuilder._replace_special_tokens Sample.builder {[ "source_text" := "x" ]}
    = Err (KeyError "target_text").
Proof.
  apply (row_stages_key_errors Sample.builder {[ "source_text" := "x" ]}).
  - by eexists.
  - reflexivity.
Defined.

Section text_stages.
Import PyStr PyStrFacts.
Import Databuilder.

(** A character that is none of [old]'s. *)
Lemma not_a_char (c : Ascii.ascii) (old : string) :
  forallb (λ d, negb (Ascii.eqb d c)) (String.list_ascii_of_string old) = true →
  ∀ u v, old ≠ u +:+ String c v.
Proof.
  intros Hall u. revert old Hall. induction u as [|d u IH]; intros old Hall v Hold.
  - subst old. rewrite app_nil_l in Hall. simpl in Hall.
    by rewrite Ascii.eqb_refl in Hall.
  - subst old. rewrite app_cons in Hall. simpl in Hall.
    apply andb_true_iff in Hall as [_ Hall]. by eapply IH.
Qed.

(** A character foreign to the pattern splits the text: the scan treats
    what is before it and what is behind it on their own. *)
Lemma replace_from_foreign_char (old new a b : string) (c : Ascii.ascii) :
  (∀ u v, old ≠ u +:+ String c v) → old ≠ "" →
  replace_from old new 0 (a +:+ String c b)
  = replace_from old new 0 a +:+ String c (replace_from old new 0 b).
Proof.
  intros Hc Hne. remember (String.length a) as n eqn:Hn.
  revert a Hn. induction (lt_wf n) as [n _ IH]; intros a ->.
  destruct (startswith old (a +:+ String c b)) eqn:Hs.
  - apply startswith_true in Hs as [r Hr].
    destruct (decide (String.length old ≤ String.length a)) as [Hle|Hgt].
    + symmetry in Hr. destruct (app_eq_app_le _ _ _ _ Hr Hle) as (w & -> & _).
      rewrite app_assoc, !replace_from_match, app_assoc by done.
      f_equal. eapply IH; [|done].
      rewrite length_app. destruct old; [done|]. simpl. lia.
    + exfalso. destruct (app_eq_app_le a (String c b) old r Hr) as (d & Hd & Hcb); [lia|].
      destruct d as [|c' d].
      { rewrite app_nil_r in Hd. subst a. lia. }
      rewrite app_cons in Hcb. injection Hcb as <- _. by eapply Hc.
  - assert (startswith old a = false) as Hsa.
    { apply not_true_is_false. intros [w Hw]%startswith_true.
      rewrite Hw, app_assoc, startswith_app in Hs. done. }
    destruct a as [|d a'].
    + rewrite app_nil_l in *. by rewrite replace_from_nomatch.
    + rewrite app_cons in *. rewrite !replace_from_nomatch, app_cons by done.
      f_equal. eapply IH; [|done]. simpl. lia.
Qed.

Lemma replace_keeps_eos (old new z : string) :
  old = hl_pattern ∨ old = sep_pattern →
  ends_with z eos_marker → ends_with (replace old new z) eos_marker.
Proof.
  intros Hold [p ->]. exists (replace_from old new 0 p).
  assert (replace old new (p +:+ eos_marker) = replace_from old new 0 (p +:+ eos_marker))
    as -> by by destruct Hold as [-> | ->].
  change eos_marker with (String (Ascii.ascii_of_nat 60) "/s>").
  rewrite replace_from_foreign_char.
  - by destruct Hold as [-> | ->].
  - destruct Hold as [-> | ->]; by apply not_a_char.
  - by destruct Hold as [-> | ->].
Qed.

(** After EOS normalization and special-token substitution the source and
    the target field of a row both end with the marker [</s>], whatever the
    highlight and separation tokens are, and the row has the keys it had. *)
Theorem text_stages_end_with_eos (self : t) (row : Row) :
  has_text_columns self row →
  ∃ (row1 row2 : Row) (x y : string),
    _add_eos self row = Ok row1
    ∧ _replace_special_tokens self row1 = Ok row2
    ∧ row2 !! source_column self = Some x ∧ ends_with x eos_marker
    ∧ row2 !! target_column self = Some y ∧ ends_with y eos_marker
    ∧ dom row2 = dom row.
Proof.
  intros [[x Hx] [y Hy]].
  destruct (add_eos_target_read self row x y Hx Hy) as (y0 & Hy0 & Hyy).
  pose proof (add_eos_run self row x y0 Hx Hy0) as Hrun1. rewrite Hyy in Hrun1.
  set (row1 := <[target_column self := add_eos_text y]>
                 (<[source_column self := add_eos_text x]> row)) in *.
  assert (∃ x1, row1 !! source_column self = Some x1 ∧ ends_with x1 eos_marker)
    as (x1 & Hx1 & Hex1).
  { unfold row1. rewrite lookup_insert. case_decide.
    - eauto using add_eos_text_result_ends.
    - rewrite lookup_insert_eq. eauto using add_eos_text_result_ends. }
  assert (row1 !! target_column self = Some (add_eos_text y)) as Hy1
    by apply lookup_insert_eq.
  set (x2 := replace hl_pattern (highlight_token self) x1).
  assert (ends_with x2 eos_marker) as Hex2 by (apply replace_keeps_eos; auto).
  assert (∃ y1, <[source_column self := x2]> row1 !! target_column self = Some y1
                ∧ ends_with y1 eos_marker) as (y1 & Hy1' & Hey1).
  { rewrite lookup_insert. case_decide; [eauto|].
    rewrite Hy1. eauto using add_eos_text_result_ends. }
  set (y2 := replace sep_pattern (separation_token self) y1).
  assert (ends_with y2 eos_marker) as Hey2 by (apply replace_keeps_eos; auto).
  assert (∃ x3, <[target_column self := y2]> (<[source_column self := x2]> row1)
                  !! source_column self = Some x3 ∧ ends_with x3 eos_marker)
    as (x3 & Hx3 & Hex3).
  { rewrite lookup_insert. case_decide; [eauto|]. rewrite lookup_insert_eq. eauto. }
  exists row1, (<[target_column self := y2]> (<[source_column self := x2]> row1)), x3, y2.
  split_and!; try done.
  - unfold _replace_special_tokens, getitem. rewrite Hx1.
    cbn [mbind result_bind]. fold x2. by rewrite Hy1'.
  - apply lookup_insert_eq.
  - transitivity (dom row1).
    + rewrite !dom_insert_lookup_L; eauto.
    + unfold row1. rewrite !dom_insert_lookup_L; eauto.
Qed.

Lemma text_stages_end_with_eos_witness :
  ∃ (row1 row2 : Row) (x y : string),
    _add_eos Sample.builder Sample.row1 = Ok row1
    ∧ _replace_special_tokens Sample.builder row1 = Ok row2
    ∧ row2 !! "source_text" = Some x ∧ ends_with x eos_marker
    ∧ row2 !! "target_text" = Some y ∧ ends_with y eos_marker
    ∧ dom row2 = dom Sample.row1.
Proof.
  apply (text_stages_end_with_eos Sample.builder Sample.row1).
  split; by eexists.
Defined.

End text_stages.

(** ** The encoding stage and the pipeline *)

Section pipeline.
Import Databuilder.

(** The encoding stage reads the source and the target column of the batch
    and nothing else: it raises [KeyError] for the first of the two that is
    missing, two batches that agree on the two columns get the same result,
    and a result has the three feature columns and no other. *)
Theorem to_features_reads_two_columns (self : t) (batch : Batch) :
  (batch !! source_column self = None →
     _to_features self batch = Err (KeyError (source_column self)))
  ∧ (is_Some (batch !! source_column self) → batch !! target_column self = None →
       _to_features self batch = Err (KeyError (target_column self)))
  ∧ (∀ batch' : Batch,
       batch' !! source_column self = batch !! source_column self →
       batch' !! target_column self = batch !! target_column self →
       _to_features self batch' = _to_features self batch)
  ∧ (∀ encodings, _to_features self batch = Ok encodings →
       dom encodings = {[ "source_ids"; "target_ids"; "attention_mask" ]}).
Proof.
  split_and!.
  - intros Hs. unfold _to_features, getitem. by rewrite Hs.
  - intros [source Hs] Ht. unfold _to_features, getitem. rewrite Hs.
    cbn [mbind result_bind]. by rewrite Ht.
  - intros batch' Hs Ht. unfold _to_features, getitem. by rewrite Hs, Ht.
  - intros encodings. unfold _to_features, getitem.
    destruct (batch !! source_column self); [|done]. cbn [mbind result_bind].
    destruct (batch !! target_column self); [|done]. cbn [mbind result_bind].
    intros [= <-]. rewrite !dom_insert_L, dom_singleton_L.
    apply set_eq. intros k. rewrite !elem_of_union, !elem_of_singleton. tauto.
Qed.

Lemma to_features_reads_two_columns_witness :
  Databuilder._to_features Sample.builder {[ "source_text" := ["a"; "b"] ]}
  = Err (KeyError "target_text").
Proof.
  apply (to_features_reads_two_columns Sample.builder {[ "source_text" := ["a"; "b"] ]}).
  - by eexists.
  - reflexivity.
Defined.

Lemma mapM_result_inv {A B} (f : A → result B) (l : list A) :
  match mapM f l with
  | Ok k => Forall2 (λ x y, f x = Ok y) l k
  | Err e => Exists (λ x, f x = Err e) l
  end.
Proof.
  induction l as [|x l IH]; [constructor|].
  cbn [mapM]. change (mapM f l) with (mapM f l) in *.
  destruct (f x) as [y|e] eqn:Hx; cbn [mbind result_bind]; [|by left].
  destruct (mapM f l) as [k|e]; cbn [mbind result_bind mret result_ret].
  - by constructor.
  - by right.
Qed.

(** The pipeline on a dataset whose rows all have the two fields. *)
Lemma preprocess_runs (self : t) (dataset : list Row) :
  Forall (has_text_columns self) dataset →
  ∃ out, preprocess self dataset = Ok out
    ∧ Forall2 (λ r ex, ∃ (r2 : Row) x y,
        (_add_eos self r ≫= _replace_special_tokens self) = Ok r2
        ∧ r2 !! source_column self = Some x ∧ r2 !! target_column self = Some y
        ∧ has_features self x y ex) dataset out.
Proof.
  intros Hall. unfold preprocess, Dataset.map.
  edestruct (mapM_result_rel (_add_eos self)
               (λ r r1, _add_eos self r = Ok r1 ∧ has_text_columns self r1))
    as (ds1 & -> & H1).
  { eapply Forall_impl; [done|]. intros r (r1 & ? & ?)%add_eos_has_text_columns. eauto. }
  assert (Forall (has_text_columns self) ds1) as Hall1.
  { eapply Forall2_Forall_r; [done|]. apply Forall_forall. by intros r _ r1 [_ ?]. }
  edestruct (mapM_result_rel (_replace_special_tokens self)
               (λ r1 r2, _replace_special_tokens self r1 = Ok r2))
    as (ds2 & Hds2 & H2).
  { eapply Forall_impl; [exact Hall1|].
    intros r (r2 & ? & ?)%replace_special_tokens_lookups. eauto. }
  assert (Forall (has_text_columns self) ds2) as Hall2.
  { eapply Forall2_Forall_r; [done|]. eapply Forall_impl; [exact Hall1|].
    intros r1 (r2 & Hr2 & ?)%replace_special_tokens_lookups r2' Hr2'. congruence. }
  destruct (map_batched_features self Dataset.default_batch_size ds2)
    as (out & Hout & H3); [unfold Dataset.default_batch_size; lia|done|].
  cbn [mbind result_bind]. rewrite Hds2. cbn [mbind result_bind]. rewrite Hout.
  exists out. split; [done|].
  assert (Forall2 (λ r (r2 : Row),
      (_add_eos self r ≫= _replace_special_tokens self) = Ok r2) dataset ds2) as H12.
  { eapply Forall2_trans; [|exact H1|exact H2].
    intros r r1 r2 [-> _] Hr2. exact Hr2. }
  eapply Forall2_trans; [|exact H12|exact H3].
  intros r r2 ex Hr2 (x & y & Hx & Hy & Hf). by exists r2, x, y.
Qed.

(** The pipeline runs through exactly on the datasets whose rows all have
    the source and the target field; otherwise it raises the [KeyError] of
    the first row stage, for one of the two column names, and returns no
    example at all. *)
Theorem preprocess_runs_iff (self : t) (dataset : list Row) :
  ((∃ out, preprocess self dataset = Ok out) ↔ Forall (has_text_columns self) dataset)
  ∧ (∀ e, preprocess self dataset = Err e →
       e = KeyError (source_column self) ∨ e = KeyError (target_column self)).
Proof.
  pose proof (mapM_result_inv (_add_eos self) dataset) as Hinv.
  assert (∀ ds1, mapM (_add_eos self) dataset = Ok ds1 →
            Forall (has_text_columns self) dataset) as Hok.
  { intros ds1 Hds1. rewrite Hds1 in Hinv. apply Forall_forall. intros r Hr.
    apply list_elem_of_lookup in Hr as [i Hi].
    destruct (Forall2_lookup_l _ _ _ _ _ Hinv Hi) as (r1 & _ & Hr1).
    pose proof (add_eos_inv self r) as Ha. by rewrite Hr1 in Ha. }
  split.
  - split; [|intros (out & Hout & _)%preprocess_runs; eauto].
    intros [out Hout]. unfold preprocess, Dataset.map in Hout.
    destruct (mapM (_add_eos self) dataset) as [ds1|e] eqn:Hds1; [eauto|done].
  - intros e He. unfold preprocess, Dataset.map in He.
    destruct (mapM (_add_eos self) dataset) as [ds1|e'] eqn:Hds1.
    + destruct (preprocess_runs self dataset) as (out & Hout & _); [eauto|].
      unfold preprocess, Dataset.map in Hout. rewrite Hds1 in Hout. congruence.
    + cbn [mbind result_bind] in He. injection He as <-.
      apply Exists_exists in Hinv as (r & _ & Hr).
      pose proof (add_eos_inv self r) as Ha. rewrite Hr in Ha.
      destruct Ha as [[_ ->]|(_ & _ & ->)]; auto.
Qed.

Lemma preprocess_runs_iff_witness :
  Forall (has_text_columns Sample.builder) [Sample.row1; Sample.row2].
Proof.
  apply (proj1 (preprocess_runs_iff Sample.builder [Sample.row1; Sample.row2])).
  eexists. vm_compute. reflexivity.
Defined.

End pipeline.

(** ** The runs of [main] *)

Section main_runs.

Lemma bind_inv {S A B} (m : M S A) (k : A → M S B) (s s' : S) (r : result B) :
  (m ≫= k) s = (r, s') →
  (∃ e, m s = (Err e, s') ∧ r = Err e)
  ∨ (∃ a s1, m s = (Ok a, s1) ∧ k a s1 = (r, s')).
Proof.
  unfold mbind, M_bind. destruct (m s) as [[a|e] s1]; intros Hrun.
  - right. eauto.
  - left. injection Hrun as <- <-. eauto.
Qed.

(** [main] reads the configuration file, then the training frame, then the
    validation frame, and raises [FileNotFoundError] for the first of them
    that is missing: without the configuration file nothing has happened
    yet, without a frame only the configuration has been read and logged. *)
Theorem main_missing_input_file (db_args : DatabuilderArguments.t) (w : World) :
  (json_files w !! DatabuilderArguments.config_path db_args = None →
     main db_args w
     = (Err (FileNotFoundError (DatabuilderArguments.config_path db_args)), w))
  ∧ (∀ config,
       json_files w !! DatabuilderArguments.config_path db_args = Some config →
       let logged :=
         [ReadJson (DatabuilderArguments.config_path db_args);
          LogInfo "This config is being built: "]
         ++ ((λ kv, LogInfo ("     " +:+ kv.1 +:+ "=" +:+ kv.2)) <$> config) in
       (csv_files w !! DatabuilderArguments.train_csv_path db_args = None →
          main db_args w
          = (Err (FileNotFoundError (DatabuilderArguments.train_csv_path db_args)),
             traced logged w))
       ∧ (∀ train_df,
            csv_files w !! DatabuilderArguments.train_csv_path db_args = Some train_df →
            csv_files w !! DatabuilderArguments.valid_csv_path db_args = None →
            main db_args w
            = (Err (FileNotFoundError (DatabuilderArguments.valid_csv_path db_args)),
               traced (logged ++ [ReadCsv (DatabuilderArguments.train_csv_path db_args)]) w))).
Proof.
  split.
  - intros Hjson. unfold main. erewrite bind_err; [done|].
    unfold json_load. erewrite bind_ok by done. by rewrite Hjson.
  - intros config Hjson logged.
    assert (∀ k : DataFrame → M World (),
      (config ← json_load (DatabuilderArguments.config_path db_args);
       logger_info "This config is being built: ";;
       for_each config (λ kv, logger_info ("     " +:+ kv.1 +:+ "=" +:+ kv.2));;
       train_df ← read_csv (DatabuilderArguments.train_csv_path db_args);
       k train_df) w
      = (train_df ← read_csv (DatabuilderArguments.train_csv_path db_args);
         k train_df) (traced logged w)) as Hload.
    { intros k.
      erewrite bind_ok by (apply json_load_ok, Hjson).
      unfold logger_info at 1. erewrite bind_ok by apply emit_run.
      erewrite bind_ok by apply for_each_log.
      by rewrite !traced_traced. }
    split.
    + intros Htrain. unfold main. rewrite Hload. erewrite bind_err; [done|].
      unfold read_csv. erewrite bind_ok by done. cbn [csv_files traced].
      by rewrite Htrain.
    + intros train_df Htrain Hvalid. unfold main. rewrite Hload.
      erewrite bind_ok by (apply read_csv_ok, Htrain). rewrite traced_traced.
      erewrite bind_err; [done|].
      unfold read_csv. erewrite bind_ok by done. cbn [csv_files traced].
      by rewrite Hvalid.
Qed.

Lemma main_missing_input_file_witness :
  main Sample.small_args
    {| json_files := ∅; csv_files := ∅; pretrained := ∅; pt_files := ∅;
       directories := ∅; trace := [] |}
  = (Err (FileNotFoundError "model/params.json"),
     {| json_files := ∅; csv_files := ∅; pretrained := ∅; pt_files := ∅;
        directories := ∅; trace := [] |}).
Proof.
  apply (main_missing_input_file Sample.small_args
           {| json_files := ∅; csv_files := ∅; pretrained := ∅; pt_files := ∅;
              directories := ∅; trace := [] |}).
  reflexivity.
Defined.

(** *** What a run of [main] can change *)

Lemma only_traces_ret {A} (a : A) : only_traces (mret a).
Proof. intros w. exists []. by rewrite traced_nil. Qed.

Lemma only_traces_bind {A B} (m : M World A) (k : A → M World B) :
  only_traces m → (∀ a, only_traces (k a)) → only_traces (m ≫= k).
Proof.
  intros Hm Hk w. unfold mbind, M_bind. destruct (Hm w) as [es Hes].
  destruct (m w) as [[a|e] w1]; simpl in Hes; subst w1.
  - destruct (Hk a (traced es w)) as [es' Hes']. exists (es ++ es').
    by rewrite Hes', traced_traced.
  - by exists es.
Qed.

Lemma only_traces_emit (e : event) : only_traces (emit e).
Proof. intros w. by exists [e]. Qed.

Lemma only_traces_raise {A} (e : error) : only_traces (raise (A := A) e).
Proof. intros w. exists []. by rewrite traced_nil. Qed.

Lemma only_traces_lift {A} (r : result A) : only_traces (lift r).
Proof. intros w. exists []. by rewrite traced_nil. Qed.

Lemma only_traces_get : only_traces (get (S := World)).
Proof. intros w. exists []. by rewrite traced_nil. Qed.

Lemma only_traces_assert (c : bool) (msg : string) : only_traces (assert c msg).
Proof. destruct c; [apply only_traces_ret | apply only_traces_raise]. Qed.

Lemma only_traces_json_load (path : string) : only_traces (json_load path).
Proof.
  apply only_traces_bind; [apply only_traces_get|]. intros w.
  destruct (json_files w !! path); [|apply only_traces_raise].
  apply only_traces_bind; [apply only_traces_emit|]. intros _. apply only_traces_ret.
Qed.

Lemma only_traces_read_csv (path : string) : only_traces (read_csv path).
Proof.
  apply only_traces_bind; [apply only_traces_get|]. intros w.
  destruct (csv_files w !! path); [|apply only_traces_raise].
  apply only_traces_bind; [apply only_traces_emit|]. intros _. apply only_traces_ret.
Qed.

Lemma only_traces_from_pretrained (name : string) : only_traces (from_pretrained name).
Proof.
  apply only_traces_bind; [apply only_traces_get|]. intros w.
  destruct (pretrained w !! name); [|apply only_traces_raise].
  apply only_traces_bind; [apply only_traces_emit|]. intros _. apply only_traces_ret.
Qed.

Lemma only_traces_for_each {A} (l : list A) (body : A → M World ()) :
  (∀ x, only_traces (body x)) → only_traces (for_each l body).
Proof.
  intros Hbody. induction l as [|x l IH]; [apply only_traces_ret|].
  apply only_traces_bind; [apply Hbody|]. by intros _.
Qed.

Lemma fails_clean_bind {A B} (m : M World A) (k : A → M World B) :
  only_traces m → (∀ a, fails_clean (k a)) → fails_clean (m ≫= k).
Proof.
  intros Hm Hk w e w' Hrun. destruct (Hm w) as [es Hes].
  apply bind_inv in Hrun as [(e' & Hrun & _)|(a & w1 & Hrun & Hrest)].
  - exists es. by rewrite Hrun in Hes.
  - rewrite Hrun in Hes. simpl in Hes. subst w1.
    destruct (Hk a _ _ _ Hrest) as [es' ->]. exists (es ++ es').
    by rewrite traced_traced.
Qed.

(** The saving part of [main] does not raise. *)
Lemma main_saves_run (db_args : DatabuilderArguments.t) (tokenizer : MT5Tokenizer)
    (train_dataset valid_dataset : FormattedDataset) (w : World) :
  ∃ w',
    (torch_save train_dataset (DatabuilderArguments.train_file_path db_args);;
     logger_info ("Train dataset saved at " +:+
                  DatabuilderArguments.train_file_path db_args +:+ ". ");;
     torch_save valid_dataset (DatabuilderArguments.valid_file_path db_args);;
     logger_info ("Validation dataset saved at " +:+
                  DatabuilderArguments.valid_file_path db_args +:+ ". ");;
     dir_exists ← path_exists (DatabuilderArguments.global_output_dir db_args);
     (if negb dir_exists
      then mkdir (DatabuilderArguments.global_output_dir db_args)
      else mret ());;
     save_pretrained tokenizer (DatabuilderArguments.global_output_dir db_args);;
     logger_info ("Tokenizer saved at " +:+
                  DatabuilderArguments.global_output_dir db_args +:+ ". ")) w
    = (Ok (), w')
    ∧ json_files w' = json_files w ∧ csv_files w' = csv_files w
    ∧ pt_files w'
      = <[DatabuilderArguments.valid_file_path db_args := valid_dataset]>
          (<[DatabuilderArguments.train_file_path db_args := train_dataset]> (pt_files w))
    ∧ pretrained w'
      = <[DatabuilderArguments.global_output_dir db_args := tokenizer]> (pretrained w)
    ∧ directories w' = {[DatabuilderArguments.global_output_dir db_args]} ∪ directories w
    ∧ (Mkdir (DatabuilderArguments.global_output_dir db_args) ∈ drop (length (trace w)) (trace w')
       ↔ DatabuilderArguments.global_output_dir db_args ∉ directories w).
Proof.
  erewrite bind_ok by reflexivity.
  unfold logger_info. erewrite bind_ok by apply emit_run.
  erewrite bind_ok by reflexivity.
  erewrite bind_ok by apply emit_run.
  erewrite bind_ok by reflexivity.
  cbn [directories traced].
  destruct (decide (DatabuilderArguments.global_output_dir db_args ∈ directories w))
    as [Hin|Hout].
  - rewrite (bool_decide_eq_true_2 _ Hin). cbn [negb].
    erewrite bind_ok by reflexivity. erewrite bind_ok by reflexivity.
    eexists. split; [apply emit_run|]. cbn. split_and!; try done.
    + apply set_eq. intros x. rewrite elem_of_union, elem_of_singleton.
      split; [auto|]. by intros [->|?].
    + rewrite <- !app_assoc, drop_app_length. cbn [app]. split; [|done].
      intros Hm. repeat (apply elem_of_cons in Hm as [?|Hm]; [done|]).
      by apply elem_of_nil in Hm.
  - rewrite (bool_decide_eq_false_2 _ Hout). cbn [negb].
    erewrite bind_ok by reflexivity. erewrite bind_ok by reflexivity.
    eexists. split; [apply emit_run|]. cbn. split_and!; try done.
    rewrite <- !app_assoc, drop_app_length. cbn [app]. split; [done|].
    intros _. rewrite !elem_of_cons. auto 10.
Qed.

Lemma only_traces_logger_info (msg : string) : only_traces (logger_info msg).
Proof. apply only_traces_emit. Qed.

Create HintDb traces.
#[local] Hint Resolve only_traces_ret only_traces_emit only_traces_raise
  only_traces_lift only_traces_get only_traces_assert only_traces_json_load
  only_traces_read_csv only_traces_from_pretrained only_traces_for_each
  only_traces_logger_info : traces.

(** A run of [main] that raises has written nothing: no dataset file, no
    tokenizer and no directory; it has only made calls. Every step that can
    raise comes before the first save. *)
Theorem main_raises_before_saving (db_args : DatabuilderArguments.t) (w w' : World)
    (e : error) :
  main db_args w = (Err e, w') →
  (∃ es, w' = traced es w)
  ∧ pt_files w' = pt_files w
  ∧ pretrained w' = pretrained w
  ∧ directories w' = directories w.
Proof.
  assert (fails_clean (main db_args)) as Hclean.
  { unfold main.
    repeat (apply fails_clean_bind; [solve [eauto with traces]|intros ?; cbv zeta]).
    intros w0 e0 w0' Hrun.
    match type of Hrun with
    | (torch_save ?tr _ ≫= _) _ = _ =>
        match type of Hrun with
        | context [torch_save ?va (DatabuilderArguments.valid_file_path db_args)] =>
            match type of Hrun with
            | context [save_pretrained ?tok _] =>
                destruct (main_saves_run db_args tok tr va w0) as (w1 & Hok & _)
            end
        end
    end.
    rewrite Hok in Hrun. discriminate. }
  intros Hrun. destruct (Hclean _ _ _ Hrun) as [es ->]. eauto.
Qed.

Lemma main_raises_before_saving_witness :
  pt_files (main Sample.bad_column_args Sample.world).2 = pt_files Sample.world.
Proof.
  apply (main_raises_before_saving Sample.bad_column_args Sample.world _
           (AssertionError "source_text or answer column missing in data/train.tsv.")).
  vm_compute. reflexivity.
Defined.

(** The rows of a well-formed frame have every column of the frame. *)
Lemma from_pandas_has_column (df : DataFrame) (c : string) :
  well_formed df → c ∈ columns df →
  Forall (λ r : Row, is_Some (r !! c)) (from_pandas df).
Proof.
  intros Hwf Hc. unfold from_pandas. apply Forall_fmap.
  eapply Forall_impl; [exact Hwf|]. intros cells Hlen. simpl in *.
  destruct (list_to_map (zip (columns df) cells) !! c) as [v|] eqn:Hv; [by eexists|].
  apply not_elem_of_list_to_map_2 in Hv. rewrite fst_zip in Hv by lia. done.
Qed.

Lemma set_format_ok (type : string) (columns : list string) (dataset : list Example) :
  dataset ≠ [] →
  Forall (λ ex : Example, Forall (λ c, is_Some (ex !! c)) columns) dataset →
  set_format type columns dataset
  = Ok {| examples := dataset; format_type := type; format_columns := columns |}.
Proof.
  intros Hne Hall. unfold set_format. destruct dataset as [|ex0 dataset0] eqn:Hd; [done|].
  rewrite <- Hd in *. clear Hd Hne.
  rewrite (proj2 (forallb_forall _ _)); [done|].
  intros ex Hex%list_elem_of_In. rewrite Forall_forall in Hall.
  apply forallb_forall. intros c Hc%list_elem_of_In.
  apply bool_decide_eq_true_2. specialize (Hall ex Hex).
  rewrite Forall_forall in Hall. auto.
Qed.

Lemma add_tokens_added (new : list string) (tok : MT5Tokenizer) (x : string) :
  x ∈ new → x ∈ added_tokens (add_tokens new tok).
Proof.
  intros Hx. unfold add_tokens. cbn [added_tokens]. apply elem_of_app.
  destruct (decide (x ∈ added_tokens tok)); [by left|right].
  apply list_elem_of_filter. split; [done|]. by apply elem_of_remove_dups.
Qed.

(** The run of [main] once the frames are encoded and formatted. *)
Lemma main_run_ok (db_args : DatabuilderArguments.t) (w : World)
    (config : list (string * string)) (train_df valid_df : DataFrame)
    (tok : MT5Tokenizer) (encoded : list Example) (formatted : FormattedDataset) :
  json_files w !! DatabuilderArguments.config_path db_args = Some config →
  csv_files w !! DatabuilderArguments.train_csv_path db_args = Some train_df →
  csv_files w !! DatabuilderArguments.valid_csv_path db_args = Some valid_df →
  configuration_ok db_args train_df valid_df →
  pretrained w !! DatabuilderArguments.tokenizer_name_or_path db_args = Some tok →
  let tokenizer :=
    add_tokens [DatabuilderArguments.highlight_token db_args;
                DatabuilderArguments.separation_token db_args] tok in
  Databuilder.preprocess (Databuilder.__init__ tokenizer db_args) (from_pandas train_df)
  = Ok encoded →
  set_format "torch" ["source_ids"; "target_ids"; "attention_mask"] encoded = Ok formatted →
  ∃ w', main db_args w = (Ok (), w')
    ∧ pt_files w'
      = <[DatabuilderArguments.valid_file_path db_args := formatted]>
          (<[DatabuilderArguments.train_file_path db_args := formatted]> (pt_files w))
    ∧ pretrained w'
      = <[DatabuilderArguments.global_output_dir db_args := tokenizer]> (pretrained w)
    ∧ directories w' = {[DatabuilderArguments.global_output_dir db_args]} ∪ directories w.
Proof.
  intros Hjson Htrain Hvalid (Hc1 & Hc2 & Hc3 & Hc4 & Hc5 & Hc6) Htok tokenizer Henc Hfmt.
  subst tokenizer.
  unfold main. rewrite (main_loads db_args w config train_df valid_df) by done.
  rewrite !(bool_decide_eq_true_2 _ Hc1), !(bool_decide_eq_true_2 _ Hc2),
    !(bool_decide_eq_true_2 _ Hc3), !(bool_decide_eq_true_2 _ Hc4).
  rewrite !(proj2 (ends_with_pt _) Hc5), !(proj2 (ends_with_pt _) Hc6).
  cbn [andb]. do 3 erewrite bind_ok by apply assert_true.
  erewrite bind_ok by (by apply from_pretrained_ok).
  erewrite bind_ok by apply emit_run.
  erewrite bind_ok by apply emit_run.
  erewrite bind_ok by (unfold lift; by rewrite Henc).
  erewrite bind_ok by apply emit_run.
  erewrite bind_ok by (unfold lift; by rewrite Henc).
  erewrite bind_ok by (unfold lift; by rewrite Hfmt).
  erewrite bind_ok by (unfold lift; by rewrite Hfmt).
  match goal with
  | |- ∃ w', ?m ?w0 = _ ∧ _ =>
      destruct (main_saves_run db_args
                  (add_tokens [DatabuilderArguments.highlight_token db_args;
                               DatabuilderArguments.separation_token db_args] tok)
                  formatted formatted w0)
        as (w' & Hrun & _ & _ & Hpt & Hpre & Hdir & _)
  end.
  exists w'. split; [exact Hrun|]. by rewrite Hpt, Hpre, Hdir.
Qed.

(** The run of [main] on a well-formed training frame. *)
Lemma main_run_well_formed (db_args : DatabuilderArguments.t) (w : World)
    (config : list (string * string)) (train_df valid_df : DataFrame)
    (tok : MT5Tokenizer) :
  json_files w !! DatabuilderArguments.config_path db_args = Some config →
  csv_files w !! DatabuilderArguments.train_csv_path db_args = Some train_df →
  csv_files w !! DatabuilderArguments.valid_csv_path db_args = Some valid_df →
  configuration_ok db_args train_df valid_df →
  well_formed train_df →
  values train_df ≠ [] →
  pretrained w !! DatabuilderArguments.tokenizer_name_or_path db_args = Some tok →
  let tokenizer :=
    add_tokens [DatabuilderArguments.highlight_token db_args;
                DatabuilderArguments.separation_token db_args] tok in
  ∃ (w' : World) (encoded : list Example),
    main db_args w = (Ok (), w')
    ∧ length encoded = length (values train_df)
    ∧ pt_files w'
      = (let saved := {| examples := encoded; format_type := "torch";
                         format_columns := ["source_ids"; "target_ids"; "attention_mask"] |} in
         <[DatabuilderArguments.valid_file_path db_args := saved]>
           (<[DatabuilderArguments.train_file_path db_args := saved]> (pt_files w)))
    ∧ pretrained w'
      = <[DatabuilderArguments.global_output_dir db_args := tokenizer]> (pretrained w)
    ∧ directories w' = {[DatabuilderArguments.global_output_dir db_args]} ∪ directories w.
Proof.
  intros Hjson Htrain Hvalid Hconf Hwf Hrows Htok tokenizer.
  set (self := Databuilder.__init__ tokenizer db_args).
  destruct (preprocess_runs self (from_pandas train_df)) as (encoded & Henc & Hfeat).
  { destruct Hconf as (Hs & Ht & _).
    pose proof (from_pandas_has_column train_df _ Hwf Hs) as Hsrc.
    pose proof (from_pandas_has_column train_df _ Hwf Ht) as Htgt.
    rewrite Forall_forall in Hsrc, Htgt |- *. intros r Hr.
    split; [by apply Hsrc|by apply Htgt]. }
  assert (set_format "torch" ["source_ids"; "target_ids"; "attention_mask"] encoded
          = Ok {| examples := encoded; format_type := "torch";
                  format_columns := ["source_ids"; "target_ids"; "attention_mask"] |})
    as Hfmt.
  { apply set_format_ok.
    { intros ->. apply Forall2_length in Hfeat. unfold from_pandas in Hfeat.
      rewrite length_fmap in Hfeat. by destruct (values train_df). }
    eapply Forall2_Forall_r; [exact Hfeat|]. apply Forall_forall.
    intros r _ ex (r2 & x & y & _ & _ & _ & Hs & Ht & Hm).
    repeat (constructor; [by eexists|]). constructor. }
  destruct (main_run_ok db_args w config train_df valid_df tok encoded _
              Hjson Htrain Hvalid Hconf Htok Henc Hfmt)
    as (w' & Hrun & Hpt & Hpre & Hdir).
  exists w', encoded. split_and!; try done.
  rewrite <- (Forall2_length _ _ _ Hfeat).
  unfold from_pandas. by rewrite length_fmap.
Qed.

(** On readable files, a configuration that passes the assertions, a
    tokenizer that can be loaded and a training frame that has at least one
    row and whose rows hold one cell per column, [main] runs through: it
    saves at both dataset paths one dataset in the [torch] format over the
    three feature columns, with one example per row of the training frame,
    saves at [global_output_dir] the tokenizer with the highlight and the
    separation token added, and that directory exists afterwards. *)
Theorem main_runs_on_well_formed_input (db_args : DatabuilderArguments.t) (w : World)
    (config : list (string * string)) (train_df valid_df : DataFrame)
    (tok : MT5Tokenizer) :
  json_files w !! DatabuilderArguments.config_path db_args = Some config →
  csv_files w !! DatabuilderArguments.train_csv_path db_args = Some train_df →
  csv_files w !! DatabuilderArguments.valid_csv_path db_args = Some valid_df →
  configuration_ok db_args train_df valid_df →
  well_formed train_df →
  values train_df ≠ [] →
  pretrained w !! DatabuilderArguments.tokenizer_name_or_path db_args = Some tok →
  ∃ (w' : World) (tokenizer : MT5Tokenizer) (saved : FormattedDataset),
    main db_args w = (Ok (), w')
    ∧ tokenizer = add_tokens [DatabuilderArguments.highlight_token db_args;
                              DatabuilderArguments.separation_token db_args] tok
    ∧ DatabuilderArguments.highlight_token db_args ∈ added_tokens tokenizer
    ∧ DatabuilderArguments.separation_token db_args ∈ added_tokens tokenizer
    ∧ pretrained w'
      = <[DatabuilderArguments.global_output_dir db_args := tokenizer]> (pretrained w)
    ∧ pt_files w'
      = <[DatabuilderArguments.valid_file_path db_args := saved]>
          (<[DatabuilderArguments.train_file_path db_args := saved]> (pt_files w))
    ∧ format_type saved = "torch"
    ∧ format_columns saved = ["source_ids"; "target_ids"; "attention_mask"]
    ∧ length (examples saved) = length (values train_df)
    ∧ directories w' = {[DatabuilderArguments.global_output_dir db_args]} ∪ directories w.
Proof.
  intros Hjson Htrain Hvalid Hconf Hwf Hrows Htok.
  destruct (main_run_well_formed db_args w config train_df valid_df tok
              Hjson Htrain Hvalid Hconf Hwf Hrows Htok)
    as (w' & encoded & Hrun & Hlen & Hpt & Hpre & Hdir).
  eexists w', _, _. split_and!; try done.
  - apply add_tokens_added. rewrite !elem_of_cons. auto.
  - apply add_tokens_added. rewrite !elem_of_cons. auto.
Qed.

Lemma main_runs_on_well_formed_input_witness :
  ∃ (w' : World) (tokenizer : MT5Tokenizer) (saved : FormattedDataset),
    main Sample.small_args Sample.world = (Ok (), w')
    ∧ tokenizer = add_tokens ["<hl>"; "<sep>"] Sample.char_tokenizer
    ∧ "<hl>" ∈ added_tokens tokenizer
    ∧ "<sep>" ∈ added_tokens tokenizer
    ∧ pretrained w' = <["model" := tokenizer]> (pretrained Sample.world)
    ∧ pt_files w'
      = <["data/valid.pt" := saved]> (<["data/train.pt" := saved]> (pt_files Sample.world))
    ∧ format_type saved = "torch"
    ∧ format_columns saved = ["source_ids"; "target_ids"; "attention_mask"]
    ∧ length (examples saved) = 2
    ∧ directories w' = {["model"]} ∪ directories Sample.world.
Proof.
  apply (main_runs_on_well_formed_input Sample.small_args Sample.world
           [("source_max_length", "8"); ("target_max_length", "4")]
           Sample.train_df Sample.valid_df Sample.char_tokenizer);
    try reflexivity.
  - unfold configuration_ok. cbn. split_and!.
    + apply list_elem_of_here.
    + apply list_elem_of_further, list_elem_of_here.
    + apply list_elem_of_here.
    + apply list_elem_of_further, list_elem_of_here.
    + by exists "data/train".
    + by exists "data/valid".
  - repeat constructor.
  - discriminate.
Defined.



End main_runs.

(** ** The runs of the training step *)

Section step_runs.
Context `{Torch}.
Import Trainer.

(** The heap when the forward pass has been called. *)
Lemma training_step_forward (self : t) (model : Module) (optimizer : Optimizer)
    (h : Heap) :
  let kwargs := sent_inputs self model (inputs h) in
  let h1 := {| inputs := kwargs; training := true;
               calls := calls h ++ [ModelTrain; ModelForward kwargs] |} in
  _training_step self model optimizer h
  = match forward model true kwargs with
    | Err e => (Err e, h1)
    | Ok outputs =>
        (loss ← lift (first outputs);
         let loss := adjusted_loss (n_gpu (args self))
                       (gradient_accumulation_steps (args self)) loss in
         (if fp16 (args self) then
            match amp with
            | Some scale_loss =>
                record (AmpScaleLoss loss);; backward (scale_loss loss optimizer)
            | None => raise (NameError "amp")
            end
          else backward loss);;
         lift (tensor_item loss)) h1
    end.
Proof.
  intros kwargs h1.
  destruct (training_step_prepares self model optimizer h) as (rest & -> & _ & ->).
  fold kwargs. unfold model_call.
  destruct (forward model true kwargs) as [outputs|e] eqn:Hforward.
  - erewrite bind_ok; [done|].
    erewrite bind_ok by reflexivity. cbn [inputs training].
    erewrite bind_ok by reflexivity. unfold lift. rewrite Hforward.
    unfold h1. cbn [calls inputs training]. by rewrite <- app_assoc.
  - erewrite bind_err; [done|].
    erewrite bind_ok by reflexivity. cbn [inputs training].
    erewrite bind_ok by reflexivity. unfold lift. rewrite Hforward.
    unfold h1. cbn [calls inputs training]. by rewrite <- app_assoc.
Qed.

(** A forward pass that raises, or returns no output, ends the step with
    that exception, respectively an [IndexError]: the model has been put in
    training mode and called once, the batch dict has been changed, and
    backward has not been invoked. *)
Theorem training_step_forward_failure (self : t) (model : Module)
    (optimizer : Optimizer) (h : Heap) :
  let kwargs := sent_inputs self model (inputs h) in
  let h1 := {| inputs := kwargs; training := true;
               calls := calls h ++ [ModelTrain; ModelForward kwargs] |} in
  (∀ e, forward model true kwargs = Err e →
        _training_step self model optimizer h = (Err e, h1))
  ∧ (forward model true kwargs = Ok [] →
       _training_step self model optimizer h = (Err IndexError, h1))
  ∧ backward_calls [ModelTrain; ModelForward kwargs] = [].
Proof.
  intros kwargs h1. pose proof (training_step_forward self model optimizer h) as Hrun.
  cbv zeta in Hrun. fold kwargs h1 in Hrun. split_and!.
  - intros e He. by rewrite Hrun, He.
  - intros He. by rewrite Hrun, He.
  - done.
Qed.

(** With [fp16] set and apex not available, the step raises [NameError] for
    [amp] once the forward pass has returned a loss: neither backward nor
    [item] is reached. *)
Theorem training_step_fp16_without_apex (self : t) (model : Module)
    (optimizer : Optimizer) (h : Heap) (loss : Tensor) (outputs : list Tensor) :
  let kwargs := sent_inputs self model (inputs h) in
  fp16 (args self) = true →
  amp = None →
  forward model true kwargs = Ok (loss :: outputs) →
  _training_step self model optimizer h
  = (Err (NameError "amp"),
     {| inputs := kwargs; training := true;
        calls := calls h ++ [ModelTrain; ModelForward kwargs] |}).
Proof.
  intros kwargs Hfp16 Hamp Hforward.
  pose proof (training_step_forward self model optimizer h) as Hrun.
  cbv zeta in Hrun. fold kwargs in Hrun. rewrite Hrun, Hforward.
  erewrite bind_ok by reflexivity. rewrite Hfp16, Hamp.
  by erewrite bind_err by reflexivity.
Qed.

(** In every run of the step, raising or not, the model is in training mode
    afterwards, the calls made before the step are kept, and the calls of
    the step are at most one backward pass and no optimizer step and no
    zeroing of gradients. *)
Theorem training_step_every_run (self : t) (model : Module)
    (optimizer : Optimizer) (h : Heap) :
  let h' := (_training_step self model optimizer h).2 in
  training h' = true
  ∧ ∃ made, calls h' = calls h ++ made
      ∧ length (backward_calls made) ≤ 1
      ∧ (OptimizerStep ∉ made) ∧ (OptimizerZeroGrad ∉ made).
Proof.
  intros h'. unfold h'. rewrite training_step_forward. cbv zeta.
  set (kwargs := sent_inputs self model (inputs h)).
  assert (∀ made : list call,
            Forall (λ c, c ≠ OptimizerStep ∧ c ≠ OptimizerZeroGrad) made →
            (OptimizerStep ∉ made) ∧ (OptimizerZeroGrad ∉ made)) as Hnone.
  { intros made Hall. rewrite Forall_forall in Hall.
    split; intros Hin; by destruct (Hall _ Hin). }
  destruct (forward model true kwargs) as [outputs|e].
  2: { split; [done|]. eexists. split; [reflexivity|]. split; [simpl; lia|].
       apply Hnone. by repeat constructor. }
  destruct (first outputs) as [loss0|e].
  2: { erewrite bind_err by reflexivity.
       split; [done|]. eexists. split; [reflexivity|]. split; [simpl; lia|].
       apply Hnone. by repeat constructor. }
  erewrite bind_ok by reflexivity.
  set (loss := adjusted_loss _ _ loss0).
  destruct (fp16 (args self)); [destruct amp as [scale_loss|]|].
  - destruct (tensor_backward (scale_loss loss optimizer)) eqn:Hb,
      (tensor_item loss) eqn:Hi;
      cbv [mbind M_bind lift record backward raise modify mret M_ret];
      rewrite ?Hb, ?Hi; cbn [fst snd calls training inputs];
      (split; [done|]); rewrite <- !app_assoc;
      (eexists; split; [reflexivity|]); (split; [simpl; lia|]);
      apply Hnone; by repeat constructor.
  - split; [done|]. eexists. split; [reflexivity|]. split; [simpl; lia|].
    apply Hnone. by repeat constructor.
  - destruct (tensor_backward loss) eqn:Hb, (tensor_item loss) eqn:Hi;
      cbv [mbind M_bind lift record backward raise modify mret M_ret];
      rewrite ?Hb, ?Hi; cbn [fst snd calls training inputs];
      (split; [done|]); rewrite <- !app_assoc;
      (eexists; split; [reflexivity|]); (split; [simpl; lia|]);
      apply Hnone; by repeat constructor.
Qed.

Lemma training_step_inputs (self : t) (model : Module) (optimizer : Optimizer)
    (h : Heap) :
  inputs (_training_step self model optimizer h).2 = sent_inputs self model (inputs h).
Proof.
  destruct (training_step_prepares self model optimizer h) as (rest & -> & Hrest & _).
  by rewrite Hrest.
Qed.

(** When moving a tensor to the device it is on changes nothing, a second
    step on the batch dict the first step left behind leaves the dict as it
    is. *)
Theorem training_step_inputs_settle (self : t) (model : Module)
    (optimizer : Optimizer) (h : Heap) :
  (∀ t, tensor_to (tensor_to t (device (args self))) (device (args self))
        = tensor_to t (device (args self))) →
  let h1 := (_training_step self model optimizer h).2 in
  inputs (_training_step self model optimizer h1).2 = inputs h1.
Proof.
  intros Hto h1. unfold h1. rewrite !training_step_inputs.
  assert (∀ v, to_device (device (args self)) (to_device (device (args self)) v)
               = to_device (device (args self)) v) as Hdev.
  { intros [t| | | |]; simpl; by rewrite ?Hto. }
  unfold sent_inputs. destruct (is_DataParallel model).
  - apply map_eq. intros k. rewrite fmap_insert. cbn [to_device].
    rewrite insert_insert_eq. destruct (decide (k = "return_tuple")) as [->|Hk].
    + by rewrite !lookup_insert_eq.
    + rewrite !lookup_insert_ne, !lookup_fmap by done.
      destruct (inputs h !! k); simpl; by rewrite ?Hdev.
  - apply map_eq. intros k. rewrite !lookup_fmap.
    destruct (inputs h !! k); simpl; by rewrite ?Hdev.
Qed.

End step_runs.

Lemma training_step_forward_failure_witness :
  Trainer._training_step
    (Trainer.__init__ (H := Sample.q_torch) 0%Q (Sample.training_args false))
    Sample.model 128%Q
    {| inputs := ∅; training := false; calls := [] |}
  = (Err (RuntimeError "forward() missing labels"),
     {| inputs := {[ "return_tuple" := VBool true ]}; training := true;
        calls := [ModelTrain; ModelForward {[ "return_tuple" := VBool true ]}] |}).
Proof.
  pose proof (proj1 (training_step_forward_failure
           (Trainer.__init__ (H := Sample.q_torch) 0%Q (Sample.training_args false))
           Sample.model 128%Q {| inputs := ∅; training := false; calls := [] |}))
    as Hfail.
  rewrite (Hfail (RuntimeError "forward() missing labels") eq_refl).
  vm_compute. reflexivity.
Defined.

(** ** train.py: [main] *)

Section train_main.
Context `{Torch}.
Import Train.

(** The keys [sorted] returns are the keys it is given. *)
Lemma sorted_keys (m : gmap string string) (key : string) :
  key ∈ sorted (map_to_list m).*1 → ∃ value, m !! key = Some value.
Proof.
  unfold sorted. rewrite merge_sort_Permutation.
  intros ([k v] & -> & Hkv%elem_of_map_to_list)%list_elem_of_fmap. by exists v.
Qed.

(** *** What [main] can raise *)

Section raises.
Variable Q : error → Prop.

Lemma raises_only_bind {A B} (m : M Process A) (k : A → M Process B) :
  raises_only Q m → (∀ a, raises_only Q (k a)) → raises_only Q (m ≫= k).
Proof.
  intros Hm Hk p e p' [(e' & Hrun & [= ->])|(a & p1 & _ & Hrun)]%bind_inv.
  - by eapply Hm.
  - by eapply Hk.
Qed.

Lemma raises_only_ret {A} (a : A) : raises_only Q (mret a).
Proof. by intros p e p' [=]. Qed.

Lemma raises_only_modify (f : Process → Process) : raises_only Q (modify f).
Proof. by intros p e p' [=]. Qed.

Lemma raises_only_get : raises_only Q (get (S := Process)).
Proof. by intros p e p' [=]. Qed.

Lemma raises_only_if {A} (c : bool) (m1 m2 : M Process A) :
  raises_only Q m1 → raises_only Q m2 → raises_only Q (if c then m1 else m2).
Proof. by destruct c. Qed.

Lemma raises_only_raise {A} (e : error) : Q e → raises_only Q (raise (A := A) e).
Proof. intros He p e' p' [= <- _]. done. Qed.

Lemma raises_only_lift_ok {A} (a : A) : raises_only Q (lift (Ok a)).
Proof. by intros p e p' [=]. Qed.

Lemma raises_only_logger_info (msg : string) (values : list log_value) :
  raises_only Q (logger_info msg values).
Proof.
  apply raises_only_bind; [apply raises_only_get|]. intros p.
  destruct (root_level p) as [[]|]; apply raises_only_modify || apply raises_only_ret.
Qed.

Lemma raises_only_for_each {A} (l : list A) (body : A → M Process ()) :
  (∀ x, x ∈ l → raises_only Q (body x)) → raises_only Q (for_each l body).
Proof.
  induction l as [|x l IH]; intros Hbody; [apply raises_only_ret|].
  apply raises_only_bind.
  - apply Hbody, list_elem_of_here.
  - intros _. apply IH. intros y Hy. by apply Hbody, list_elem_of_further.
Qed.

End raises.

Lemma raises_only_load_tokenizer (Q : error → Prop) (path : string) :
  Q (FileNotFoundError path) → raises_only Q (load_tokenizer path).
Proof.
  intros Hq. apply raises_only_bind; [apply raises_only_get|]. intros p.
  destruct (pretrained (disk p) !! path).
  - apply raises_only_bind; [apply raises_only_modify|]. intros _. apply raises_only_ret.
  - by apply raises_only_raise.
Qed.

Lemma raises_only_load_model (Q : error → Prop) (name : string) :
  Q (FileNotFoundError name) → raises_only Q (load_model name).
Proof.
  intros Hq. apply raises_only_bind; [apply raises_only_get|]. intros p.
  destruct (models p !! name).
  - apply raises_only_bind; [apply raises_only_modify|]. intros _. apply raises_only_ret.
  - by apply raises_only_raise.
Qed.

Lemma raises_only_torch_load (Q : error → Prop) (path : string) :
  Q (FileNotFoundError path) → raises_only Q (torch_load path).
Proof.
  intros Hq. apply raises_only_bind; [apply raises_only_get|]. intros p.
  destruct (pt_files (disk p) !! path).
  - apply raises_only_bind; [apply raises_only_modify|]. intros _. apply raises_only_ret.
  - by apply raises_only_raise.
Qed.

Create HintDb raises.
#[local] Hint Resolve raises_only_bind raises_only_ret raises_only_modify
  raises_only_get raises_only_if raises_only_lift_ok raises_only_logger_info : raises.
#[local] Hint Extern 1 (raises_only _ (load_tokenizer _)) =>
  apply raises_only_load_tokenizer; rewrite !elem_of_cons; tauto : raises.
#[local] Hint Extern 1 (raises_only _ (load_model _)) =>
  apply raises_only_load_model; rewrite !elem_of_cons; tauto : raises.
#[local] Hint Extern 1 (raises_only _ (torch_load _)) =>
  apply raises_only_torch_load; rewrite !elem_of_cons; tauto : raises.
#[local] Hint Extern 1 (raises_only _ (emit _)) => apply raises_only_modify : raises.
#[local] Hint Extern 1 (raises_only _ (basic_config _)) => apply raises_only_modify : raises.
#[local] Hint Extern 1 (raises_only _ (logger_warning _ _)) => apply raises_only_modify : raises.
#[local] Hint Extern 1 (raises_only _ (setenv _ _)) => apply raises_only_modify : raises.
#[local] Hint Extern 1 (raises_only _ (save_tokenizer _ _)) => apply raises_only_modify : raises.
#[local] Hint Extern 1 (raises_only _ (open_w _)) => apply raises_only_modify : raises.
#[local] Hint Extern 1 (raises_only _ (file_write _ _)) => apply raises_only_modify : raises.

(** The evaluation part of [main] raises nothing: every key it looks up is
    a key of the evaluation output. *)
Lemma raises_only_evaluation (Q : error → Prop) (t : TrainerObject) (dir : string) :
  raises_only Q
    (logger_info "*** Evaluate ***" [];;
     eval_output ← evaluate t;
     let output_eval_file := path_join dir "eval_results.txt" in
     open_w output_eval_file;;
     logger_info "***** Eval results *****" [];;
     for_each (sorted (map_to_list eval_output).*1) (λ key,
       value ← lift (getitem eval_output key);
       logger_info "  %s = %s" [LStr key; LStr value];;
       file_write output_eval_file (key +:+ " = " +:+ value +:+ newline))).
Proof.
  apply raises_only_bind; [eauto with raises|]. intros _.
  apply raises_only_bind.
  { unfold evaluate. eauto 10 with raises. }
  intros eval_output. cbv zeta.
  apply raises_only_bind; [eauto with raises|]. intros _.
  apply raises_only_bind; [eauto with raises|]. intros _.
  apply raises_only_for_each. intros key [value Hkey]%sorted_keys.
  unfold getitem. rewrite Hkey. eauto 10 with raises.
Qed.

(** What [main] raises is the [ValueError] of its guard, raised when the
    output directory exists and is not empty while training is asked for
    without overwriting, the process being left untouched; past the guard
    it fails only where one of its four loads fails: that of the tokenizer,
    of the model or of one of the two datasets. The loop over the
    evaluation output looks up no key that is missing. *)
Theorem train_main_raises (model_args : ModelArguments)
    (databuilder_args : DatabuilderArguments.t) (training_args : RunArguments)
    (p : Process) :
  let model_name :=
    if negb (PyStr.eqb (model_name_or_path model_args) "")
    then model_name_or_path model_args
    else DatabuilderArguments.tokenizer_name_or_path databuilder_args in
  (output_dir_blocked training_args p →
     main model_args databuilder_args training_args p
     = (Err (ValueError (output_dir_msg training_args)), p))
  ∧ (¬ output_dir_blocked training_args p →
       ∀ e p', main model_args databuilder_args training_args p = (Err e, p') →
         e ∈ [FileNotFoundError (DatabuilderArguments.global_output_dir databuilder_args);
              FileNotFoundError model_name;
              FileNotFoundError (DatabuilderArguments.train_file_path databuilder_args);
              FileNotFoundError (DatabuilderArguments.valid_file_path databuilder_args)]).
Proof.
  intros model_name. split.
  - intros (Hdir & Hentries & Htrain & Hover). unfold main.
    erewrite bind_ok by reflexivity. rewrite (bool_decide_eq_true_2 _ Hdir).
    erewrite bind_ok by reflexivity.
    rewrite (bool_decide_eq_false_2 _ Hentries), Htrain, Hover. cbn [andb negb].
    by erewrite bind_err by reflexivity.
  - intros Hfree e p' Hrun. unfold main in Hrun. fold model_name in Hrun.
    set (Q := λ e : error,
           e ∈ [FileNotFoundError (DatabuilderArguments.global_output_dir databuilder_args);
                FileNotFoundError model_name;
                FileNotFoundError (DatabuilderArguments.train_file_path databuilder_args);
                FileNotFoundError (DatabuilderArguments.valid_file_path databuilder_args)]).
    change (Q e).
    erewrite bind_ok in Hrun by reflexivity.
    set (dir_exists := bool_decide (output_dir training_args ∈ directories (disk p)))
      in Hrun.
    assert ((if dir_exists then listdir (output_dir training_args) else mret []) p
            = (Ok (if dir_exists then default [] (listing p !! output_dir training_args)
                   else []), p)) as Hlist by by destruct dir_exists.
    erewrite bind_ok in Hrun by exact Hlist.
    match type of Hrun with
    | context [if ?c then raise _ else mret ()] =>
        assert (c = false) as Hguard
    end.
    { destruct dir_exists eqn:Hd; cbn [andb]; [|done].
      destruct (bool_decide (default [] (listing p !! output_dir training_args) = []))
        eqn:He; cbn [negb andb]; [done|].
      destruct (do_train training_args) eqn:Ht; cbn [andb]; [|done].
      destruct (overwrite_output_dir training_args) eqn:Ho; cbn [negb]; [done|].
      destruct Hfree. split_and!; try done.
      - by apply bool_decide_eq_true in Hd.
      - by apply bool_decide_eq_false in He. }
    rewrite Hguard in Hrun. erewrite bind_ok in Hrun by reflexivity.
    assert (∀ rest : M Process (), raises_only Q rest → rest p = (Err e, p') → Q e)
      as Hrest by (intros rest Hr; apply Hr).
    eapply Hrest; [|exact Hrun]. clear. unfold Q.
    repeat (apply raises_only_bind; [solve [eauto 10 with raises]|intros ?; cbv zeta]).
    apply raises_only_if; [|eauto with raises].
    apply raises_only_evaluation.
Qed.

End train_main.

(** *** The runs of [main] on a main rank *)

Section train_main_runs.
Context `{Torch}.
Import Train.

(** The lines of the evaluation file. *)
Lemma eval_loop_run (eval_output : gmap string string) (file : string)
    (keys : list string) (p : Process) (lvl : level) (written : string) :
  (∀ key, key ∈ keys → is_Some (eval_output !! key)) →
  root_level p = Some lvl →
  text_files p !! file = Some written →
  ∃ p',
    for_each keys (λ key,
      value ← lift (getitem eval_output key);
      logger_info "  %s = %s" [LStr key; LStr value];;
      file_write file (key +:+ " = " +:+ value +:+ newline)) p
    = (Ok (), p')
    ∧ disk p' = disk p
    ∧ environ p' = environ p
    ∧ root_level p' = Some lvl
    ∧ text_files p'
      = <[file := written +:+
            foldr String.append ""
              ((λ key, key +:+ " = " +:+ default "" (eval_output !! key) +:+ newline)
                 <$> keys)]> (text_files p)
    ∧ made p'
      = made p ++ concat ((λ key, info_calls lvl "  %s = %s"
                                    [LStr key; LStr (default "" (eval_output !! key))])
                            <$> keys).
Proof.
  revert p written. induction keys as [|key keys IH]; intros p written Hkeys Hroot Hfile.
  - exists p. split_and!; try done.
    + cbn. rewrite PyStrFacts.app_nil_r. by rewrite insert_id.
    + cbn. by rewrite app_nil_r.
  - destruct (Hkeys key) as [value Hvalue]; [apply list_elem_of_here|].
    cbn [for_each]. unfold getitem. rewrite Hvalue.
    set (line := key +:+ " = " +:+ value +:+ newline).
    set (p1 := {|
      disk := disk p; listing := listing p; models := models p;
      evaluation := evaluation p; environ := environ p;
      text_files := <[file := written +:+ line]> (text_files p);
      root_level := root_level p;
      made := match lvl with
              | INFO => made p ++ [Log INFO "  %s = %s" [LStr key; LStr value]]
              | WARNING => made p
              end |}).
    erewrite (bind_ok _ _ p p1 ()); cycle 1.
    { erewrite bind_ok by reflexivity. unfold p1. clear IH p1.
      destruct lvl.
      all: erewrite bind_ok;
        [|unfold logger_info; erewrite bind_ok by reflexivity; rewrite Hroot;
          reflexivity].
      all: unfold file_write, modify; cbn [text_files]; rewrite Hfile; reflexivity. }
    destruct (IH p1 (written +:+ line))
      as (p' & Hrun & Hdisk & Henv & Hroot' & Hfiles & Hmade).
    { intros k Hk. by apply Hkeys, list_elem_of_further. }
    { done. }
    { apply lookup_insert_eq. }
    exists p'. split; [exact Hrun|]. split_and!; try done.
    + rewrite Hfiles. cbn [p1 text_files]. rewrite insert_insert_eq.
      cbn [fmap list_fmap foldr]. rewrite Hvalue. cbn [default].
      change (id value) with value. fold line. by rewrite PyStrFacts.app_assoc.
    + rewrite Hmade. cbn [p1 made fmap list_fmap concat]. rewrite Hvalue. cbn [default].
      change (id value) with value. destruct lvl; cbn [info_calls app]; [|done].
      by rewrite <- app_assoc.
Qed.


Ltac run_step :=
  erewrite bind_ok by reflexivity;
  cbn [disk listing models evaluation environ text_files root_level made
       json_files csv_files pretrained pt_files directories trace].

(** The guard of [main] lets every process through that it does not
    block. *)
Lemma main_guard_free (training_args : RunArguments) (p : Process) :
  ¬ output_dir_blocked training_args p →
  let dir_exists := bool_decide (output_dir training_args ∈ directories (disk p)) in
  dir_exists
    && negb (bool_decide ((if dir_exists
                           then default [] (listing p !! output_dir training_args)
                           else []) = []))
    && do_train training_args && negb (overwrite_output_dir training_args)
  = false.
Proof.
  intros Hfree dir_exists.
  destruct dir_exists eqn:Hd; cbn [andb]; [|done].
  destruct (bool_decide (default [] (listing p !! output_dir training_args) = []))
    eqn:He; cbn [negb andb]; [done|].
  destruct (do_train training_args) eqn:Ht; cbn [andb]; [|done].
  destruct (overwrite_output_dir training_args) eqn:Ho; cbn [negb]; [done|].
  destruct Hfree. split_and!; try done.
  - by apply bool_decide_eq_true in Hd.
  - by apply bool_decide_eq_false in He.
Qed.

(** The run of [main] on a main rank, when the output directory does not
    block it and what it loads is there. *)
Lemma train_main_run (model_args : ModelArguments)
    (databuilder_args : DatabuilderArguments.t) (training_args : RunArguments)
    (p : Process) (tokenizer : MT5Tokenizer) (model : Module) :
  let model_name :=
    if negb (PyStr.eqb (model_name_or_path model_args) "")
    then model_name_or_path model_args
    else DatabuilderArguments.tokenizer_name_or_path databuilder_args in
  let train_data :=
    if do_train training_args
    then pt_files (disk p) !! DatabuilderArguments.train_file_path databuilder_args
    else None in
  let valid_data :=
    if do_eval training_args
    then pt_files (disk p) !! DatabuilderArguments.valid_file_path databuilder_args
    else None in
  let t := {|
    trainer := Trainer.__init__ (label_smoothing_rate model_args)
                 (step_args training_args);
    trainer_model := model;
    train_dataset := train_data;
    eval_dataset := valid_data;
    data_collator := {|
      dc_tokenizer := tokenizer; dc_mode := "training";
      dc_using_tpu := bool_decide (is_Some (tpu_num_cores training_args)) |} |} in
  let file := path_join (output_dir training_args) "eval_results.txt" in
  let keys := sorted (map_to_list (evaluation p)).*1 in
  let lvl := default INFO (root_level p) in
  ¬ output_dir_blocked training_args p →
  is_main_rank (local_rank training_args) = true →
  pretrained (disk p) !! DatabuilderArguments.global_output_dir databuilder_args
    = Some tokenizer →
  models p !! model_name = Some model →
  (do_train training_args = true → is_Some train_data) →
  (do_eval training_args = true → is_Some valid_data) →
  ∃ p',
    main model_args databuilder_args training_args p = (Ok (), p')
    ∧ pretrained (disk p')
      = (if do_train training_args
         then <[output_dir training_args := tokenizer]> (pretrained (disk p))
         else pretrained (disk p))
    ∧ pt_files (disk p') = pt_files (disk p)
    ∧ environ p' = <["WANDB_PROJECT" := wandb_project_name model_args]> (environ p)
    ∧ text_files p'
      = (if do_eval training_args
         then <[file := foldr String.append ""
                  ((λ key, key +:+ " = " +:+ default "" (evaluation p !! key) +:+ newline)
                     <$> keys)]> (text_files p)
         else text_files p)
    ∧ made p'
      = made p
        ++ [Log WARNING
              "Process rank: %s, device: %s, n_gpu: %s, distributed training: %s, 16-bits training: %s"
              [LInt (local_rank training_args);
               LDevice (device (step_args training_args));
               LInt (n_gpu (step_args training_args));
               LBool (negb (bool_decide (local_rank training_args = (-1)%Z)));
               LBool (fp16 (step_args training_args))]]
        ++ info_calls lvl "Training/evaluation parameters %s" [LArguments training_args]
        ++ [SetSeed (seed training_args);
            LoadTokenizer (DatabuilderArguments.global_output_dir databuilder_args);
            LoadModel model_name;
            ResizeTokenEmbeddings tokenizer]
        ++ info_calls lvl "Loading datasets..." []
        ++ (if do_train training_args
            then [TorchLoad (DatabuilderArguments.train_file_path databuilder_args)]
            else [])
        ++ info_calls lvl (DatabuilderArguments.train_file_path databuilder_args +:+
                           " has been loaded. ") []
        ++ (if do_eval training_args
            then [TorchLoad (DatabuilderArguments.valid_file_path databuilder_args)]
            else [])
        ++ info_calls lvl (DatabuilderArguments.valid_file_path databuilder_args +:+
                           " has been loaded. ") []
        ++ [SetLoggerLevel "wandb.run_manager" WARNING]
        ++ (if do_train training_args
            then [TrainerTrain t; SaveModel (output_dir training_args);
                  SaveTokenizer (output_dir training_args)]
            else [])
        ++ (if do_eval training_args
            then info_calls lvl "*** Evaluate ***" []
                 ++ [TrainerEvaluate t; OpenFile file]
                 ++ info_calls lvl "***** Eval results *****" []
                 ++ concat ((λ key, info_calls lvl "  %s = %s"
                                      [LStr key; LStr (default "" (evaluation p !! key))])
                              <$> keys)
            else []).
Proof.
  intros model_name train_data valid_data t file keys lvl
    Hfree Hrank Htok Hmodel Htrain Hvalid.
  unfold main. fold model_name.
  erewrite bind_ok by reflexivity.
  set (dir_exists := bool_decide (output_dir training_args ∈ directories (disk p))).
  assert ((if dir_exists then listdir (output_dir training_args) else mret []) p
          = (Ok (if dir_exists then default [] (listing p !! output_dir training_args)
                 else []), p)) as Hlist by by destruct dir_exists.
  erewrite bind_ok by exact Hlist.
  pose proof (main_guard_free _ _ Hfree) as Hguard. cbv zeta in Hguard.
  fold dir_exists in Hguard. rewrite Hguard. clear Hguard Hlist dir_exists.
  erewrite bind_ok by reflexivity.
  rewrite Hrank. destruct p as [dsk lst mods ev env tf rl md].
  cbn [disk listing models evaluation environ text_files root_level made] in *.
  assert (∀ key, key ∈ keys → is_Some (ev !! key)) as Hkeys.
  { intros key [value Hkey]%sorted_keys. by exists value. }
  subst lvl. clear Hfree. destruct rl as [[|]|]; cbn [from_option id].
  all: do 5 run_step.
  all: (erewrite bind_ok;
          [|unfold load_tokenizer; run_step; rewrite Htok; by run_step]).
  all: (erewrite bind_ok;
          [|unfold load_model; run_step; rewrite Hmodel; by run_step]).
  all: do 2 run_step.
  all: subst t train_data valid_data.
  all: destruct (do_train training_args) eqn:Hdt, (do_eval training_args) eqn:Hde;
    cbn [andb];
    try (destruct (Htrain eq_refl) as [train_dataset Htd]; rewrite Htd);
    try (destruct (Hvalid eq_refl) as [valid_dataset Hvd]; rewrite Hvd);
    clear Htrain Hvalid.
  all: repeat first
         [ run_step
         | erewrite bind_ok;
             [|erewrite bind_ok; [reflexivity|]; unfold torch_load; run_step;
               rewrite ?Htd, ?Hvd; by run_step] ].
  all: try (eexists; split; [reflexivity|];
            cbn [disk listing models evaluation environ text_files root_level made
                 pretrained pt_files info_calls];
            split_and!; try reflexivity; cbn [app]; by rewrite <- ?app_assoc).
  all: lazymatch goal with
       | |- ∃ final, for_each _ _ ?s = _ ∧ _ =>
           assert (text_files s !! file = Some "") as Hopen
             by apply lookup_insert_eq;
           pose proof (eval_loop_run ev file keys s _ "" Hkeys eq_refl Hopen) as Hloop
       end.
  all: destruct Hloop as (q & Hrun & Hdisk & Henv & _ & Hfiles & Hmade).
  all: exists q; split; [exact Hrun|]; rewrite Hdisk, Henv, Hfiles, Hmade;
       cbn [disk listing models evaluation environ text_files root_level made
            pretrained pt_files info_calls];
       rewrite insert_insert_eq, PyStrFacts.app_nil_l;
       split_and!; try reflexivity; cbn [app]; by rewrite <- ?app_assoc.
Qed.


(** A run that neither trains nor evaluates loads the tokenizer and the
    model and nothing else: no dataset is read, no trainer method is called
    and no file is written; both datasets are all the same reported as
    loaded. *)
Theorem train_main_idle_run (model_args : ModelArguments)
    (databuilder_args : DatabuilderArguments.t) (training_args : RunArguments)
    (p : Process) (tokenizer : MT5Tokenizer) (model : Module) :
  let model_name :=
    if negb (PyStr.eqb (model_name_or_path model_args) "")
    then model_name_or_path model_args
    else DatabuilderArguments.tokenizer_name_or_path databuilder_args in
  do_train training_args = false →
  do_eval training_args = false →
  root_level p = None →
  is_main_rank (local_rank training_args) = true →
  pretrained (disk p) !! DatabuilderArguments.global_output_dir databuilder_args
    = Some tokenizer →
  models p !! model_name = Some model →
  ∃ p',
    main model_args databuilder_args training_args p = (Ok (), p')
    ∧ pretrained (disk p') = pretrained (disk p)
    ∧ pt_files (disk p') = pt_files (disk p)
    ∧ text_files p' = text_files p
    ∧ made p'
      = made p
        ++ [Log WARNING
              "Process rank: %s, device: %s, n_gpu: %s, distributed training: %s, 16-bits training: %s"
              [LInt (local_rank training_args);
               LDevice (device (step_args training_args));
               LInt (n_gpu (step_args training_args));
               LBool (negb (bool_decide (local_rank training_args = (-1)%Z)));
               LBool (fp16 (step_args training_args))];
            Log INFO "Training/evaluation parameters %s" [LArguments training_args];
            SetSeed (seed training_args);
            LoadTokenizer (DatabuilderArguments.global_output_dir databuilder_args);
            LoadModel model_name;
            ResizeTokenEmbeddings tokenizer;
            Log INFO "Loading datasets..." [];
            Log INFO (DatabuilderArguments.train_file_path databuilder_args +:+
                      " has been loaded. ") [];
            Log INFO (DatabuilderArguments.valid_file_path databuilder_args +:+
                      " has been loaded. ") [];
            SetLoggerLevel "wandb.run_manager" WARNING].
Proof.
  intros model_name Hdt Hde Hroot Hrank Htok Hmodel.
  destruct (train_main_run model_args databuilder_args training_args p tokenizer model)
    as (p' & Hrun & Hpre & Hpt & _ & Hfiles & Hmade); try done.
  { intros (_ & _ & Ht & _). congruence. }
  { intros Ht. congruence. }
  { intros He. congruence. }
  rewrite Hdt in Hpre, Hmade. rewrite Hde in Hfiles, Hmade. rewrite Hroot in Hmade.
  exists p'. by split_and!.
Qed.

(** An evaluation on a main rank leaves at [eval_results.txt] under the
    output directory one line [key = value] per metric of the evaluation,
    in the ascending order of the keys, whatever the file held before and
    whatever the level of the root logger; the other text files are as they
    were. *)
Theorem train_main_writes_sorted_metrics (model_args : ModelArguments)
    (databuilder_args : DatabuilderArguments.t) (training_args : RunArguments)
    (p : Process) (tokenizer : MT5Tokenizer) (model : Module)
    (valid_dataset : FormattedDataset) :
  let model_name :=
    if negb (PyStr.eqb (model_name_or_path model_args) "")
    then model_name_or_path model_args
    else DatabuilderArguments.tokenizer_name_or_path databuilder_args in
  do_train training_args = false →
  do_eval training_args = true →
  is_main_rank (local_rank training_args) = true →
  pretrained (disk p) !! DatabuilderArguments.global_output_dir databuilder_args
    = Some tokenizer →
  models p !! model_name = Some model →
  pt_files (disk p) !! DatabuilderArguments.valid_file_path databuilder_args
    = Some valid_dataset →
  ∃ p' keys,
    main model_args databuilder_args training_args p = (Ok (), p')
    ∧ Sorted String.le keys
    ∧ keys ≡ₚ (map_to_list (evaluation p)).*1
    ∧ text_files p'
      = <[path_join (output_dir training_args) "eval_results.txt" :=
            foldr String.append ""
              ((λ key, key +:+ " = " +:+ default "" (evaluation p !! key) +:+ newline)
                 <$> keys)]> (text_files p).
Proof.
  intros model_name Hdt Hde Hrank Htok Hmodel Hvalid.
  destruct (train_main_run model_args databuilder_args training_args p tokenizer model)
    as (p' & Hrun & _ & _ & _ & Hfiles & _); try done.
  { intros (_ & _ & Ht & _). congruence. }
  { intros Ht. congruence. }
  { intros _. rewrite Hde, Hvalid. by eexists. }
  rewrite Hde in Hfiles.
  exists p', (sorted (map_to_list (evaluation p)).*1). split_and!; try done.
  - apply (Sorted_merge_sort _).
  - apply merge_sort_Permutation.
Qed.

End train_main_runs.

(** *** databuilder.py, then train.py *)

Section builder_then_trainer.
Context `{Torch}.

Ltac find_call := solve [ reflexivity | left; find_call | right; find_call ].

(** [main] of train.py after [main] of databuilder.py: on the disk that a
    run of the data builder on well-formed input with at least one training
    row leaves behind, a training
    and evaluation run that the output directory does not block loads what
    it needs and runs through; the trainer trains and evaluates on one and
    the same dataset, which has one example per row of the training frame,
    its collator holds the tokenizer with both special tokens added, and
    that tokenizer is saved in the output directory. *)
Theorem train_main_after_databuilder (model_args : Train.ModelArguments)
    (db_args : DatabuilderArguments.t) (training_args : Train.RunArguments)
    (w : World) (config : list (string * string)) (train_df valid_df : DataFrame)
    (tok : MT5Tokenizer) (p : Train.Process) (model : Module) :
  let model_name :=
    if negb (PyStr.eqb (Train.model_name_or_path model_args) "")
    then Train.model_name_or_path model_args
    else DatabuilderArguments.tokenizer_name_or_path db_args in
  let tokenizer :=
    add_tokens [DatabuilderArguments.highlight_token db_args;
                DatabuilderArguments.separation_token db_args] tok in
  json_files w !! DatabuilderArguments.config_path db_args = Some config →
  csv_files w !! DatabuilderArguments.train_csv_path db_args = Some train_df →
  csv_files w !! DatabuilderArguments.valid_csv_path db_args = Some valid_df →
  configuration_ok db_args train_df valid_df →
  well_formed train_df →
  values train_df ≠ [] →
  pretrained w !! DatabuilderArguments.tokenizer_name_or_path db_args = Some tok →
  Train.disk p = (main db_args w).2 →
  Train.models p !! model_name = Some model →
  Train.do_train training_args = true →
  Train.do_eval training_args = true →
  Train.is_main_rank (Train.local_rank training_args) = true →
  ¬ Train.output_dir_blocked training_args p →
  ∃ p' t saved,
    Train.main model_args db_args training_args p = (Ok (), p')
    ∧ Train.TrainerTrain t ∈ Train.made p'
    ∧ Train.TrainerEvaluate t ∈ Train.made p'
    ∧ Train.train_dataset t = Some saved
    ∧ Train.eval_dataset t = Some saved
    ∧ length (examples saved) = length (values train_df)
    ∧ Train.dc_tokenizer (Train.data_collator t) = tokenizer
    ∧ Trainer.label_smoothing (Train.trainer t) = Train.label_smoothing_rate model_args
    ∧ Trainer.args (Train.trainer t) = Train.step_args training_args
    ∧ pretrained (Train.disk p') !! Train.output_dir training_args = Some tokenizer.
Proof.
  intros model_name tokenizer Hjson Htrain Hvalid Hconf Hwf Hrows Htok Hdisk Hmodel
    Hdt Hde Hrank Hfree.
  destruct (main_run_well_formed db_args w config train_df valid_df tok
              Hjson Htrain Hvalid Hconf Hwf Hrows Htok)
    as (w' & encoded & Hbuilt & Hlen & Hpt & Hpre & _).
  rewrite Hbuilt in Hdisk. cbn [snd] in Hdisk. cbv zeta in Hpt, Hpre.
  set (saved := {| examples := encoded; format_type := "torch";
                   format_columns := ["source_ids"; "target_ids"; "attention_mask"] |})
    in Hpt.
  assert (pt_files (Train.disk p) !! DatabuilderArguments.valid_file_path db_args = Some saved)
    as Hv.
  { rewrite Hdisk, Hpt. apply lookup_insert_eq. }
  assert (pt_files (Train.disk p) !! DatabuilderArguments.train_file_path db_args = Some saved)
    as Ht.
  { rewrite Hdisk, Hpt.
    destruct (decide (DatabuilderArguments.valid_file_path db_args
                      = DatabuilderArguments.train_file_path db_args)) as [->|Hne].
    - apply lookup_insert_eq.
    - rewrite lookup_insert_ne by done. apply lookup_insert_eq. }
  destruct (train_main_run model_args db_args training_args p tokenizer model)
    as (p' & Hrun & Hpre' & _ & _ & _ & Hmade); try done.
  { rewrite Hdisk, Hpre. apply lookup_insert_eq. }
  { intros _. rewrite Hdt, Ht. by eexists. }
  { intros _. rewrite Hde, Hv. by eexists. }
  rewrite Hdt in Hpre', Hmade. rewrite Hde in Hmade. rewrite Ht, Hv in Hmade.
  match type of Hmade with
  | context [Train.TrainerTrain ?t] => exists p', t, saved
  end.
  split; [exact Hrun|]. split_and!.
  - rewrite Hmade, !elem_of_app, !elem_of_cons. find_call.
  - rewrite Hmade, !elem_of_app, !elem_of_cons. find_call.
  - reflexivity.
  - reflexivity.
  - exact Hlen.
  - reflexivity.
  - reflexivity.
  - reflexivity.
  - rewrite Hpre'. apply lookup_insert_eq.
Qed.

End builder_then_trainer.

(** *** The runs of [main] on a worker rank *)

Section train_main_hushed.
Context `{Torch}.
Import Train.

Lemma hushed_bind {A B} (m : M Process A) (k : A → M Process B) :
  hushed m → (∀ a, hushed (k a)) → hushed (m ≫= k).
Proof.
  intros Hm Hk p Hroot. destruct (Hm p Hroot) as (Hroot1 & Hfiles1 & es1 & Hmade1 & Hq1).
  unfold mbind, M_bind. destruct (m p) as [[a|e] p1]; cbn [snd] in *.
  - destruct (Hk a p1 Hroot1) as (Hroot2 & Hfiles2 & es2 & Hmade2 & Hq2).
    split_and!; [done|congruence|]. exists (es1 ++ es2). split.
    + by rewrite Hmade2, Hmade1, app_assoc.
    + by apply Forall_app.
  - split_and!; [done..|]. by exists es1.
Qed.

Lemma hushed_ret {A} (a : A) : hushed (mret a).
Proof. intros p Hroot. split_and!; [done..|]. exists []. by rewrite app_nil_r. Qed.

Lemma hushed_raise {A} (e : error) : hushed (raise (A := A) e).
Proof. intros p Hroot. split_and!; [done..|]. exists []. by rewrite app_nil_r. Qed.

Lemma hushed_get : hushed (get (S := Process)).
Proof. intros p Hroot. split_and!; [done..|]. exists []. by rewrite app_nil_r. Qed.

Lemma hushed_emit (e : event) : quiet e → hushed (emit e).
Proof.
  intros He p Hroot. split_and!; [done..|]. exists [e]. split; [done|].
  by constructor.
Qed.

Lemma hushed_if {A} (c : bool) (m1 m2 : M Process A) :
  hushed m1 → hushed m2 → hushed (if c then m1 else m2).
Proof. by destruct c. Qed.

Lemma hushed_logger_info (msg : string) (values : list log_value) :
  hushed (logger_info msg values).
Proof.
  intros p Hroot. unfold logger_info. erewrite bind_ok by reflexivity.
  rewrite Hroot. by apply hushed_ret.
Qed.

Lemma hushed_setenv (key value : string) : hushed (setenv key value).
Proof. intros p Hroot. split_and!; [done..|]. exists []. by rewrite app_nil_r. Qed.

Lemma hushed_save_tokenizer (tokenizer : MT5Tokenizer) (dir : string) :
  hushed (save_tokenizer tokenizer dir).
Proof.
  intros p Hroot. split_and!; [done..|]. exists [SaveTokenizer dir]. split; [done|].
  by constructor.
Qed.

Lemma hushed_load_tokenizer (path : string) : hushed (load_tokenizer path).
Proof.
  apply hushed_bind; [apply hushed_get|]. intros p.
  destruct (pretrained (disk p) !! path); [|apply hushed_raise].
  apply hushed_bind; [by apply hushed_emit|]. intros _. apply hushed_ret.
Qed.

Lemma hushed_load_model (name : string) : hushed (load_model name).
Proof.
  apply hushed_bind; [apply hushed_get|]. intros p.
  destruct (models p !! name); [|apply hushed_raise].
  apply hushed_bind; [by apply hushed_emit|]. intros _. apply hushed_ret.
Qed.

Lemma hushed_torch_load (path : string) : hushed (torch_load path).
Proof.
  apply hushed_bind; [apply hushed_get|]. intros p.
  destruct (pt_files (disk p) !! path); [|apply hushed_raise].
  apply hushed_bind; [by apply hushed_emit|]. intros _. apply hushed_ret.
Qed.

Create HintDb hushed.
#[local] Hint Resolve hushed_bind hushed_ret hushed_raise hushed_get hushed_if
  hushed_logger_info hushed_setenv hushed_save_tokenizer hushed_load_tokenizer
  hushed_load_model hushed_torch_load : hushed.
#[local] Hint Extern 1 (hushed (emit _)) => apply hushed_emit; exact I : hushed.
#[local] Hint Extern 1 (hushed (logger_warning _ _)) =>
  apply hushed_emit; reflexivity : hushed.

(** On a worker rank, that is a local rank other than -1 and 0, with a root
    logger that is not yet at [INFO], every run of [main], raising or not,
    makes no log call below [WARNING], does not evaluate even when
    evaluation is asked for, and touches no text file. *)
Theorem train_main_worker_rank (model_args : ModelArguments)
    (databuilder_args : DatabuilderArguments.t) (training_args : RunArguments)
    (p : Process) :
  is_main_rank (local_rank training_args) = false →
  root_level p ≠ Some INFO →
  let p' := (main model_args databuilder_args training_args p).2 in
  text_files p' = text_files p
  ∧ ∃ es, made p' = made p ++ es ∧ Forall quiet es.
Proof.
  intros Hrank Hroot p'. subst p'. unfold main.
  erewrite bind_ok by reflexivity.
  set (dir_exists := bool_decide (output_dir training_args ∈ directories (disk p))).
  assert ((if dir_exists then listdir (output_dir training_args) else mret []) p
          = (Ok (if dir_exists then default [] (listing p !! output_dir training_args)
                 else []), p)) as Hlist by by destruct dir_exists.
  erewrite bind_ok by exact Hlist. clear Hlist.
  match goal with
  | |- context [if ?c then raise _ else mret ()] => destruct c
  end.
  { erewrite bind_err by reflexivity. split; [done|]. exists []. by rewrite app_nil_r. }
  erewrite bind_ok by reflexivity. rewrite Hrank, andb_false_r.
  erewrite bind_ok by reflexivity.
  match goal with
  | |- context [(?rest ?s).2] =>
      assert (hushed rest) as Hrest; [|destruct (Hrest s) as (_ & Hfiles & Hmade)]
  end.
  { repeat (apply hushed_bind; [solve [eauto 10 with hushed]|intros ?; cbv zeta]).
    eauto with hushed. }
  { cbn [root_level]. by destruct (root_level p) as [[]|]. }
  done.
Qed.

End train_main_hushed.

(** *** The theorems on concrete runs *)

Lemma training_step_fp16_without_apex_witness :
  Trainer._training_step
    (Trainer.__init__ (H := TrainSample.torch_without_apex) 0%Q TrainSample.fp16_args)
    TrainSample.plain_model 128%Q TrainSample.plain_heap
  = (Err (NameError "amp"),
     {| inputs := Trainer.sent_inputs
                    (Trainer.__init__ (H := TrainSample.torch_without_apex) 0%Q
                       TrainSample.fp16_args)
                    TrainSample.plain_model (inputs TrainSample.plain_heap);
        training := true;
        calls := calls TrainSample.plain_heap
                 ++ [ModelTrain;
                     ModelForward
                       (Trainer.sent_inputs
                          (Trainer.__init__ (H := TrainSample.torch_without_apex) 0%Q
                             TrainSample.fp16_args)
                          TrainSample.plain_model (inputs TrainSample.plain_heap))] |}).
Proof.
  apply (training_step_fp16_without_apex (H := TrainSample.torch_without_apex)
           (Trainer.__init__ (H := TrainSample.torch_without_apex) 0%Q
              TrainSample.fp16_args)
           TrainSample.plain_model 128%Q TrainSample.plain_heap
           {| Sample.elements := [3%Q]; Sample.on := "cuda:0" |} []).
  - reflexivity.
  - reflexivity.
  - vm_compute. reflexivity.
Defined.

Lemma training_step_inputs_settle_witness :
  let self := Trainer.__init__ (H := Sample.q_torch) 0%Q (Sample.training_args false) in
  let h1 := (Trainer._training_step self Sample.model 128%Q Sample.heap).2 in
  inputs (Trainer._training_step self Sample.model 128%Q h1).2 = inputs h1.
Proof.
  apply (training_step_inputs_settle (H := Sample.q_torch)
           (Trainer.__init__ (H := Sample.q_torch) 0%Q (Sample.training_args false))
           Sample.model 128%Q Sample.heap).
  intros t. reflexivity.
Defined.

Lemma train_main_raises_witness :
  Train.main TrainSample.model_args Sample.small_args TrainSample.blocked_args
    TrainSample.process
  = (Err (ValueError
            "Output directory (model) already exists and is not empty. Use --overwrite_output_dir to overcome. "),
     TrainSample.process).
Proof.
  apply (train_main_raises (H := Sample.q_torch) TrainSample.model_args
           Sample.small_args TrainSample.blocked_args TrainSample.process).
  unfold Train.output_dir_blocked. split_and!.
  - apply (bool_decide_unpack _). vm_compute. exact I.
  - vm_compute. discriminate.
  - reflexivity.
  - reflexivity.
Defined.

Lemma train_main_idle_run_witness :
  ∃ p' : Train.Process (H := Sample.q_torch),
    Train.main TrainSample.model_args Sample.small_args
      (TrainSample.training_args false false (-1)) TrainSample.process
    = (Ok (), p')
    ∧ pretrained (Train.disk p') = pretrained (Train.disk TrainSample.process)
    ∧ pt_files (Train.disk p') = pt_files (Train.disk TrainSample.process)
    ∧ Train.text_files p' = ∅
    ∧ Train.made p'
      = [Train.Log Train.WARNING
           "Process rank: %s, device: %s, n_gpu: %s, distributed training: %s, 16-bits training: %s"
           [Train.LInt (-1); Train.LDevice (H := Sample.q_torch) "cuda:0"; Train.LInt 2;
            Train.LBool false; Train.LBool false];
         Train.Log Train.INFO "Training/evaluation parameters %s"
           [Train.LArguments (TrainSample.training_args false false (-1))];
         Train.SetSeed 42;
         Train.LoadTokenizer "model";
         Train.LoadModel "google/mt5-small";
         Train.ResizeTokenEmbeddings
           (add_tokens ["<hl>"; "<sep>"] Sample.char_tokenizer);
         Train.Log Train.INFO "Loading datasets..." [];
         Train.Log Train.INFO "data/train.pt has been loaded. " [];
         Train.Log Train.INFO "data/valid.pt has been loaded. " [];
         Train.SetLoggerLevel "wandb.run_manager" Train.WARNING].
Proof.
  apply (train_main_idle_run (H := Sample.q_torch) TrainSample.model_args
           Sample.small_args (TrainSample.training_args false false (-1))
           TrainSample.process
           (add_tokens ["<hl>"; "<sep>"] Sample.char_tokenizer) Sample.model).
  - reflexivity.
  - reflexivity.
  - reflexivity.
  - reflexivity.
  - vm_compute. reflexivity.
  - vm_compute. reflexivity.
Defined.

Lemma train_main_writes_sorted_metrics_witness :
  ∃ (p' : Train.Process (H := Sample.q_torch)) keys,
    Train.main TrainSample.model_args Sample.small_args
      (TrainSample.training_args false true 0) TrainSample.process
    = (Ok (), p')
    ∧ Sorted String.le keys
    ∧ keys ≡ₚ (map_to_list (Train.evaluation TrainSample.process)).*1
    ∧ Train.text_files p'
      = <[path_join "out" "eval_results.txt" :=
            foldr String.append ""
              ((λ key, key +:+ " = " +:+
                       default "" (Train.evaluation TrainSample.process !! key) +:+
                       newline) <$> keys)]> ∅.
Proof.
  apply (train_main_writes_sorted_metrics (H := Sample.q_torch) TrainSample.model_args
           Sample.small_args (TrainSample.training_args false true 0)
           TrainSample.process
           (add_tokens ["<hl>"; "<sep>"] Sample.char_tokenizer) Sample.model
           (default {| examples := []; format_type := "torch"; format_columns := [] |}
              (pt_files (Train.disk TrainSample.process) !! "data/valid.pt"))).
  - reflexivity.
  - reflexivity.
  - reflexivity.
  - vm_compute. reflexivity.
  - vm_compute. reflexivity.
  - vm_compute. reflexivity.
Defined.

Lemma train_main_after_databuilder_witness :
  ∃ (p' : Train.Process (H := Sample.q_torch))
    (t : Train.TrainerObject (H := Sample.q_torch)) saved,
    Train.main TrainSample.model_args Sample.small_args
      (TrainSample.training_args true true (-1)) TrainSample.process
    = (Ok (), p')
    ∧ Train.TrainerTrain t ∈ Train.made p'
    ∧ Train.TrainerEvaluate t ∈ Train.made p'
    ∧ Train.train_dataset t = Some saved
    ∧ Train.eval_dataset t = Some saved
    ∧ length (examples saved) = 2
    ∧ Train.dc_tokenizer (Train.data_collator t)
      = add_tokens ["<hl>"; "<sep>"] Sample.char_tokenizer
    ∧ Trainer.label_smoothing (Train.trainer t) = (1 # 10)%Q
    ∧ Trainer.args (Train.trainer t) = Sample.training_args false
    ∧ pretrained (Train.disk p') !! "out"
      = Some (add_tokens ["<hl>"; "<sep>"] Sample.char_tokenizer).
Proof.
  pose proof (train_main_after_databuilder (H := Sample.q_torch) TrainSample.model_args
                Sample.small_args (TrainSample.training_args true true (-1))
                Sample.world [("source_max_length", "8"); ("target_max_length", "4")]
                Sample.train_df Sample.valid_df Sample.char_tokenizer
                TrainSample.process Sample.model) as Hrun.
  cbv zeta in Hrun.
  assert (Train.models TrainSample.process !! "google/mt5-small" = Some Sample.model)
    as Hmodel by (vm_compute; reflexivity).
  assert (¬ Train.output_dir_blocked (TrainSample.training_args true true (-1))
              TrainSample.process) as Hfree.
  { intros (Hdir & _).
    assert (bool_decide ("out" ∈ directories (Train.disk TrainSample.process)) = false)
      as Hout by (vm_compute; reflexivity).
    apply bool_decide_eq_false in Hout. exact (Hout Hdir). }
  assert (configuration_ok Sample.small_args Sample.train_df Sample.valid_df) as Hconf.
  { unfold configuration_ok. cbn. split_and!.
    + apply list_elem_of_here.
    + apply list_elem_of_further, list_elem_of_here.
    + apply list_elem_of_here.
    + apply list_elem_of_further, list_elem_of_here.
    + by exists "data/train".
    + by exists "data/valid". }
  assert (well_formed Sample.train_df) as Hwf by repeat constructor.
  assert (values Sample.train_df ≠ []) as Hrows by discriminate.
  specialize (Hrun eq_refl eq_refl eq_refl Hconf Hwf Hrows eq_refl eq_refl Hmodel
                eq_refl eq_refl eq_refl Hfree).
  change (length (values Sample.train_df)) with 2 in Hrun.
  exact Hrun.
Defined.

Lemma train_main_worker_rank_witness :
  let p' := (Train.main TrainSample.model_args Sample.small_args
               (TrainSample.training_args true true 1) TrainSample.process).2 in
  Train.text_files p' = Train.text_files TrainSample.process
  ∧ ∃ es, Train.made p' = Train.made TrainSample.process ++ es
      ∧ Forall Train.quiet es.
Proof.
  apply (train_main_worker_rank (H := Sample.q_torch) TrainSample.model_args
           Sample.small_args (TrainSample.training_args true true 1)
           TrainSample.process).
  - reflexivity.
  - discriminate.
Defined.
